(** * The gratitude-app API gateway: sanitization, prompt construction and
      response contract of the AI routes.

    The development embeds the gateway's JavaScript (the Express handlers of
    the AI routes and the helpers they share) and states the properties of
    the specification over that embedding.

    Conventions of the embedding.
    - A JavaScript value is a [JsVal]: what JSON.parse can build, undefined,
      and built-in methods.  A number is an integer that JavaScript holds
      exactly: [JNum n] stands for a JavaScript number when
      -2^53 <= n <= 2^53, and there its string form is the decimal one.
      Beyond that range JavaScript rounds the number and prints the
      shortest digits that read back the same, or an exponent from 10^21;
      [Z] does neither, and no property speaks about the digits of such a
      number.  A string is a sequence of code units in the range 0..255,
      one [ascii] each.
    - A thrown value is an Error object, given by its properties
      ([JsError]); a computation that may throw returns a [result].  The
      messages of the runtime's own errors are worded after V8, which
      names the callee in [... is not a function]; no property depends on
      their wording.
    - Handlers run in the monad [M]: they thread the responses written to
      [res] and the requests sent to the LLM client, and may throw.  An
      [await] is a sequencing point and nothing more: a route makes at most
      one call and shares no state with other requests.
    - [JSON.parse], [JSON.stringify] and the LLM client's
      [chat.completions.create] belong to the runtime, not to the gateway:
      they are variables of the section.  The client resolves with a
      response object or rejects with an Error object. *)

From Stdlib Require Import String Ascii List ZArith QArith Lia Bool DecimalString DecimalZ.
Import ListNotations.
Local Open Scope string_scope.
Local Open Scope Z_scope.

(* ================================================================== *)
(** ** JavaScript values *)

#[warnings="-register-all"]
Inductive JsVal : Type :=
| JUndefined
| JNull
| JBool (b : bool)
| JNum (z : Z)
| JStr (s : string)
| JArr (xs : list JsVal)
| JObj (props : list (string * JsVal))
| JNative (name : string).   (* a built-in method, e.g. Array.prototype.entries *)

(** An Error object: its readable properties ([message], [status], ...). *)
Definition JsError : Type := list (string * JsVal).

Inductive result (A : Type) : Type :=
| Ok (a : A)
| Throw (e : JsError).
Arguments Ok {A} a.
Arguments Throw {A} e.

Definition rbind {A B} (r : result A) (k : A -> result B) : result B :=
  match r with
  | Ok a => k a
  | Throw e => Throw e
  end.

Declare Scope result_scope.
Delimit Scope result_scope with res.
Notation "x <- r ;; k" := (rbind r (fun x => k))
  (at level 61, r at next level, right associativity) : result_scope.

Definition Error (msg : string) : JsError :=
  [("name", JStr "Error"); ("message", JStr msg)].
Definition TypeError (msg : string) : JsError :=
  [("name", JStr "TypeError"); ("message", JStr msg)].
Definition SyntaxError (msg : string) : JsError :=
  [("name", JStr "SyntaxError"); ("message", JStr msg)].
Definition RangeError (msg : string) : JsError :=
  [("name", JStr "RangeError"); ("message", JStr msg)].

(** Own-property lookup; the first binding of a key is the live one. *)
Fixpoint lookup (k : string) (props : list (string * JsVal)) : option JsVal :=
  match props with
  | [] => None
  | (k', v) :: rest => if String.eqb k k' then Some v else lookup k rest
  end.

Definition has_own (k : string) (props : list (string * JsVal)) : bool :=
  match lookup k props with Some _ => true | None => false end.

(** ToBoolean.  (NaN is not an integer-valued number.) *)
Definition truthy (v : JsVal) : bool :=
  match v with
  | JUndefined | JNull => false
  | JBool b => b
  | JNum z => negb (z =? 0)
  | JStr s => negb (String.eqb s "")
  | JArr _ | JObj _ | JNative _ => true
  end.

(** [a || b] and [a ?? b]. *)
Definition js_or (a b : JsVal) : JsVal := if truthy a then a else b.

Definition nullish (v : JsVal) : bool :=
  match v with JUndefined | JNull => true | _ => false end.

Definition Z_to_string (z : Z) : string := NilZero.string_of_int (Z.to_int z).

Definition nth_char (s : string) (i : nat) : JsVal :=
  match String.get i s with
  | Some c => JStr (String c "")
  | None => JUndefined
  end.

(** Property read [v.k] on a value that is neither null nor undefined.
    Plain objects answer with their own properties (none of the keys the
    gateway reads is a member of Object.prototype); arrays and strings
    answer [length]; of the keys the gateway reads, [entries] is the only
    one that names a method of Array.prototype. *)
Definition get_prop (v : JsVal) (k : string) : JsVal :=
  match v with
  | JObj props => match lookup k props with Some x => x | None => JUndefined end
  | JArr xs =>
      if String.eqb k "length" then JNum (Z.of_nat (List.length xs))
      else if String.eqb k "entries" then JNative "entries"
      else JUndefined
  | JStr s =>
      if String.eqb k "length" then JNum (Z.of_nat (String.length s))
      else JUndefined
  | _ => JUndefined
  end.

(** [v?.k] *)
Definition get_opt (v : JsVal) (k : string) : JsVal :=
  if nullish v then JUndefined else get_prop v k.

(** [v.k]: a TypeError on null and undefined. *)
Definition get_dot (v : JsVal) (k : string) : result JsVal :=
  if nullish v
  then Throw (TypeError ("Cannot read properties of " ++
                         (match v with JNull => "null" | _ => "undefined" end) ++
                         " (reading '" ++ k ++ "')"))
  else Ok (get_prop v k).

(** [v?.[i]] *)
Definition get_opt_index (v : JsVal) (i : nat) : JsVal :=
  match v with
  | JArr xs => nth i xs JUndefined
  | JStr s => nth_char s i
  | JObj props =>
      match lookup (Z_to_string (Z.of_nat i)) props with
      | Some x => x
      | None => JUndefined
      end
  | _ => JUndefined
  end.

(* ================================================================== *)
(** ** Strings: ToString, trim, slice *)

(** ToString, as [String(v)] applies it.  A plain object is converted by
    OrdinaryToPrimitive: an own, non-callable [toString] property hides
    Object.prototype.toString, Object.prototype.valueOf returns the object
    itself, and the conversion ends in a TypeError.  An array is joined with
    commas, null and undefined elements giving the empty string.  A number
    is printed in decimal, which is what JavaScript prints for the
    integers it holds exactly (up to 2^53 in absolute value). *)
Fixpoint ToString (v : JsVal) : result string :=
  match v with
  | JUndefined => Ok "undefined"
  | JNull => Ok "null"
  | JBool true => Ok "true"
  | JBool false => Ok "false"
  | JNum z => Ok (Z_to_string z)
  | JStr s => Ok s
  | JNative name => Ok ("function " ++ name ++ "() { [native code] }")
  | JObj props =>
      if has_own "toString" props
      then Throw (TypeError "Cannot convert object to primitive value")
      else Ok "[object Object]"
  | JArr xs =>
      (fix join (l : list JsVal) : result string :=
         match l with
         | [] => Ok ""
         | x :: rest =>
             (sx <- match x with
                    | JUndefined | JNull => Ok ""
                    | _ => ToString x
                    end ;;
              match rest with
              | [] => Ok sx
              | _ :: _ => (sr <- join rest ;; Ok (sx ++ "," ++ sr))
              end)%res
         end) xs
  end.

(** WhiteSpace and LineTerminator code units below 256:
    TAB, LF, VT, FF, CR, SP, NBSP. *)
Definition is_ws (c : ascii) : bool :=
  let n := nat_of_ascii c in
  (Nat.eqb n 9 || Nat.eqb n 10 || Nat.eqb n 11 || Nat.eqb n 12 ||
   Nat.eqb n 13 || Nat.eqb n 32 || Nat.eqb n 160)%bool.

Fixpoint trim_start (s : string) : string :=
  match s with
  | EmptyString => EmptyString
  | String c rest => if is_ws c then trim_start rest else s
  end.

Fixpoint trim_end (s : string) : string :=
  match s with
  | EmptyString => EmptyString
  | String c rest =>
      let rest' := trim_end rest in
      if (is_ws c && String.eqb rest' "")%bool then EmptyString
      else String c rest'
  end.

(** String.prototype.trim *)
Definition trim (s : string) : string := trim_end (trim_start s).

(** The end index of [x.slice(0, e)] for a sequence of length [len]:
    a negative [e] counts from the end. *)
Definition slice_end (len : nat) (e : Z) : nat :=
  if e <? 0 then Z.to_nat (Z.max (Z.of_nat len + e) 0)
  else Z.to_nat (Z.min e (Z.of_nat len)).

(** String.prototype.slice(0, e) *)
Definition str_slice0 (s : string) (e : Z) : string :=
  substring 0 (slice_end (String.length s) e) s.

(** Array.prototype.slice(0, e) *)
Definition arr_slice0 {A} (xs : list A) (e : Z) : list A :=
  firstn (slice_end (List.length xs) e) xs.

(** A parameter with a default value, for a parameter that holds a number
    when it is given: [None] is the argument left out, or undefined. *)
Definition dflt {A} (d : A) (o : option A) : A :=
  match o with Some a => a | None => d end.

(** A parameter with a default value, for a parameter that takes any
    value: the default replaces an argument that is left out and an
    argument that is undefined, and no other. *)
Definition default_param (d : JsVal) (o : option JsVal) : JsVal :=
  match o with
  | None | Some JUndefined => d
  | Some v => v
  end.

(* ================================================================== *)
(** ** Bounding utilities *)

(** const sanitize = (value, max = 800) => ... *)
Definition sanitize (value : JsVal) (max : option Z) : result string :=
  let max := dflt 800 max in
  match value with
  | JNull | JUndefined => Ok ""
  | _ => (s <- ToString value ;; Ok (str_slice0 (trim s) max))%res
  end.

(** const clipCollection = (input, limit = 20) => ... *)
Definition clipCollection (input : JsVal) (limit : option Z) : list JsVal :=
  let limit := dflt 20 limit in
  match input with
  | JArr xs => arr_slice0 xs limit
  | _ => []
  end.

(** [xs.map(f)] for a callback that may throw: elements are visited in
    order and the first exception ends the traversal. *)
Fixpoint mapM {A B} (f : A -> result B) (xs : list A) : result (list B) :=
  match xs with
  | [] => Ok []
  | x :: rest => (y <- f x ;; ys <- mapM f rest ;; Ok (y :: ys))%res
  end.

(** const normalizeEntries = (entries, limit = 20) => ... *)
Definition normalizeEntry (item : JsVal) : result JsVal :=
  (text <- sanitize (js_or (get_opt item "text") (JStr "")) (Some 500) ;;
   Ok (JObj [("text", JStr text);
             ("created_at",
              js_or (get_opt item "created_at")
                    (js_or (get_opt item "createdAt") JNull))]))%res.

Definition normalizeEntries (entries : JsVal) (limit : option Z)
  : result (list JsVal) :=
  mapM normalizeEntry (clipCollection entries limit).

(** const normalizeMoods = (moods, limit = 20) => ... *)
Definition normalizeMood (item : JsVal) : result JsVal :=
  (mood <- sanitize (js_or (get_opt item "mood") (JStr "")) (Some 50) ;;
   note <- sanitize (js_or (get_opt item "note") (JStr "")) (Some 240) ;;
   Ok (JObj [("mood", JStr mood);
             ("note", JStr note);
             ("created_at", js_or (get_opt item "created_at") JNull)]))%res.

Definition normalizeMoods (moods : JsVal) (limit : option Z)
  : result (list JsVal) :=
  mapM normalizeMood (clipCollection moods limit).

(* ================================================================== *)
(** ** A reference runtime

    An executable [JSON.parse] and [JSON.stringify] for the fragment of
    JSON whose numbers are integers and whose strings carry no [\u]
    escapes.  The gateway is verified against any runtime; this one serves
    to run it on concrete requests. *)

Module Ref.

Definition dquote : ascii := "034"%char.

Definition json_ws (c : ascii) : bool :=
  let n := nat_of_ascii c in
  (Nat.eqb n 32 || Nat.eqb n 9 || Nat.eqb n 10 || Nat.eqb n 13)%bool.

Fixpoint skip_ws (s : string) : string :=
  match s with
  | String c rest => if json_ws c then skip_ws rest else s
  | EmptyString => EmptyString
  end.

Definition is_digit (c : ascii) : bool :=
  let n := nat_of_ascii c in (Nat.leb 48 n && Nat.leb n 57)%bool.

Definition digit_val (c : ascii) : Z := Z.of_nat (nat_of_ascii c) - 48.

Fixpoint take_digits (s : string) (acc : Z) : Z * string :=
  match s with
  | String c rest =>
      if is_digit c then take_digits rest (10 * acc + digit_val c) else (acc, s)
  | EmptyString => (acc, EmptyString)
  end.

(** After an integer, a fraction or an exponent leaves the fragment. *)
Definition ends_integer (s : string) : bool :=
  match s with
  | String c _ =>
      negb (Ascii.eqb c "." || Ascii.eqb c "e" || Ascii.eqb c "E")%bool
  | EmptyString => true
  end.

Definition parse_nat (s : string) : option (Z * string) :=
  match s with
  | String c rest =>
      if Ascii.eqb c "0" then
        if ends_integer rest then Some (0, rest) else None
      else if is_digit c then
        let '(n, rest') := take_digits s 0 in
        if ends_integer rest' then Some (n, rest') else None
      else None
  | EmptyString => None
  end.

Definition unescape (c : ascii) : option ascii :=
  if Ascii.eqb c dquote then Some dquote
  else if Ascii.eqb c "\" then Some "\"%char
  else if Ascii.eqb c "/" then Some "/"%char
  else if Ascii.eqb c "b" then Some (ascii_of_nat 8)
  else if Ascii.eqb c "f" then Some (ascii_of_nat 12)
  else if Ascii.eqb c "n" then Some (ascii_of_nat 10)
  else if Ascii.eqb c "r" then Some (ascii_of_nat 13)
  else if Ascii.eqb c "t" then Some (ascii_of_nat 9)
  else None.

(** The characters of a string literal, after its opening quote. *)
Fixpoint parse_chars (s : string) : option (string * string) :=
  match s with
  | EmptyString => None
  | String c rest =>
      if Ascii.eqb c dquote then Some (EmptyString, rest)
      else if Ascii.eqb c "\" then
        match rest with
        | String e rest' =>
            match unescape e, parse_chars rest' with
            | Some c', Some (t, r) => Some (String c' t, r)
            | _, _ => None
            end
        | EmptyString => None
        end
      else if Nat.ltb (nat_of_ascii c) 32 then None
      else
        match parse_chars rest with
        | Some (t, r) => Some (String c t, r)
        | None => None
        end
  end.

(** Defining a property: a repeated key keeps its place and takes the
    later value. *)
Fixpoint set_prop (k : string) (v : JsVal) (props : list (string * JsVal))
  : list (string * JsVal) :=
  match props with
  | [] => [(k, v)]
  | (k', v') :: rest =>
      if String.eqb k k' then (k, v) :: rest else (k', v') :: set_prop k v rest
  end.

Definition starts_with (p s : string) : option string :=
  if String.prefix p s
  then Some (substring (String.length p) (String.length s - String.length p) s)
  else None.

Fixpoint parse_value (fuel : nat) (s : string) {struct fuel}
  : option (JsVal * string) :=
  match fuel with
  | O => None
  | S fuel' =>
      match skip_ws s with
      | EmptyString => None
      | String c rest as s' =>
          if Ascii.eqb c "{" then
            match skip_ws rest with
            | String c' rest' =>
                if Ascii.eqb c' "}" then Some (JObj [], rest')
                else parse_members fuel' rest []
            | EmptyString => None
            end
          else if Ascii.eqb c "[" then
            match skip_ws rest with
            | String c' rest' =>
                if Ascii.eqb c' "]" then Some (JArr [], rest')
                else parse_elements fuel' rest []
            | EmptyString => None
            end
          else if Ascii.eqb c dquote then
            match parse_chars rest with
            | Some (t, r) => Some (JStr t, r)
            | None => None
            end
          else if Ascii.eqb c "-" then
            match parse_nat rest with
            | Some (n, r) => Some (JNum (- n), r)
            | None => None
            end
          else if is_digit c then
            match parse_nat s' with
            | Some (n, r) => Some (JNum n, r)
            | None => None
            end
          else
            match starts_with "true" s', starts_with "false" s',
                  starts_with "null" s' with
            | Some r, _, _ => Some (JBool true, r)
            | _, Some r, _ => Some (JBool false, r)
            | _, _, Some r => Some (JNull, r)
            | _, _, _ => None
            end
      end
  end

with parse_members (fuel : nat) (s : string) (acc : list (string * JsVal))
       {struct fuel} : option (JsVal * string) :=
  match fuel with
  | O => None
  | S fuel' =>
      match skip_ws s with
      | String c rest =>
          if Ascii.eqb c dquote then
            match parse_chars rest with
            | Some (k, r1) =>
                match skip_ws r1 with
                | String c1 r2 =>
                    if Ascii.eqb c1 ":" then
                      match parse_value fuel' r2 with
                      | Some (v, r3) =>
                          let acc' := set_prop k v acc in
                          match skip_ws r3 with
                          | String c3 r4 =>
                              if Ascii.eqb c3 "," then parse_members fuel' r4 acc'
                              else if Ascii.eqb c3 "}" then Some (JObj acc', r4)
                              else None
                          | EmptyString => None
                          end
                      | None => None
                      end
                    else None
                | EmptyString => None
                end
            | None => None
            end
          else None
      | EmptyString => None
      end
  end

with parse_elements (fuel : nat) (s : string) (acc : list JsVal)
       {struct fuel} : option (JsVal * string) :=
  match fuel with
  | O => None
  | S fuel' =>
      match parse_value fuel' s with
      | Some (v, r1) =>
          match skip_ws r1 with
          | String c r2 =>
              if Ascii.eqb c "," then parse_elements fuel' r2 (acc ++ [v])
              else if Ascii.eqb c "]" then Some (JArr (acc ++ [v]), r2)
              else None
          | EmptyString => None
          end
      | None => None
      end
  end.

(** JSON.parse on a string: a value, or a SyntaxError. *)
Definition JSON_parse (text : string) : result JsVal :=
  match parse_value (2 * String.length text + 2) text with
  | Some (v, rest) =>
      match skip_ws rest with
      | EmptyString => Ok v
      | String _ _ => Throw (SyntaxError "Unexpected non-whitespace character after JSON")
      end
  | None => Throw (SyntaxError "Unexpected token in JSON")
  end.

Definition hex_digit (n : nat) : ascii :=
  if Nat.ltb n 10 then ascii_of_nat (48 + n) else ascii_of_nat (87 + n).

Definition escape_char (c : ascii) : string :=
  let n := nat_of_ascii c in
  if Ascii.eqb c dquote then String "\" (String dquote "")
  else if Ascii.eqb c "\" then "\\"
  else if Nat.eqb n 8 then "\b"
  else if Nat.eqb n 12 then "\f"
  else if Nat.eqb n 10 then "\n"
  else if Nat.eqb n 13 then "\r"
  else if Nat.eqb n 9 then "\t"
  else if Nat.ltb n 32 then
    "\u00" ++ String (hex_digit (n / 16)) (String (hex_digit (n mod 16)) "")
  else String c "".

Fixpoint escape (s : string) : string :=
  match s with
  | EmptyString => EmptyString
  | String c rest => escape_char c ++ escape rest
  end.

Definition quote (s : string) : string :=
  String dquote (escape s ++ String dquote "").

(** Serialization; [None] stands for a value JSON.stringify leaves out
    (undefined, a function).  Properties are written in list order. *)
Fixpoint stringify (v : JsVal) : option string :=
  match v with
  | JUndefined | JNative _ => None
  | JNull => Some "null"
  | JBool true => Some "true"
  | JBool false => Some "false"
  | JNum z => Some (Z_to_string z)
  | JStr s => Some (quote s)
  | JArr xs =>
      Some ("[" ++
        (fix elements (l : list JsVal) : string :=
           match l with
           | [] => ""
           | x :: rest =>
               dflt "null" (stringify x) ++
               match rest with [] => "" | _ :: _ => "," ++ elements rest end
           end) xs ++ "]")
  | JObj props =>
      Some ("{" ++
        (fix members (first : bool) (l : list (string * JsVal)) : string :=
           match l with
           | [] => ""
           | (k, x) :: rest =>
               match stringify x with
               | Some sx =>
                   (if first then "" else ",") ++ quote k ++ ":" ++ sx ++
                   members false rest
               | None => members first rest
               end
           end) true props ++ "}")
  end.

(** JSON.stringify *)
Definition JSON_stringify (v : JsVal) : JsVal :=
  match stringify v with
  | Some s => JStr s
  | None => JUndefined
  end.

End Ref.

(* ================================================================== *)
(** ** The gateway *)

(** A chat message.  [content] is a string in every message the gateway
    builds itself; JSON.stringify decides it for a structured payload. *)
Record Message : Type := mkMessage { role : string; content : JsVal }.

(** The options of a completion call, as [runChat] receives them; [None]
    is a key the caller left out. *)
Record ChatOptions : Type := mkChatOptions {
  max_tokens : option Z;
  temperature : option Q;
  response_format : option string      (* the directive's [type] *)
}.

(** The argument of [chat.completions.create]. *)
Record LlmRequest : Type := mkLlmRequest {
  req_model : string;
  req_temperature : Q;
  req_max_tokens : option Z;
  req_response_format : option string;
  req_messages : list Message
}.

(** The promise [chat.completions.create] returns: it resolves with a
    response object or rejects with an Error object. *)
Inductive Reply : Type :=
| Resolved (response : list (string * JsVal))
| Rejected (err : JsError).

(** What a handler wrote to [res]: [res.status(s).send(b)]; a bare
    [res.send(b)] has status 200. *)
Record Response : Type := mkResponse { status : JsVal; body : JsVal }.

(** What a request leaves behind: the responses sent, and the requests
    that went to the LLM, both in order. *)
Record World : Type := mkWorld { sent : list Response; calls : list LlmRequest }.

Definition fresh : World := mkWorld [] [].

Definition M (A : Type) : Type := World -> result A * World.

Definition ret {A} (a : A) : M A := fun w => (Ok a, w).

Definition bind {A B} (m : M A) (k : A -> M B) : M B :=
  fun w =>
    match m w with
    | (Ok a, w') => k a w'
    | (Throw e, w') => (Throw e, w')
    end.

Definition lift {A} (r : result A) : M A := fun w => (r, w).

(** try { m } catch (err) { h err } *)
Definition try_catch {A} (m : M A) (h : JsError -> M A) : M A :=
  fun w =>
    match m w with
    | (Ok a, w') => (Ok a, w')
    | (Throw e, w') => h e w'
    end.

(** The status codes Node accepts: the integers from 100 to 999. *)
Definition valid_status (st : JsVal) : bool :=
  match st with
  | JNum n => if 100 <=? n then n <=? 999 else false
  | _ => false
  end.

Definition invalid_status (st : JsVal) : JsError :=
  RangeError ("Invalid status code: " ++
              match st with JNum n => Z_to_string n | _ => "" end).

(** [res.status(st).send(b)]; [res.send(b)] alone is the case of the
    status 200 a response starts with.  A status outside 100..999 is
    refused with a RangeError and nothing is written: Express 5 raises it
    in [res.status], Express 4 lets Node raise it when [send] writes the
    head.  A status that is not a number is refused here as well; the
    errors of the LLM client carry a number or no status at all. *)
Definition res_send (st : JsVal) (b : JsVal) : M unit :=
  fun w =>
    if valid_status st
    then (Ok tt, mkWorld (sent w ++ [mkResponse st b]) (calls w))
    else (Throw (invalid_status st), w).

Declare Scope gateway_scope.
Delimit Scope gateway_scope with gw.
Notation "x <- m ;; k" := (bind m (fun x => k))
  (at level 61, m at next level, right associativity) : gateway_scope.

(** The environment of the process. *)
Record ProcessEnv : Type := mkEnv {
  env_OPENAI_API_KEY : option string;
  env_OPENAI_MODEL : option string
}.

(** [process.env.X || d] *)
Definition env_or (x : option string) (d : string) : string :=
  match x with
  | Some s => if String.eqb s "" then d else s
  | None => d
  end.

(** [s || d] on strings. *)
Definition str_or (s d : string) : string := if String.eqb s "" then d else s.

Definition newline : string := String "010"%char "".

(** [v === s] for a string literal [s]. *)
Definition is_str (v : JsVal) (s : string) : bool :=
  match v with JStr s' => String.eqb s' s | _ => false end.

(** [response.choices?.[0]?.message?.content?.trim()], on the content
    [v]: a value that is neither missing nor a string has no [trim]. *)
Definition opt_trim (v : JsVal) : result JsVal :=
  match v with
  | JUndefined | JNull => Ok JUndefined
  | JStr s => Ok (JStr (trim s))
  | _ => Throw (TypeError
                  "response.choices?.[0]?.message?.content?.trim is not a function")
  end.

(** [xs.forEach] with a callback that updates [s] and may throw. *)
Fixpoint forEachM {S A} (f : S -> A -> result S) (xs : list A) (s : S)
  : result S :=
  match xs with
  | [] => Ok s
  | x :: rest => (s' <- f s x ;; forEachM f rest s')%res
  end.

(** [response.choices?.[0]?.message?.content] *)
Definition reply_content (response : list (string * JsVal)) : JsVal :=
  get_opt (get_opt (get_opt_index (get_prop (JObj response) "choices") 0)
                   "message") "content".

Inductive Operation : Type :=
| Insights | Prompt | Summary | Goals | Anomaly | Pattern
| Transcript | Partner | Chat.

(** The message each route falls back to when a caught error has none. *)
Definition fallback_error (op : Operation) : string :=
  match op with
  | Insights => "Unable to fetch AI insights"
  | Prompt => "Unable to fetch AI prompt"
  | Summary => "Unable to fetch AI summary"
  | Goals => "Unable to fetch goal reflections"
  | Anomaly => "Unable to run anomaly detection"
  | Pattern => "Unable to map patterns"
  | Transcript => "Unable to transcribe note"
  | Partner => "Unable to craft partner update"
  | Chat => "Unable to continue the mentor chat"
  end.

(** The message of each route's 400 response (prompt and chat have none). *)
Definition validation_error (op : Operation) : string :=
  match op with
  | Insights => "Provide at least an entry, mood, or stats snapshot."
  | Summary => "Provide entries, moods, or stats for the summary."
  | Goals => "Provide at least one goal."
  | Anomaly => "Provide recent entries or moods for analysis."
  | Pattern => "Provide entries to map life patterns."
  | Transcript => "Provide a voice note snippet to transcribe."
  | Partner => "Provide insights or a summary to craft a partner update."
  | Prompt | Chat => ""
  end.

Definition not_configured : string :=
  "OPENAI_API_KEY is not configured on the API gateway".

Definition chat_system_prompt : string :=
  "You are a therapist-style AI mentor. Be empathetic, concise, and focus on actionable grounding techniques. Keep replies under 180 words.".

Definition prompt_default : string :=
  "Take a mindful breath and describe one highlight from today.".

Definition chat_default : string :=
  "Take a calming breath and notice one thing you appreciate in this moment.".

(** The result of [runJsonChat]. *)
Record JsonChat : Type := mkJsonChat { json : JsVal; usage : JsVal }.

(** The options [runJsonChat] reads. *)
Record JsonChatOptions : Type := mkJsonChatOptions {
  maxTokens : option Z;
  jc_temperature : option Q
}.

(** The callback of [history.forEach] in the chat route. *)
Definition push_history (messages : list Message) (msg : JsVal)
  : result (list Message) :=
  (r <- get_dot msg "role" ;;
   let role := if is_str r "assistant" then "assistant" else "user" in
   c <- get_dot msg "content" ;;
   t <- get_dot msg "text" ;;
   content <- sanitize (js_or c (js_or t (JStr ""))) (Some 1200) ;;
   if String.eqb content "" then Ok messages
   else Ok (messages ++ [mkMessage role (JStr content)])%list)%res.

(** Sample surroundings for running the routes. *)
Module Sample.

Definition live_env : ProcessEnv := mkEnv (Some "sk-test") None.
Definition no_key_env : ProcessEnv := mkEnv None None.

(** A client whose model answers every request with [text]. *)
Definition answers (text : string) : LlmRequest -> Reply :=
  fun _ =>
    Resolved
      [("choices",
        JArr [JObj [("message",
                     JObj [("role", JStr "assistant"); ("content", JStr text)])]]);
       ("usage", JObj [("total_tokens", JNum 42)])].

(** A client whose every request is refused with status 429. *)
Definition rate_limited : LlmRequest -> Reply :=
  fun _ =>
    Rejected [("name", JStr "RateLimitError"); ("status", JNum 429);
              ("message", JStr "Rate limit reached")].

(** 499 letters, a space, one more letter: 501 characters. *)
Definition long_text : string :=
  string_of_list_ascii (List.repeat "a"%char 499) ++ " b".

Definition shadowed : JsVal := JObj [("toString", JNum 1)].

End Sample.

Section Gateway.

(** The runtime's [JSON.parse] (on a string) and [JSON.stringify]. *)
Variable JSON_parse : string -> result JsVal.
Variable JSON_stringify : JsVal -> JsVal.

(** [process.env], and [chat.completions.create] of the OpenAI client. *)
Variable env : ProcessEnv.
Variable create : LlmRequest -> Reply.

Definition OPENAI_API_KEY : string := env_or (env_OPENAI_API_KEY env) "".
Definition OPENAI_MODEL : string := env_or (env_OPENAI_MODEL env) "gpt-4o-mini".

(** const openAiClient = OPENAI_API_KEY ? new OpenAI(...) : null *)
Definition openAiClient : option (LlmRequest -> Reply) :=
  if String.eqb OPENAI_API_KEY "" then None else Some create.

(** const ensureOpenAi = (res) => ... *)
Definition ensureOpenAi : M bool :=
  match openAiClient with
  | None =>
      (_ <- res_send (JNum 503)
             (JObj [("ok", JBool false); ("error", JStr not_configured)]) ;;
       ret false)%gw
  | Some _ => ret true
  end.

(** const safeJsonParse = (raw, fallback = {}) => ...
    [JSON.parse] first converts its argument to a string; the [catch]
    covers that conversion as well. *)
Definition safeJsonParse (raw : JsVal) (fallback : option JsVal) : JsVal :=
  let fallback := default_param (JObj []) fallback in
  match (text <- ToString raw ;; JSON_parse text)%res with
  | Ok v => v
  | Throw _ => fallback
  end.

(** async function runChat(messages, options = {}) *)
Definition runChat (messages : list Message) (options : ChatOptions)
  : M (list (string * JsVal)) :=
  match openAiClient with
  | None => lift (Throw (Error not_configured))
  | Some client =>
      let request :=
        mkLlmRequest OPENAI_MODEL
                     (dflt (4 # 10)%Q (temperature options))
                     (max_tokens options)
                     (response_format options)
                     messages in
      fun w =>
        let w' := mkWorld (sent w) (calls w ++ [request]) in
        match client request with
        | Resolved response => (Ok response, w')
        | Rejected err => (Throw err, w')
        end
  end.

(** const runJsonChat = async (systemPrompt, userPayload, options = {}) => ... *)
Definition runJsonChat (systemPrompt : string) (userPayload : JsVal)
           (options : JsonChatOptions) : M JsonChat :=
  (response <-
     runChat
       [ mkMessage "system" (JStr systemPrompt);
         mkMessage "user"
           (match userPayload with
            | JStr _ => userPayload
            | _ => JSON_stringify userPayload
            end) ]
       (mkChatOptions
          (Some (match maxTokens options with
                 | Some n => if n =? 0 then 400 else n
                 | None => 400
                 end))
          (Some (dflt (4 # 10)%Q (jc_temperature options)))
          (Some "json_object")) ;;
   ret (mkJsonChat
          (safeJsonParse (js_or (reply_content response) (JStr "{}")) None)
          (js_or (get_prop (JObj response) "usage") JNull)))%gw.

(** The [catch] block every AI route ends with. *)
Definition respond_failure (op : Operation) (err : JsError) : M unit :=
  let status :=
    js_or (get_prop (JObj err) "status")
          (js_or (get_prop (JObj err) "statusCode") (JNum 502)) in
  res_send status
    (JObj [("error",
            js_or (get_prop (JObj err) "message") (JStr (fallback_error op)))]).

Definition respond_invalid (op : Operation) : M unit :=
  res_send (JNum 400) (JObj [("error", JStr (validation_error op))]).

Definition only_max (n : Z) : JsonChatOptions := mkJsonChatOptions (Some n) None.

(** app.post("/ai/insights", ...) *)
Definition ai_insights (req_body : JsVal) : M unit :=
  (configured <- ensureOpenAi ;;
   if negb configured then ret tt else
   latestEntry <- lift (sanitize (get_opt req_body "entry") None) ;;
   let latestMood := js_or (get_opt req_body "mood") JNull in
   let stats := js_or (get_opt req_body "stats") JNull in
   goals <- lift (match get_opt req_body "goals" with
                  | JArr gs => mapM (fun g => sanitize g (Some 120)) gs
                  | _ => Ok []
                  end) ;;
   if (String.eqb latestEntry "" && negb (truthy latestMood)
       && negb (truthy stats))%bool
   then respond_invalid Insights
   else
     let userPayload :=
       JObj [("entry", JStr latestEntry); ("mood", latestMood);
             ("stats", stats); ("goals", JArr (map JStr goals))] in
     try_catch
       (r <- runJsonChat
               "You are an empathetic AI mentor. Analyse the data and output JSON with keys primary_emotion, summary, reflection, action_item, risk_level (low|medium|high), and partner_share (short supportive sentence)."
               userPayload (only_max 350) ;;
        res_send (JNum 200) (JObj [("insights", json r); ("usage", usage r)]))
       (respond_failure Insights))%gw.

(** app.post("/ai/prompt", ...) *)
Definition ai_prompt (req_body : JsVal) : M unit :=
  (configured <- ensureOpenAi ;;
   if negb configured then ret tt else
   focus <- lift (sanitize (get_opt req_body "focus") (Some 200)) ;;
   mood <- lift (m <- sanitize (get_opt req_body "mood") (Some 40) ;;
                 Ok (str_or m "curious"))%res ;;
   entry <- lift (sanitize (get_opt req_body "entry") (Some 400)) ;;
   try_catch
     (response <-
        runChat
          [ mkMessage "system"
              (JStr "Create a single journaling prompt tailored to the user's current mood and context. Keep it under 220 characters.");
            mkMessage "user"
              (JStr ("Mood: " ++ mood ++ newline ++
                     "Focus request: " ++ str_or focus "balance and gratitude" ++
                     newline ++
                     "Most recent entry: " ++ str_or entry "none")) ]
          (mkChatOptions (Some 100) (Some (8 # 10)%Q) None) ;;
      prompt <- lift (opt_trim (reply_content response)) ;;
      res_send (JNum 200)
        (JObj [("prompt", js_or prompt (JStr prompt_default));
               ("usage", js_or (get_prop (JObj response) "usage") JNull)]))
     (respond_failure Prompt))%gw.

(** app.post("/ai/summary", ...) *)
Definition ai_summary (req_body : JsVal) : M unit :=
  (configured <- ensureOpenAi ;;
   if negb configured then ret tt else
   entries <- lift (normalizeEntries (get_opt req_body "entries") (Some 20)) ;;
   moods <- lift (normalizeMoods (get_opt req_body "moods") (Some 20)) ;;
   let stats := js_or (get_opt req_body "stats") JNull in
   if (Nat.eqb (List.length entries) 0 && Nat.eqb (List.length moods) 0
       && negb (truthy stats))%bool
   then respond_invalid Summary
   else
     try_catch
       (r <- runJsonChat
               "Create an uplifting weekly executive summary of the user's emotional wellbeing. Respond with JSON keys: overview, wins (array), growth_edges (array), focus_theme, encouragement."
               (JObj [("entries", JArr entries); ("moods", JArr moods);
                      ("stats", stats)])
               (only_max 420) ;;
        res_send (JNum 200) (JObj [("summary", json r); ("usage", usage r)]))
       (respond_failure Summary))%gw.

(** app.post("/ai/goals", ...) *)
Definition ai_goals (req_body : JsVal) : M unit :=
  (configured <- ensureOpenAi ;;
   if negb configured then ret tt else
   goals <- lift (gs <- mapM (fun goal => sanitize goal (Some 160))
                             (clipCollection (get_opt req_body "goals") (Some 10)) ;;
                  Ok (filter (fun g => negb (String.eqb g "")) gs))%res ;;
   entry <- lift (sanitize (get_opt req_body "entry") (Some 400)) ;;
   if Nat.eqb (List.length goals) 0
   then respond_invalid Goals
   else
     try_catch
       (r <- runJsonChat
               "Relate the gratitude reflection to the user's life goals. Return JSON { reflections: [{ goal, insight, micro_action }] }."
               (JObj [("goals", JArr (map JStr goals)); ("entry", JStr entry)])
               (only_max 400) ;;
        reflections <- lift (get_dot (json r) "reflections") ;;
        res_send (JNum 200)
          (JObj [("reflections", js_or reflections (JArr []));
                 ("usage", usage r)]))
       (respond_failure Goals))%gw.

(** app.post("/ai/anomaly", ...) *)
Definition ai_anomaly (req_body : JsVal) : M unit :=
  (configured <- ensureOpenAi ;;
   if negb configured then ret tt else
   entries <- lift (normalizeEntries (get_opt req_body "entries") (Some 30)) ;;
   moods <- lift (normalizeMoods (get_opt req_body "moods") (Some 30)) ;;
   if (Nat.eqb (List.length entries) 0 && Nat.eqb (List.length moods) 0)%bool
   then respond_invalid Anomaly
   else
     try_catch
       (r <- runJsonChat
               "Detect emotional anomalies or mental health risks. Return JSON { risk_level, alerts: [string], recommendation }."
               (JObj [("entries", JArr entries); ("moods", JArr moods)])
               (only_max 320) ;;
        res_send (JNum 200) (JObj [("anomaly", json r); ("usage", usage r)]))
       (respond_failure Anomaly))%gw.

(** app.post("/ai/pattern", ...) *)
Definition ai_pattern (req_body : JsVal) : M unit :=
  (configured <- ensureOpenAi ;;
   if negb configured then ret tt else
   entries <- lift (normalizeEntries (get_opt req_body "entries") (Some 40)) ;;
   if Nat.eqb (List.length entries) 0
   then respond_invalid Pattern
   else
     try_catch
       (r <- runJsonChat
               "Analyse gratitude entries to build a life pattern map. Return JSON { themes: [string], triggers: [string], supportive_habits: [string] }."
               (JObj [("entries", JArr entries)])
               (only_max 380) ;;
        res_send (JNum 200) (JObj [("pattern", json r); ("usage", usage r)]))
       (respond_failure Pattern))%gw.

(** app.post("/ai/transcript", ...) *)
Definition ai_transcript (req_body : JsVal) : M unit :=
  (configured <- ensureOpenAi ;;
   if negb configured then ret tt else
   note <- lift (n1 <- sanitize (get_opt req_body "voice_note") (Some 1800) ;;
                 if negb (String.eqb n1 "") then Ok n1 else
                 n2 <- sanitize (get_opt req_body "voice_note_text") (Some 1800) ;;
                 if negb (String.eqb n2 "") then Ok n2 else
                 sanitize (get_opt req_body "note") (Some 1800))%res ;;
   if String.eqb note ""
   then respond_invalid Transcript
   else
     try_catch
       (r <- runJsonChat
               "You clean up raw voice note text into a polished transcript. Return JSON { transcript, emotions: [string], highlights: [string], action_item }."
               (JStr note)
               (only_max 320) ;;
        res_send (JNum 200) (JObj [("transcript", json r); ("usage", usage r)]))
       (respond_failure Transcript))%gw.

(** app.post("/ai/partner", ...) *)
Definition ai_partner (req_body : JsVal) : M unit :=
  (configured <- ensureOpenAi ;;
   if negb configured then ret tt else
   let insights := js_or (get_opt req_body "insights") JNull in
   let summary := js_or (get_opt req_body "summary") JNull in
   audience <- lift (sanitize (js_or (get_opt req_body "audience") (JStr "partner"))
                              (Some 40)) ;;
   if (negb (truthy insights) && negb (truthy summary))%bool
   then respond_invalid Partner
   else
     try_catch
       (r <- runJsonChat
               "Create a short, caring update that shares emotional status with a loved one without revealing raw journal text. Return JSON { message }."
               (JObj [("insights", insights); ("summary", summary);
                      ("audience", JStr audience)])
               (only_max 220) ;;
        res_send (JNum 200) (JObj [("share", json r); ("usage", usage r)]))
       (respond_failure Partner))%gw.

(** The message list the chat route builds before it calls the model. *)
Definition chat_messages (req_body : JsVal) : result (list Message) :=
  (let history := match get_opt req_body "conversation" with
                  | JArr h => h
                  | _ => []
                  end in
   topic <- (t <- sanitize (get_opt req_body "topic") (Some 120) ;;
             Ok (str_or t "overall wellbeing")) ;;
   let messages := [ mkMessage "system" (JStr chat_system_prompt) ] in
   if negb (Nat.eqb (List.length history) 0)
   then forEachM push_history history messages
   else Ok (messages ++
            [ mkMessage "user" (JStr ("I'd like to talk about " ++ topic ++ ".")) ])%list)%res.

(** app.post("/ai/chat", ...) *)
Definition ai_chat (req_body : JsVal) : M unit :=
  (configured <- ensureOpenAi ;;
   if negb configured then ret tt else
   messages <- lift (chat_messages req_body) ;;
   try_catch
     (response <- runChat messages
                    (mkChatOptions (Some 360) (Some (7 # 10)%Q) None) ;;
      reply <- lift (opt_trim (reply_content response)) ;;
      res_send (JNum 200)
        (JObj [("reply", js_or reply (JStr chat_default));
               ("usage", js_or (get_prop (JObj response) "usage") JNull)]))
     (respond_failure Chat))%gw.

Definition handler (op : Operation) : JsVal -> M unit :=
  match op with
  | Insights => ai_insights
  | Prompt => ai_prompt
  | Summary => ai_summary
  | Goals => ai_goals
  | Anomaly => ai_anomaly
  | Pattern => ai_pattern
  | Transcript => ai_transcript
  | Partner => ai_partner
  | Chat => ai_chat
  end.

(* ------------------------------------------------------------------ *)
(** *** Vocabulary of the properties *)

(** The first, respectively the last, character of [s] is whitespace. *)
Definition starts_ws (s : string) : bool :=
  match s with
  | String c _ => is_ws c
  | EmptyString => false
  end.

Fixpoint ends_ws (s : string) : bool :=
  match s with
  | EmptyString => false
  | String c rest =>
      match rest with
      | EmptyString => is_ws c
      | String _ _ => ends_ws rest
      end
  end.

(** The values [String] converts without raising: every plain object met
    on the way (the value itself, or an element of an array that is
    joined) has no own [toString] property. *)
Fixpoint convertible (v : JsVal) : bool :=
  match v with
  | JObj props => negb (has_own "toString" props)
  | JArr xs =>
      (fix all (l : list JsVal) : bool :=
         match l with
         | [] => true
         | x :: rest => (convertible x && all rest)%bool
         end) xs
  | _ => true
  end.

(** The string held by field [k] of a record does not end in whitespace. *)
Definition field_trimmed (k : string) (y : JsVal) : bool :=
  match get_prop y k with
  | JStr s => negb (ends_ws s)
  | _ => true
  end.

(** [hay] contains [needle]. *)
Definition mentions (hay needle : string) : bool :=
  match index 0 needle hay with Some _ => true | None => false end.

(** The input each route requires, in the words of its 400 message. *)
Definition required_input (op : Operation) : string :=
  match op with
  | Insights => "an entry, mood, or stats"
  | Summary => "entries, moods, or stats"
  | Goals => "goal"
  | Anomaly => "entries or moods"
  | Pattern => "entries"
  | Transcript => "voice note"
  | Partner => "insights or a summary"
  | Prompt | Chat => ""
  end.

(** The required-input check of each route, on the inputs the route
    extracts before it: [Ok true] when the required input is missing,
    [Ok false] when it is there (prompt and chat require none), [Throw]
    when extracting the inputs raises. *)
Definition input_missing (op : Operation) (req_body : JsVal) : result bool :=
  match op with
  | Insights =>
      (entry <- sanitize (get_opt req_body "entry") None ;;
       _ <- match get_opt req_body "goals" with
            | JArr gs => mapM (fun g => sanitize g (Some 120)) gs
            | _ => Ok []
            end ;;
       Ok (String.eqb entry ""
           && negb (truthy (get_opt req_body "mood"))
           && negb (truthy (get_opt req_body "stats")))%bool)%res
  | Summary =>
      (entries <- normalizeEntries (get_opt req_body "entries") (Some 20) ;;
       moods <- normalizeMoods (get_opt req_body "moods") (Some 20) ;;
       Ok (Nat.eqb (List.length entries) 0 && Nat.eqb (List.length moods) 0
           && negb (truthy (get_opt req_body "stats")))%bool)%res
  | Goals =>
      (goals <- mapM (fun goal => sanitize goal (Some 160))
                     (clipCollection (get_opt req_body "goals") (Some 10)) ;;
       _ <- sanitize (get_opt req_body "entry") (Some 400) ;;
       Ok (forallb (fun g => String.eqb g "") goals))%res
  | Anomaly =>
      (entries <- normalizeEntries (get_opt req_body "entries") (Some 30) ;;
       moods <- normalizeMoods (get_opt req_body "moods") (Some 30) ;;
       Ok (Nat.eqb (List.length entries) 0 && Nat.eqb (List.length moods) 0)%bool)%res
  | Pattern =>
      (entries <- normalizeEntries (get_opt req_body "entries") (Some 40) ;;
       Ok (Nat.eqb (List.length entries) 0))%res
  | Transcript =>
      (n1 <- sanitize (get_opt req_body "voice_note") (Some 1800) ;;
       if negb (String.eqb n1 "") then Ok false else
       n2 <- sanitize (get_opt req_body "voice_note_text") (Some 1800) ;;
       if negb (String.eqb n2 "") then Ok false else
       n3 <- sanitize (get_opt req_body "note") (Some 1800) ;;
       Ok (String.eqb n3 ""))%res
  | Partner =>
      (_ <- sanitize (js_or (get_opt req_body "audience") (JStr "partner"))
                     (Some 40) ;;
       Ok (negb (truthy (get_opt req_body "insights"))
           && negb (truthy (get_opt req_body "summary")))%bool)%res
  | Prompt | Chat => Ok false
  end.

(** The response of the [catch] block to a caught error. *)
Definition failure_response (op : Operation) (err : JsError) : Response :=
  mkResponse
    (js_or (get_prop (JObj err) "status")
           (js_or (get_prop (JObj err) "statusCode") (JNum 502)))
    (JObj [("error",
            js_or (get_prop (JObj err) "message") (JStr (fallback_error op)))]).

(** What [runJsonChat] makes of a resolved response. *)
Definition json_of (response : list (string * JsVal)) : JsVal :=
  safeJsonParse (js_or (reply_content response) (JStr "{}")) None.

Definition usage_of (response : list (string * JsVal)) : JsVal :=
  js_or (get_prop (JObj response) "usage") JNull.

(** The body of the 200 response each route shapes from a resolved
    response; shaping raises where the route calls a method the value
    lacks. *)
Definition success_body (op : Operation) (response : list (string * JsVal))
  : result JsVal :=
  match op with
  | Insights => Ok (JObj [("insights", json_of response); ("usage", usage_of response)])
  | Summary => Ok (JObj [("summary", json_of response); ("usage", usage_of response)])
  | Anomaly => Ok (JObj [("anomaly", json_of response); ("usage", usage_of response)])
  | Pattern => Ok (JObj [("pattern", json_of response); ("usage", usage_of response)])
  | Transcript => Ok (JObj [("transcript", json_of response); ("usage", usage_of response)])
  | Partner => Ok (JObj [("share", json_of response); ("usage", usage_of response)])
  | Goals =>
      (reflections <- get_dot (json_of response) "reflections" ;;
       Ok (JObj [("reflections", js_or reflections (JArr []));
                 ("usage", usage_of response)]))%res
  | Prompt =>
      (prompt <- opt_trim (reply_content response) ;;
       Ok (JObj [("prompt", js_or prompt (JStr prompt_default));
                 ("usage", usage_of response)]))%res
  | Chat =>
      (reply <- opt_trim (reply_content response) ;;
       Ok (JObj [("reply", js_or reply (JStr chat_default));
                 ("usage", usage_of response)]))%res
  end.

(** The response of a route whose model call ended with [reply]. *)
Definition outcome_response (op : Operation) (reply : Reply) : Response :=
  match reply with
  | Rejected err => failure_response op err
  | Resolved response =>
      match success_body op response with
      | Ok b => mkResponse (JNum 200) b
      | Throw e => failure_response op e
      end
  end.

(** The end of a route whose model call ended with [reply]: the route
    writes the response it has made of the reply, unless the status an
    upstream error brought along is refused. *)
Definition settle (op : Operation) (reply : Reply) : M unit :=
  res_send (status (outcome_response op reply))
           (body (outcome_response op reply)).

(** One element of the client's conversation history, as the chat route
    forwards it: the role is [assistant] only when it is exactly that and
    [user] otherwise, the content is the sanitized [content] (or [text]),
    and an element whose content is empty is dropped ([None]). *)
Definition history_message (msg : JsVal) : result (option Message) :=
  (r <- get_dot msg "role" ;;
   c <- get_dot msg "content" ;;
   t <- get_dot msg "text" ;;
   content <- sanitize (js_or c (js_or t (JStr ""))) (Some 1200) ;;
   Ok (if String.eqb content "" then None
       else Some (mkMessage (if is_str r "assistant" then "assistant" else "user")
                            (JStr content))))%res.

Definition kept (os : list (option Message)) : list Message :=
  flat_map (fun o => match o with Some m => [m] | None => [] end) os.

(** The topic the chat route opens with when there is no history. *)
Definition chat_topic (req_body : JsVal) : result string :=
  (t <- sanitize (get_opt req_body "topic") (Some 120) ;;
   Ok (str_or t "overall wellbeing"))%res.

(* ------------------------------------------------------------------ *)
(** *** The rest of the gateway: the request of each route, the entries
        facade and the health checks *)

(** Every character of [s] is whitespace. *)
Fixpoint all_ws (s : string) : bool :=
  match s with
  | EmptyString => true
  | String c rest => (is_ws c && all_ws rest)%bool
  end.

(** The fixed shape of a normalized entry and of a normalized mood, with
    the bounds of their text fields. *)
Definition bounded_entry (y : JsVal) : Prop :=
  exists t c,
    y = JObj [("text", JStr t); ("created_at", c)] /\
    (String.length t <= 500)%nat /\ starts_ws t = false /\
    (truthy c = true \/ c = JNull).

Definition bounded_mood (y : JsVal) : Prop :=
  exists m n c,
    y = JObj [("mood", JStr m); ("note", JStr n); ("created_at", c)] /\
    (String.length m <= 50)%nat /\ starts_ws m = false /\
    (String.length n <= 240)%nat /\ starts_ws n = false /\
    (truthy c = true \/ c = JNull).

(** The cap each route puts on the number of entries and moods. *)
Definition record_cap (op : Operation) : nat :=
  match op with
  | Summary => 20
  | Anomaly => 30
  | Pattern => 40
  | _ => 0
  end.

(** The request [runJsonChat] hands to [runChat] for a route that passes
    only a token budget. *)
Definition json_request (systemPrompt : string) (userPayload : JsVal) (budget : Z)
  : LlmRequest :=
  mkLlmRequest OPENAI_MODEL (4 # 10)%Q
    (Some (if budget =? 0 then 400 else budget)) (Some "json_object")
    [ mkMessage "system" (JStr systemPrompt);
      mkMessage "user"
        (match userPayload with
         | JStr _ => userPayload
         | _ => JSON_stringify userPayload
         end) ].

(** What each route does before it calls the model, in the order of the
    source: the inputs it extracts, its required-input check, and the
    request it then sends.  [Ok None] is the 400 answer; [Throw] is an
    exception raised while the inputs are read. *)
Definition route_request (op : Operation) (req_body : JsVal)
  : result (option LlmRequest) :=
  match op with
  | Insights =>
      (latestEntry <- sanitize (get_opt req_body "entry") None ;;
       let latestMood := js_or (get_opt req_body "mood") JNull in
       let stats := js_or (get_opt req_body "stats") JNull in
       goals <- match get_opt req_body "goals" with
                | JArr gs => mapM (fun g => sanitize g (Some 120)) gs
                | _ => Ok []
                end ;;
       if (String.eqb latestEntry "" && negb (truthy latestMood)
           && negb (truthy stats))%bool
       then Ok None
       else Ok (Some (json_request
              "You are an empathetic AI mentor. Analyse the data and output JSON with keys primary_emotion, summary, reflection, action_item, risk_level (low|medium|high), and partner_share (short supportive sentence)."
              (JObj [("entry", JStr latestEntry); ("mood", latestMood);
                     ("stats", stats); ("goals", JArr (map JStr goals))])
              350)))%res
  | Prompt =>
      (focus <- sanitize (get_opt req_body "focus") (Some 200) ;;
       m <- sanitize (get_opt req_body "mood") (Some 40) ;;
       let mood := str_or m "curious" in
       entry <- sanitize (get_opt req_body "entry") (Some 400) ;;
       Ok (Some (mkLlmRequest OPENAI_MODEL (8 # 10)%Q (Some 100) None
              [ mkMessage "system"
                  (JStr "Create a single journaling prompt tailored to the user's current mood and context. Keep it under 220 characters.");
                mkMessage "user"
                  (JStr ("Mood: " ++ mood ++ newline ++
                         "Focus request: " ++ str_or focus "balance and gratitude" ++
                         newline ++
                         "Most recent entry: " ++ str_or entry "none")) ])))%res
  | Summary =>
      (entries <- normalizeEntries (get_opt req_body "entries") (Some 20) ;;
       moods <- normalizeMoods (get_opt req_body "moods") (Some 20) ;;
       let stats := js_or (get_opt req_body "stats") JNull in
       if (Nat.eqb (List.length entries) 0 && Nat.eqb (List.length moods) 0
           && negb (truthy stats))%bool
       then Ok None
       else Ok (Some (json_request
              "Create an uplifting weekly executive summary of the user's emotional wellbeing. Respond with JSON keys: overview, wins (array), growth_edges (array), focus_theme, encouragement."
              (JObj [("entries", JArr entries); ("moods", JArr moods);
                     ("stats", stats)])
              420)))%res
  | Goals =>
      (gs <- mapM (fun goal => sanitize goal (Some 160))
                  (clipCollection (get_opt req_body "goals") (Some 10)) ;;
       let goals := filter (fun g => negb (String.eqb g "")) gs in
       entry <- sanitize (get_opt req_body "entry") (Some 400) ;;
       if Nat.eqb (List.length goals) 0
       then Ok None
       else Ok (Some (json_request
              "Relate the gratitude reflection to the user's life goals. Return JSON { reflections: [{ goal, insight, micro_action }] }."
              (JObj [("goals", JArr (map JStr goals)); ("entry", JStr entry)])
              400)))%res
  | Anomaly =>
      (entries <- normalizeEntries (get_opt req_body "entries") (Some 30) ;;
       moods <- normalizeMoods (get_opt req_body "moods") (Some 30) ;;
       if (Nat.eqb (List.length entries) 0 && Nat.eqb (List.length moods) 0)%bool
       then Ok None
       else Ok (Some (json_request
              "Detect emotional anomalies or mental health risks. Return JSON { risk_level, alerts: [string], recommendation }."
              (JObj [("entries", JArr entries); ("moods", JArr moods)])
              320)))%res
  | Pattern =>
      (entries <- normalizeEntries (get_opt req_body "entries") (Some 40) ;;
       if Nat.eqb (List.length entries) 0
       then Ok None
       else Ok (Some (json_request
              "Analyse gratitude entries to build a life pattern map. Return JSON { themes: [string], triggers: [string], supportive_habits: [string] }."
              (JObj [("entries", JArr entries)])
              380)))%res
  | Transcript =>
      (note <- (n1 <- sanitize (get_opt req_body "voice_note") (Some 1800) ;;
                if negb (String.eqb n1 "") then Ok n1 else
                n2 <- sanitize (get_opt req_body "voice_note_text") (Some 1800) ;;
                if negb (String.eqb n2 "") then Ok n2 else
                sanitize (get_opt req_body "note") (Some 1800)) ;;
       if String.eqb note ""
       then Ok None
       else Ok (Some (json_request
              "You clean up raw voice note text into a polished transcript. Return JSON { transcript, emotions: [string], highlights: [string], action_item }."
              (JStr note)
              320)))%res
  | Partner =>
      (let insights := js_or (get_opt req_body "insights") JNull in
       let summary := js_or (get_opt req_body "summary") JNull in
       audience <- sanitize (js_or (get_opt req_body "audience") (JStr "partner"))
                            (Some 40) ;;
       if (negb (truthy insights) && negb (truthy summary))%bool
       then Ok None
       else Ok (Some (json_request
              "Create a short, caring update that shares emotional status with a loved one without revealing raw journal text. Return JSON { message }."
              (JObj [("insights", insights); ("summary", summary);
                     ("audience", JStr audience)])
              220)))%res
  | Chat =>
      (messages <- chat_messages req_body ;;
       Ok (Some (mkLlmRequest OPENAI_MODEL (7 # 10)%Q (Some 360) None messages)))%res
  end.

(** The token budget, the temperature and the response format of each
    route's request. *)
Definition token_budget (op : Operation) : Z :=
  match op with
  | Insights => 350 | Prompt => 100 | Summary => 420 | Goals => 400
  | Anomaly => 320 | Pattern => 380 | Transcript => 320 | Partner => 220
  | Chat => 360
  end.

Definition route_temperature (op : Operation) : Q :=
  match op with
  | Prompt => (8 # 10)%Q
  | Chat => (7 # 10)%Q
  | _ => (4 # 10)%Q
  end.

Definition json_mode (op : Operation) : bool :=
  match op with Prompt | Chat => false | _ => true end.

(** parseInt(text, 10): leading whitespace is skipped, a sign is read,
    then the longest run of decimal digits; [None] is NaN (no digit).  The
    value is the exact integer, which is the number JavaScript returns up
    to 2^53. *)
Definition digit_of (c : ascii) : option (Decimal.uint -> Decimal.uint) :=
  if Ascii.eqb c "0" then Some Decimal.D0
  else if Ascii.eqb c "1" then Some Decimal.D1
  else if Ascii.eqb c "2" then Some Decimal.D2
  else if Ascii.eqb c "3" then Some Decimal.D3
  else if Ascii.eqb c "4" then Some Decimal.D4
  else if Ascii.eqb c "5" then Some Decimal.D5
  else if Ascii.eqb c "6" then Some Decimal.D6
  else if Ascii.eqb c "7" then Some Decimal.D7
  else if Ascii.eqb c "8" then Some Decimal.D8
  else if Ascii.eqb c "9" then Some Decimal.D9
  else None.

Fixpoint leading_digits (s : string) : Decimal.uint :=
  match s with
  | EmptyString => Decimal.Nil
  | String c rest =>
      match digit_of c with
      | Some d => d (leading_digits rest)
      | None => Decimal.Nil
      end
  end.

Definition parseInt10 (text : string) : option Z :=
  let s := trim_start text in
  let '(negative, digits) :=
    match s with
    | String c rest =>
        if Ascii.eqb c "-" then (true, rest)
        else if Ascii.eqb c "+" then (false, rest)
        else (false, s)
    | EmptyString => (false, s)
    end in
  match leading_digits digits with
  | Decimal.Nil => None
  | d => Some (if negative then - Z.of_uint d else Z.of_uint d)
  end.

(** The entries service, called through its gRPC client: the callback
    receives an error, or a result object. *)
Inductive ServiceReply : Type :=
| Failed (err : JsError)
| Succeeded (value : list (string * JsVal)).

Inductive ServiceCall : Type :=
| CallListEntries (limit : Z)
| CallCreateEntry (text : string).

(** What a facade request leaves behind: the calls made to the entries
    service, the responses written, and the exception that left the
    handler or its callback, if any. *)
Record Exchange : Type := mkExchange {
  service_calls : list ServiceCall;
  replies : list Response;
  raised : option JsError
}.

Variable env_ENTRIES_SERVICE_ADDR : option string.
Variable ListEntries : Z -> ServiceReply.
Variable CreateEntry : string -> ServiceReply.

Definition ENTRIES_ADDR : string :=
  env_or env_ENTRIES_SERVICE_ADDR "entries-cluster-ip-service:50051".

(** app.get("/healthz", ...) *)
Definition healthz : Response :=
  mkResponse (JNum 200)
    (JObj [("ok", JBool true);
           ("services",
            JObj [("entries", JStr ENTRIES_ADDR);
                  ("openai",
                   JBool (match openAiClient with Some _ => true | None => false end))])]).

(** app.get("/ai/healthz", ...) *)
Definition ai_healthz : Response :=
  match openAiClient with
  | None =>
      mkResponse (JNum 503)
        (JObj [("ok", JBool false); ("error", JStr "OPENAI_API_KEY missing")])
  | Some _ =>
      mkResponse (JNum 200) (JObj [("ok", JBool true); ("model", JStr OPENAI_MODEL)])
  end.

(** Math.min(200, parseInt(req.query.limit || "50", 10) || 50) *)
Definition list_limit (query_limit : JsVal) : result Z :=
  (text <- ToString (js_or query_limit (JStr "50")) ;;
   let parsed := match parseInt10 text with
                 | Some n => if n =? 0 then 50 else n
                 | None => 50
                 end in
   Ok (Z.min 200 parsed))%res.

(** (result.entries || []).map((e) => ({ id: e.id, text: e.text, created_at: e.created_at })) *)
Definition entry_row (e : JsVal) : result JsVal :=
  (id <- get_dot e "id" ;;
   text <- get_dot e "text" ;;
   created_at <- get_dot e "created_at" ;;
   Ok (JObj [("id", id); ("text", text); ("created_at", created_at)]))%res.

Definition rows_of (listed : list (string * JsVal)) : result (list JsVal) :=
  match js_or (get_prop (JObj listed) "entries") (JArr []) with
  | JArr es => mapM entry_row es
  | _ => Throw (TypeError "(result.entries || []).map is not a function")
  end.

(** app.get("/entries/all", ...) on [req.query.limit] *)
Definition get_entries_all (query_limit : JsVal) : Exchange :=
  match list_limit query_limit with
  | Throw e => mkExchange [] [] (Some e)
  | Ok limit =>
      match ListEntries limit with
      | Failed err =>
          mkExchange [CallListEntries limit]
            [mkResponse (JNum 500)
               (JObj [("error", get_prop (JObj err) "message")])]
            None
      | Succeeded listed =>
          match rows_of listed with
          | Ok rows =>
              mkExchange [CallListEntries limit]
                [mkResponse (JNum 200) (JObj [("rows", JArr rows)])] None
          | Throw e => mkExchange [CallListEntries limit] [] (Some e)
          end
      end
  end.

(** (req.body && req.body.text ? String(req.body.text) : "").trim() *)
Definition entry_text (req_body : JsVal) : result string :=
  if (truthy req_body && truthy (get_prop req_body "text"))%bool
  then (s <- ToString (get_prop req_body "text") ;; Ok (trim s))%res
  else Ok (trim "").

(** app.post("/entries", ...) *)
Definition post_entries (req_body : JsVal) : Exchange :=
  match entry_text req_body with
  | Throw e => mkExchange [] [] (Some e)
  | Ok text =>
      match CreateEntry text with
      | Failed err =>
          mkExchange [CallCreateEntry text]
            [mkResponse (JNum 400)
               (JObj [("ok", JBool false);
                      ("error", get_prop (JObj err) "message")])]
            None
      | Succeeded entry =>
          mkExchange [CallCreateEntry text]
            [mkResponse (JNum 200) (JObj [("ok", JBool true); ("entry", JObj entry)])]
            None
      end
  end.

(* ------------------------------------------------------------------ *)
(** *** The client (MainComponent.js) *)

(** An option of the mood selector; the emoji is given by its code point. *)
Record MoodOption : Type := mkMoodOption {
  mood_value : string;
  mood_label : string;
  mood_emoji : Z
}.

Definition moodOptions : list MoodOption :=
  [ mkMoodOption "grateful" "Grateful" 128591;
    mkMoodOption "happy" "Happy" 128516;
    mkMoodOption "calm" "Calm" 128524;
    mkMoodOption "focused" "Focused" 127919;
    mkMoodOption "energized" "Energized" 9889;
    mkMoodOption "tired" "Tired" 128564;
    mkMoodOption "stressed" "Stressed" 128531 ].

(** const findMoodMeta = (mood) =>
      moodOptions.find((option) => option.value === mood) || moodOptions[0] *)
Definition findMoodMeta (mood : JsVal) : MoodOption :=
  match find (fun option => is_str mood (mood_value option)) moodOptions with
  | Some option => option
  | None => hd (mkMoodOption "" "" 0) moodOptions
  end.

(** The body [refreshAiInsights] posts to /ai/insights, from the entries,
    moods and stats the component holds; [None] when it returns early with
    its own message instead of posting. *)
Definition insights_payload (entries moods : list JsVal) (stats : JsVal)
  : option JsVal :=
  if (Nat.eqb (List.length entries) 0 && Nat.eqb (List.length moods) 0
      && negb (truthy stats))%bool
  then None
  else
    let latestEntry := js_or (nth 0 entries JUndefined) JNull in
    let latestMood := js_or (nth 0 moods JUndefined) JNull in
    let statsSnapshot :=
      if truthy stats
      then JObj [("total_entries", get_prop stats "total_entries");
                 ("entries_today", get_prop stats "entries_today");
                 ("streak_days", get_prop stats "streak_days");
                 ("last7_days", get_prop stats "last7_days");
                 ("mood_trend", get_prop stats "mood_trend")]
      else JNull in
    Some (JObj [("entry", js_or (get_opt latestEntry "text") (JStr ""));
                ("mood",
                 if truthy latestMood
                 then JObj [("mood", get_prop latestMood "mood");
                            ("note", js_or (get_prop latestMood "note") (JStr ""))]
                 else JNull);
                ("stats", statsSnapshot);
                ("goals", JArr [])]).

(** Induction over values, with the elements of an array at hand. *)
Section JsVal_induction.
Variable P : JsVal -> Prop.
Hypothesis P_undefined : P JUndefined.
Hypothesis P_null : P JNull.
Hypothesis P_bool : forall b, P (JBool b).
Hypothesis P_num : forall z, P (JNum z).
Hypothesis P_str : forall s, P (JStr s).
Hypothesis P_arr : forall xs, Forall P xs -> P (JArr xs).
Hypothesis P_obj : forall props, P (JObj props).
Hypothesis P_native : forall name, P (JNative name).

Fixpoint JsVal_elements_ind (v : JsVal) : P v :=
  match v with
  | JUndefined => P_undefined
  | JNull => P_null
  | JBool b => P_bool b
  | JNum z => P_num z
  | JStr s => P_str s
  | JArr xs =>
      P_arr xs
        ((fix go (l : list JsVal) : Forall P l :=
            match l with
            | [] => Forall_nil P
            | x :: rest => Forall_cons x (JsVal_elements_ind x) (go rest)
            end) xs)
  | JObj props => P_obj props
  | JNative name => P_native name
  end.
End JsVal_induction.

(* ================================================================== *)
(** ** Properties of the bounding utilities *)

Lemma substring0_length (s : string) : forall k,
  (String.length (substring 0 k s) <= k)%nat.
Proof.
  induction s as [|c s IH]; intros [|k]; simpl; try lia.
  specialize (IH k). lia.
Qed.

Lemma substring0_all (s : string) : forall k,
  (String.length s <= k)%nat -> substring 0 k s = s.
Proof.
  induction s as [|c s IH]; intros [|k] Hk; simpl in *; try reflexivity; try lia.
  f_equal. apply IH. lia.
Qed.

Lemma substring0_starts (s : string) (k : nat) :
  starts_ws s = false -> starts_ws (substring 0 k s) = false.
Proof. destruct s, k; simpl; auto. Qed.

Lemma slice_end_nat (len n : nat) : slice_end len (Z.of_nat n) = Nat.min n len.
Proof.
  unfold slice_end. destruct (Z.ltb_spec (Z.of_nat n) 0); lia.
Qed.

Lemma str_slice0_length (s : string) (n : nat) :
  (String.length (str_slice0 s (Z.of_nat n)) <= n)%nat.
Proof.
  unfold str_slice0. rewrite slice_end_nat.
  pose proof (substring0_length s (Nat.min n (String.length s))). lia.
Qed.

Lemma str_slice0_all (s : string) (n : nat) :
  (String.length s <= n)%nat -> str_slice0 s (Z.of_nat n) = s.
Proof.
  intros H. unfold str_slice0. rewrite slice_end_nat.
  apply substring0_all. lia.
Qed.

Lemma trim_start_starts (s : string) : starts_ws (trim_start s) = false.
Proof.
  induction s as [|c s IH]; simpl; [reflexivity|].
  destruct (is_ws c) eqn:E; [exact IH | simpl; exact E].
Qed.

Lemma trim_end_starts (s : string) :
  starts_ws s = false -> starts_ws (trim_end s) = false.
Proof.
  destruct s as [|c s]; simpl; [reflexivity|].
  intros E. rewrite E. simpl. exact E.
Qed.

Lemma trim_end_ends (s : string) : ends_ws (trim_end s) = false.
Proof.
  induction s as [|c s IH]; simpl; [reflexivity|].
  destruct (trim_end s) as [|c' s'] eqn:E.
  - destruct (is_ws c) eqn:W; simpl; [reflexivity | exact W].
  - rewrite andb_false_r. simpl. simpl in IH. exact IH.
Qed.

Lemma trim_end_fixed (s : string) : ends_ws s = false -> trim_end s = s.
Proof.
  induction s as [|c s IH]; simpl; [reflexivity|].
  destruct s as [|c' s'].
  - intros W. simpl. rewrite W. reflexivity.
  - intros W. rewrite (IH W). rewrite andb_false_r. reflexivity.
Qed.

Lemma trim_start_fixed (s : string) : starts_ws s = false -> trim_start s = s.
Proof. destruct s as [|c s]; simpl; [reflexivity|]. intros E. rewrite E. reflexivity. Qed.

Lemma trim_starts (s : string) : starts_ws (trim s) = false.
Proof. unfold trim. apply trim_end_starts, trim_start_starts. Qed.

Lemma trim_ends (s : string) : ends_ws (trim s) = false.
Proof. unfold trim. apply trim_end_ends. Qed.

Lemma trim_fixed (s : string) :
  starts_ws s = false -> ends_ws s = false -> trim s = s.
Proof.
  intros H1 H2. unfold trim. rewrite (trim_start_fixed s H1).
  apply trim_end_fixed, H2.
Qed.

Lemma trim_end_length (s : string) :
  (String.length (trim_end s) <= String.length s)%nat.
Proof.
  induction s as [|c s IH]; simpl; [lia|].
  destruct (is_ws c && String.eqb (trim_end s) "")%bool; simpl; lia.
Qed.

Lemma ToString_total (v : JsVal) :
  convertible v = true -> exists s, ToString v = Ok s.
Proof.
  induction v as [ | |b|z|s|xs IH|props|name] using JsVal_elements_ind;
    simpl; intros C; eauto.
  - destruct b; eauto.
  - induction IH as [|x rest Hx _ IHrest]; [eauto|].
    apply andb_prop in C. destruct C as [Cx Crest].
    destruct (IHrest Crest) as [sr Hr].
    assert (Hsx : exists sx,
               match x with
               | JUndefined | JNull => Ok ""
               | _ => ToString x
               end = Ok sx).
    { destruct (Hx Cx) as [sx E]. destruct x; eauto. }
    destruct Hsx as [sx Esx]. rewrite Esx. simpl.
    destruct rest; [eauto|]. rewrite Hr. simpl. eauto.
  - destruct (has_own "toString" props); [discriminate | eauto].
Qed.

(** A value that is inconvertible makes [String] raise, and [sanitize]
    has no handler for it. *)
Lemma sanitize_raises_on_own_toString (props : list (string * JsVal)) (max : option Z) :
  has_own "toString" props = true ->
  sanitize (JObj props) max
  = Throw (TypeError "Cannot convert object to primitive value").
Proof. intros H. unfold sanitize. simpl. rewrite H. reflexivity. Qed.

Lemma substring0_length_le (s : string) : forall k,
  (String.length (substring 0 k s) <= String.length s)%nat.
Proof.
  induction s as [|c s IH]; intros [|k]; simpl; try lia.
  specialize (IH k). lia.
Qed.

Lemma trim_start_length (s : string) :
  (String.length (trim_start s) <= String.length s)%nat.
Proof.
  induction s as [|c s IH]; simpl; [lia|].
  destruct (is_ws c); simpl; lia.
Qed.

Lemma trim_length (s : string) : (String.length (trim s) <= String.length s)%nat.
Proof.
  unfold trim. pose proof (trim_end_length (trim_start s)).
  pose proof (trim_start_length s). lia.
Qed.

Lemma slice_end_Z (len : nat) (z : Z) :
  0 <= z -> slice_end len z = Nat.min (Z.to_nat z) len.
Proof.
  intros H. rewrite <- (Z2Nat.id z H) at 1. apply slice_end_nat.
Qed.

(** Sanitizing again a string that already fits the cap and does not start
    with whitespace gives it back exactly when it does not end with
    whitespace. *)
Lemma resanitize_fixed_iff (t : string) (z : Z) :
  0 <= z -> (String.length t <= Z.to_nat z)%nat -> starts_ws t = false ->
  (str_slice0 (trim t) z = t <-> ends_ws t = false).
Proof.
  intros Hz Hlen Hs. unfold str_slice0. rewrite (slice_end_Z _ _ Hz). split.
  - intros E.
    pose proof (trim_length t) as L1.
    pose proof (substring0_length_le (trim t)
                  (Nat.min (Z.to_nat z) (String.length (trim t)))) as L2.
    rewrite E in L2.
    rewrite substring0_all in E by lia.
    rewrite <- E. apply trim_ends.
  - intros He. rewrite (trim_fixed t Hs He). apply substring0_all. lia.
Qed.

Lemma sanitize_ok_bounds (v : JsVal) (z : Z) (out : string) :
  0 <= z -> sanitize v (Some z) = Ok out ->
  (String.length out <= Z.to_nat z)%nat /\ starts_ws out = false.
Proof.
  intros Hz. unfold sanitize. simpl dflt.
  assert (G : forall s, (String.length (str_slice0 (trim s) z) <= Z.to_nat z)%nat
                        /\ starts_ws (str_slice0 (trim s) z) = false).
  { intros s. split.
    - rewrite <- (Z2Nat.id z Hz) at 1. apply str_slice0_length.
    - unfold str_slice0. apply substring0_starts, trim_starts. }
  destruct v; try (intros E; injection E as <-; simpl; split; [lia|reflexivity]);
    destruct (ToString _) as [s0|e0]; simpl; try discriminate;
    intros E; injection E as <-; apply G.
Qed.

Lemma js_or_str_empty (t : string) : js_or (JStr t) (JStr "") = JStr t.
Proof.
  unfold js_or. simpl. destruct (String.eqb_spec t ""); subst; reflexivity.
Qed.

Lemma js_or_null_stable (a b : JsVal) :
  let c := js_or a (js_or b JNull) in js_or c JNull = c.
Proof.
  unfold js_or. destruct (truthy a) eqn:A; [rewrite A; reflexivity|].
  destruct (truthy b) eqn:B; [rewrite B; reflexivity | reflexivity].
Qed.

Lemma mapM_length {A B} (f : A -> result B) (xs : list A) : forall ys,
  mapM f xs = Ok ys -> List.length ys = List.length xs.
Proof.
  induction xs as [|x xs IH]; simpl; intros ys E.
  - injection E as <-. reflexivity.
  - destruct (f x); simpl in E; [|discriminate].
    destruct (mapM f xs); simpl in E; [|discriminate].
    injection E as <-. simpl. f_equal. apply IH. reflexivity.
Qed.

Lemma mapM_Forall {A B} (f : A -> result B) (P : B -> Prop) (xs : list A) :
  (forall x y, f x = Ok y -> P y) ->
  forall ys, mapM f xs = Ok ys -> Forall P ys.
Proof.
  intros HP. induction xs as [|x xs IH]; simpl; intros ys E.
  - injection E as <-. constructor.
  - destruct (f x) eqn:Ex; simpl in E; [|discriminate].
    destruct (mapM f xs); simpl in E; [|discriminate].
    injection E as <-. constructor; eauto.
Qed.

Lemma mapM_fixed_iff {A} (f : A -> result A) (ys : list A) :
  mapM f ys = Ok ys <-> Forall (fun y => f y = Ok y) ys.
Proof.
  induction ys as [|y ys IH]; simpl.
  - split; [constructor | reflexivity].
  - split.
    + intros E. destruct (f y) eqn:Ey; simpl in E; [|discriminate].
      destruct (mapM f ys) eqn:Em; simpl in E; [|discriminate].
      injection E as -> ->. constructor; [exact Ey | apply IH; reflexivity].
    + intros H. inversion H as [|? ? Hy Hys]; subst.
      rewrite Hy. simpl. apply IH in Hys. rewrite Hys. reflexivity.
Qed.

Lemma clip_of_clipped (ys : list JsVal) (limit : option Z) :
  0 <= dflt 20 limit -> (List.length ys <= Z.to_nat (dflt 20%Z limit))%nat ->
  clipCollection (JArr ys) limit = ys.
Proof.
  intros Hz Hlen. unfold clipCollection, arr_slice0.
  rewrite (slice_end_Z _ _ Hz). apply firstn_all2. lia.
Qed.

Lemma clipCollection_length (input : JsVal) (limit : option Z) :
  0 <= dflt 20 limit ->
  (List.length (clipCollection input limit) <= Z.to_nat (dflt 20%Z limit))%nat.
Proof.
  intros Hz. unfold clipCollection, arr_slice0. destruct input; simpl; try lia.
  rewrite (slice_end_Z _ _ Hz), length_firstn. lia.
Qed.

(** A normalized entry, and what normalizing it again gives. *)
Lemma normalizeEntry_shape (item y : JsVal) :
  normalizeEntry item = Ok y ->
  exists t c,
    y = JObj [("text", JStr t); ("created_at", c)] /\
    (String.length t <= 500)%nat /\ starts_ws t = false /\
    c = js_or (get_opt item "created_at") (js_or (get_opt item "createdAt") JNull) /\
    (forall e, sanitize (js_or (get_opt item "text") (JStr "")) (Some 500) = Ok e -> e = t).
Proof.
  unfold normalizeEntry. intros E.
  destruct (sanitize _ _) as [t|e] eqn:Et; simpl in E; [|discriminate].
  injection E as <-.
  destruct (sanitize_ok_bounds _ 500 t ltac:(lia) Et) as [L S].
  exists t, (js_or (get_opt item "created_at") (js_or (get_opt item "createdAt") JNull)).
  repeat split; auto. intros e He. congruence.
Qed.

Lemma normalizeEntry_again (t : string) (a b : JsVal) :
  normalizeEntry (JObj [("text", JStr t); ("created_at", js_or a (js_or b JNull))])
  = Ok (JObj [("text", JStr (str_slice0 (trim t) 500));
              ("created_at", js_or a (js_or b JNull))]).
Proof.
  unfold normalizeEntry, get_opt. simpl.
  rewrite js_or_str_empty. simpl.
  change (js_or JUndefined JNull) with JNull.
  rewrite (js_or_null_stable a b). reflexivity.
Qed.

Lemma normalizeMood_again (m n : string) (a : JsVal) :
  normalizeMood (JObj [("mood", JStr m); ("note", JStr n);
                       ("created_at", js_or a JNull)])
  = Ok (JObj [("mood", JStr (str_slice0 (trim m) 50));
              ("note", JStr (str_slice0 (trim n) 240));
              ("created_at", js_or a JNull)]).
Proof.
  unfold normalizeMood, get_opt. simpl.
  rewrite !js_or_str_empty. simpl.
  replace (js_or (js_or a JNull) JNull) with (js_or a JNull); [reflexivity|].
  unfold js_or. destruct (truthy a) eqn:A; [rewrite A|]; reflexivity.
Qed.

Lemma normalizeEntry_fixed_iff (item y : JsVal) :
  normalizeEntry item = Ok y ->
  (normalizeEntry y = Ok y <-> field_trimmed "text" y = true).
Proof.
  intros E. destruct (normalizeEntry_shape _ _ E) as (t & c & -> & L & S & -> & _).
  rewrite normalizeEntry_again. unfold field_trimmed. simpl.
  pose proof (resanitize_fixed_iff t 500 ltac:(lia) L S) as R.
  rewrite negb_true_iff, <- R. split.
  - intros H. injection H as H. exact H.
  - intros H. rewrite H. reflexivity.
Qed.

Lemma normalizeMood_fixed_iff (item y : JsVal) :
  normalizeMood item = Ok y ->
  (normalizeMood y = Ok y <->
   (field_trimmed "mood" y && field_trimmed "note" y)%bool = true).
Proof.
  unfold normalizeMood at 1. intros E.
  destruct (sanitize _ (Some 50)) as [m|e] eqn:Em; simpl in E; [|discriminate].
  destruct (sanitize _ (Some 240)) as [n|e] eqn:En; simpl in E; [|discriminate].
  injection E as <-.
  destruct (sanitize_ok_bounds _ 50 m ltac:(lia) Em) as [Lm Sm].
  destruct (sanitize_ok_bounds _ 240 n ltac:(lia) En) as [Ln Sn].
  rewrite normalizeMood_again. unfold field_trimmed. simpl.
  pose proof (resanitize_fixed_iff m 50 ltac:(lia) Lm Sm) as Rm.
  pose proof (resanitize_fixed_iff n 240 ltac:(lia) Ln Sn) as Rn.
  rewrite andb_true_iff, !negb_true_iff, <- Rm, <- Rn. split.
  - intros H. injection H as H1 H2. split; assumption.
  - intros [H1 H2]. rewrite H1, H2. reflexivity.
Qed.

Lemma Forall_iff_forallb {A} (f : A -> result A) (p : A -> bool) (ys : list A) :
  Forall (fun y => f y = Ok y <-> p y = true) ys ->
  (Forall (fun y => f y = Ok y) ys <-> forallb p ys = true).
Proof.
  induction 1 as [|y ys Hy _ IH]; simpl.
  - split; [reflexivity | constructor].
  - rewrite andb_true_iff, <- IH, <- Hy. split.
    + intros H. inversion H; subst. split; assumption.
    + intros [H1 H2]. constructor; assumption.
Qed.

(** C6 (as amended): on every value [String] converts, and every cap [n],
    [sanitize] returns a string of at most [n] characters that does not
    start with whitespace; the string is empty for null and undefined, and
    otherwise it is the first [n] characters of the trimmed string form,
    free of trailing whitespace whenever the trimmed form fits the cap.
    An absent cap is 800. *)
Theorem C6_sanitize_bounded_prefix_of_trim (v : JsVal) (n : nat) :
  convertible v = true ->
  exists out,
    sanitize v (Some (Z.of_nat n)) = Ok out /\
    (String.length out <= n)%nat /\
    starts_ws out = false /\
    (nullish v = true -> out = "") /\
    (nullish v = false ->
       exists s, ToString v = Ok s /\
                 out = substring 0 n (trim s) /\
                 ((String.length (trim s) <= n)%nat ->
                    out = trim s /\ ends_ws out = false)) /\
    sanitize v None = sanitize v (Some 800).
Proof.
  intros C.
  destruct (ToString_total v C) as [s Hs].
  destruct (nullish v) eqn:N.
  - exists "". destruct v; try discriminate; simpl;
      repeat split; auto; try lia; discriminate.
  - exists (str_slice0 (trim s) (Z.of_nat n)).
    assert (E : sanitize v (Some (Z.of_nat n)) = Ok (str_slice0 (trim s) (Z.of_nat n))).
    { unfold sanitize. destruct v; try discriminate; simpl dflt;
        rewrite Hs; reflexivity. }
    split; [exact E|].
    split; [apply str_slice0_length|].
    split; [unfold str_slice0; apply substring0_starts, trim_starts|].
    split; [discriminate|].
    split; [|reflexivity].
    intros _. exists s. split; [exact Hs|]. split.
    + unfold str_slice0. rewrite slice_end_nat.
      destruct (Nat.le_ge_cases n (String.length (trim s))) as [L|L].
      * rewrite Nat.min_l by exact L. reflexivity.
      * rewrite Nat.min_r by exact L.
        rewrite (substring0_all _ _ L), substring0_all; [reflexivity | lia].
    + intros L. rewrite (str_slice0_all _ _ L). split; [reflexivity | apply trim_ends].
Qed.

(** C7: [safeJsonParse] returns a value on every text and every fallback:
    the parsed value when the text is valid JSON, whatever the fallback;
    when it is not, the fallback that was passed, and the empty object
    when none was passed or undefined was (a default parameter takes over
    in both cases).  A raw value whose conversion to a string raises is
    answered like a text that does not parse.  Passing the empty object
    and passing nothing are the same. *)
Theorem C7_safeJsonParse_parse_or_fallback (t : string) (f : option JsVal) :
  (forall v, JSON_parse t = Ok v -> safeJsonParse (JStr t) f = v) /\
  (forall e, JSON_parse t = Throw e ->
     (forall fb, f = Some fb -> fb <> JUndefined -> safeJsonParse (JStr t) f = fb) /\
     (f = None \/ f = Some JUndefined -> safeJsonParse (JStr t) f = JObj [])) /\
  (forall raw e, ToString raw = Throw e ->
     (forall fb, f = Some fb -> fb <> JUndefined -> safeJsonParse raw f = fb) /\
     (f = None \/ f = Some JUndefined -> safeJsonParse raw f = JObj [])) /\
  safeJsonParse (JStr t) None = safeJsonParse (JStr t) (Some (JObj [])) /\
  safeJsonParse (JStr t) (Some JUndefined) = safeJsonParse (JStr t) None.
Proof.
  unfold safeJsonParse. cbn [ToString rbind].
  split; [intros v H; rewrite H; reflexivity|].
  split; [intros e H; rewrite H|].
  { split.
    - intros fb -> N. destruct fb; try reflexivity. contradiction.
    - intros [-> | ->]; reflexivity. }
  split; [intros raw e H; rewrite H|].
  { cbn [rbind]. split.
    - intros fb -> N. destruct fb; try reflexivity. contradiction.
    - intros [-> | ->]; reflexivity. }
  split; reflexivity.
Qed.


(** C8 (as amended): with a limit that is not negative, normalizing the
    output of a Normalizer again gives that output back exactly when no
    text field of it (text; mood and note) ends in whitespace.  Such an
    ending is what truncation at the cap leaves behind when it cuts right
    after a space; every other output passes through unchanged. *)
Theorem C8_renormalize_fixed_iff_trimmed
        (xs : JsVal) (limit : option Z) (ys : list JsVal) :
  0 <= dflt 20 limit ->
  (normalizeEntries xs limit = Ok ys ->
     (normalizeEntries (JArr ys) limit = Ok ys
      <-> forallb (field_trimmed "text") ys = true)) /\
  (normalizeMoods xs limit = Ok ys ->
     (normalizeMoods (JArr ys) limit = Ok ys
      <-> forallb (fun y => field_trimmed "mood" y && field_trimmed "note" y)%bool
                  ys = true)).
Proof.
  intros Hz. split; intros E.
  - unfold normalizeEntries in *.
    pose proof (mapM_length _ _ _ E) as L.
    pose proof (clipCollection_length xs limit Hz) as L'.
    rewrite clip_of_clipped by (auto; lia).
    rewrite mapM_fixed_iff. apply Forall_iff_forallb.
    apply (mapM_Forall normalizeEntry _ (clipCollection xs limit)); [|exact E].
    intros x y. apply normalizeEntry_fixed_iff.
  - unfold normalizeMoods in *.
    pose proof (mapM_length _ _ _ E) as L.
    pose proof (clipCollection_length xs limit Hz) as L'.
    rewrite clip_of_clipped by (auto; lia).
    rewrite mapM_fixed_iff. apply Forall_iff_forallb.
    apply (mapM_Forall normalizeMood _ (clipCollection xs limit)); [|exact E].
    intros x y. apply normalizeMood_fixed_iff.
Qed.


(* ================================================================== *)
(** ** Properties of the routes *)

Lemma unconfigured : OPENAI_API_KEY = "" -> openAiClient = None.
Proof. intros H. unfold openAiClient. rewrite H. reflexivity. Qed.

Lemma configured : OPENAI_API_KEY <> "" -> openAiClient = Some create.
Proof.
  intros H. unfold openAiClient.
  destruct (String.eqb_spec OPENAI_API_KEY ""); [contradiction | reflexivity].
Qed.

Ltac unfold_route :=
  cbv [handler ai_insights ai_prompt ai_summary ai_goals ai_anomaly ai_pattern
       ai_transcript ai_partner ai_chat
       bind ret lift try_catch ensureOpenAi respond_invalid respond_failure
       res_send runJsonChat runChat only_max];
  change (valid_status (JNum 200)) with true;
  change (valid_status (JNum 400)) with true;
  change (valid_status (JNum 503)) with true;
  cbv beta iota.

Lemma guard_closes_route (op : Operation) (req_body : JsVal) (w : World) :
  openAiClient = None ->
  handler op req_body w
  = (Ok tt,
     mkWorld (sent w ++
              [mkResponse (JNum 503)
                 (JObj [("ok", JBool false); ("error", JStr not_configured)])])
             (calls w)).
Proof. intros H. destruct op; unfold_route; rewrite H; reflexivity. Qed.

(** C1: without an API key every AI route answers 503 with the fixed body
    and sends nothing to the LLM, whatever the request body; [runChat]
    itself throws the configuration error and sends nothing. *)
Theorem C1_unconfigured_answers_503 (op : Operation) (req_body : JsVal) (w : World) :
  OPENAI_API_KEY = "" ->
  handler op req_body w
  = (Ok tt,
     mkWorld (sent w ++
              [mkResponse (JNum 503)
                 (JObj [("ok", JBool false);
                        ("error",
                         JStr "OPENAI_API_KEY is not configured on the API gateway")])])
             (calls w))
  /\ (forall messages options,
        runChat messages options w
        = (Throw (Error "OPENAI_API_KEY is not configured on the API gateway"), w)).
Proof.
  intros H. apply unconfigured in H. split.
  - apply guard_closes_route, H.
  - intros messages options. unfold runChat. rewrite H. reflexivity.
Qed.

Lemma filter_nonempty_length (gs : list string) :
  Nat.eqb (List.length (filter (fun g => negb (String.eqb g "")) gs)) 0
  = forallb (fun g => String.eqb g "") gs.
Proof.
  induction gs as [|g gs IH]; simpl; [reflexivity|].
  destruct (String.eqb g ""); simpl; [exact IH | reflexivity].
Qed.

Lemma truthy_or_null (v : JsVal) : truthy (js_or v JNull) = truthy v.
Proof. unfold js_or. destruct (truthy v) eqn:E; [exact E | reflexivity]. Qed.

(** C2 (as amended): on a configured gateway, a body whose inputs are
    extracted without an exception and which fails the route's
    required-input check is answered with status 400 and the route's
    message, which is not empty and names the missing input; nothing is
    sent to the LLM. *)
Theorem C2_missing_input_answers_400 (op : Operation) (req_body : JsVal) (w : World) :
  OPENAI_API_KEY <> "" ->
  input_missing op req_body = Ok true ->
  handler op req_body w
  = (Ok tt,
     mkWorld (sent w ++
              [mkResponse (JNum 400) (JObj [("error", JStr (validation_error op))])])
             (calls w))
  /\ validation_error op <> ""
  /\ mentions (validation_error op) (required_input op) = true.
Proof.
  intros K M. apply configured in K.
  split; [| destruct op; try discriminate; (split; [discriminate | reflexivity])].
  destruct op; try discriminate; unfold_route; rewrite K; cbn [negb];
    unfold input_missing in M.
  - destruct (sanitize _ None) as [entry|] eqn:E1; [|discriminate].
    cbn [rbind] in M.
    destruct (match get_opt req_body "goals" with JArr _ => _ | _ => _ end)
      as [goals|]; [|discriminate].
    cbn [rbind] in M. injection M as M. rewrite !truthy_or_null, M. reflexivity.
  - destruct (normalizeEntries _ _) as [entries|]; [|discriminate].
    cbn [rbind] in M.
    destruct (normalizeMoods _ _) as [moods|]; [|discriminate].
    cbn [rbind] in M. injection M as M. rewrite truthy_or_null, M. reflexivity.
  - destruct (mapM _ _) as [goals|]; [|discriminate].
    cbn [rbind] in *.
    destruct (sanitize _ _) as [entry|]; [|discriminate].
    cbn [rbind] in M. injection M as M.
    rewrite filter_nonempty_length, M. reflexivity.
  - destruct (normalizeEntries _ _) as [entries|]; [|discriminate].
    cbn [rbind] in M.
    destruct (normalizeMoods _ _) as [moods|]; [|discriminate].
    cbn [rbind] in M. injection M as M. rewrite M. reflexivity.
  - destruct (normalizeEntries _ _) as [entries|]; [|discriminate].
    cbn [rbind] in M. injection M as M. rewrite M. reflexivity.
  - destruct (sanitize _ _) as [n1|]; [|discriminate]. cbn [rbind] in *.
    destruct (String.eqb n1 "") eqn:N1; cbn [negb] in *; [|discriminate].
    destruct (sanitize _ _) as [n2|]; [|discriminate]. cbn [rbind] in *.
    destruct (String.eqb n2 "") eqn:N2; cbn [negb] in *; [|discriminate].
    destruct (sanitize _ _) as [n3|]; [|discriminate]. cbn [rbind] in *.
    injection M as M. rewrite M. reflexivity.
  - destruct (sanitize _ _) as [audience|]; [|discriminate].
    cbn [rbind] in M. injection M as M. rewrite !truthy_or_null, M. reflexivity.
Qed.


Lemma app_one_neq {A} (l : list A) (x : A) : l <> (l ++ [x])%list.
Proof.
  intros E. apply (f_equal (@List.length A)) in E.
  rewrite length_app in E. simpl in E. lia.
Qed.

(** What [res_send] does, by the status. *)
Lemma res_send_valid (st b : JsVal) (w : World) :
  valid_status st = true ->
  res_send st b w = (Ok tt, mkWorld (sent w ++ [mkResponse st b]) (calls w)).
Proof. intros V. unfold res_send. rewrite V. reflexivity. Qed.

Lemma res_send_invalid (st b : JsVal) (w : World) :
  valid_status st = false ->
  res_send st b w = (Throw (invalid_status st), w).
Proof. intros V. unfold res_send. rewrite V. reflexivity. Qed.

(** An error the gateway's own code raises while it shapes the response
    carries no status: the [catch] block answers it with 502. *)
Lemma shaping_error_has_no_status (op : Operation)
      (response : list (string * JsVal)) (e : JsError) :
  success_body op response = Throw e ->
  status (failure_response op e) = JNum 502.
Proof.
  destruct op; simpl; try discriminate.
  - destruct (reply_content response); simpl; intros E; try discriminate;
      injection E as <-; reflexivity.
  - unfold get_dot. destruct (nullish (json_of response)); simpl; intros E;
      [|discriminate]. injection E as <-. reflexivity.
  - destruct (reply_content response); simpl; intros E; try discriminate;
      injection E as <-; reflexivity.
Qed.

Lemma resolved_status_valid (op : Operation) (response : list (string * JsVal)) :
  valid_status (status (outcome_response op (Resolved response))) = true.
Proof.
  unfold outcome_response.
  destruct (success_body op response) as [b|e] eqn:B; [reflexivity|].
  rewrite (shaping_error_has_no_status _ _ _ B). reflexivity.
Qed.

Lemma settle_valid (op : Operation) (reply : Reply) (w : World) :
  valid_status (status (outcome_response op reply)) = true ->
  settle op reply w
  = (Ok tt, mkWorld (sent w ++ [outcome_response op reply]) (calls w)).
Proof.
  intros V. unfold settle. rewrite (res_send_valid _ _ _ V).
  destruct (outcome_response op reply); reflexivity.
Qed.

Lemma settle_invalid (op : Operation) (reply : Reply) (w : World) :
  valid_status (status (outcome_response op reply)) = false ->
  settle op reply w
  = (Throw (invalid_status (status (outcome_response op reply))), w).
Proof. intros V. unfold settle. apply res_send_invalid, V. Qed.

Lemma settle_resolved (op : Operation) (response : list (string * JsVal))
      (w : World) :
  settle op (Resolved response) w
  = (Ok tt,
     mkWorld (sent w ++ [outcome_response op (Resolved response)]) (calls w)).
Proof. apply settle_valid, resolved_status_valid. Qed.

Lemma settle_calls (op : Operation) (reply : Reply) (w : World) :
  calls (snd (settle op reply w)) = calls w.
Proof.
  destruct (valid_status (status (outcome_response op reply))) eqn:V.
  - rewrite (settle_valid _ _ _ V). reflexivity.
  - rewrite (settle_invalid _ _ _ V). reflexivity.
Qed.

(** Only a rejected call can bring a status that is refused. *)
Lemma invalid_status_is_upstream (op : Operation) (reply : Reply) :
  valid_status (status (outcome_response op reply)) = false ->
  exists err,
    reply = Rejected err /\
    valid_status (js_or (get_prop (JObj err) "status")
                        (js_or (get_prop (JObj err) "statusCode") (JNum 502)))
    = false.
Proof.
  destruct reply as [response|err]; intros V.
  - rewrite resolved_status_valid in V. discriminate.
  - exists err. split; [reflexivity | exact V].
Qed.

(** How a route ends on a configured gateway: extraction raises and the
    exception leaves the route; or the route answers 400; or it sends one
    request to the model and settles the reply. *)
Lemma route_outcomes (op : Operation) (req_body : JsVal) (w : World) :
  openAiClient = Some create ->
  (exists e, handler op req_body w = (Throw e, w)) \/
  handler op req_body w
    = (Ok tt, mkWorld (sent w ++
                       [mkResponse (JNum 400)
                                   (JObj [("error", JStr (validation_error op))])])
                      (calls w)) \/
  (exists req,
     (op = Chat -> chat_messages req_body = Ok (req_messages req)) /\
     handler op req_body w
     = settle op (create req) (mkWorld (sent w) (calls w ++ [req]))).
Proof.
  intros K.
  destruct op; unfold_route; rewrite K; cbn [negb];
    repeat match goal with
      | |- context [match ?r with Ok _ => _ | Throw _ => _ end] =>
          lazymatch r with
          | context [create] => fail
          | _ => destruct r; cbn [rbind]; [|left; eexists; reflexivity]
          end
      | |- context [if ?b then _ else _] =>
          lazymatch b with
          | context [create] => fail
          | _ => destruct b; [right; left; reflexivity|]
          end
      end.
  all: right; right.
  all: match goal with |- context [create ?R] => exists R end.
  all: (split; [first [discriminate | intros _; reflexivity]|]).
  all: unfold settle, res_send, outcome_response, success_body,
         failure_response, json_of, usage_of.
  all: try (destruct (create _) as [response|err]; cbn [fst snd];
            [ try (destruct (opt_trim _); cbn [rbind]);
              try (destruct (get_dot _ _); cbn [rbind]);
              reflexivity
            | reflexivity ]).
Qed.


(** A route that has sent a request to the model has settled the reply. *)
Lemma route_after_call (op : Operation) (req_body : JsVal) (w w' : World)
      (r : result unit) (req : LlmRequest) :
  handler op req_body w = (r, w') ->
  calls w' = (calls w ++ [req])%list ->
  (r, w') = settle op (create req) (mkWorld (sent w) (calls w ++ [req])) /\
  (op = Chat -> chat_messages req_body = Ok (req_messages req)).
Proof.
  intros H C.
  destruct (String.eqb_spec OPENAI_API_KEY "") as [U|K].
  - rewrite (guard_closes_route op req_body w (unconfigured U)) in H. injection H as <- <-. simpl in C.
    exfalso. exact (app_one_neq _ _ C).
  - destruct (route_outcomes op req_body w (configured K))
      as [[e E] | [E | (req0 & HC & E)]];
      rewrite E in H.
    + injection H as <- <-. exfalso. exact (app_one_neq _ _ C).
    + injection H as <- <-. exfalso. exact (app_one_neq _ _ C).
    + pose proof (f_equal (fun x => calls (snd x)) H) as Q. cbn [snd] in Q.
      rewrite settle_calls in Q. cbn [calls] in Q. rewrite C in Q.
      apply app_inv_head in Q. injection Q as ->.
      split; [symmetry; exact H | exact HC].
Qed.

(** A route whose model call has resolved has answered according to the
    reply, and no exception has left it. *)
Lemma route_after_resolved (op : Operation) (req_body : JsVal) (w w' : World)
      (r : result unit) (req : LlmRequest) (response : list (string * JsVal)) :
  handler op req_body w = (r, w') ->
  calls w' = (calls w ++ [req])%list ->
  create req = Resolved response ->
  r = Ok tt /\
  sent w' = (sent w ++ [outcome_response op (Resolved response)])%list.
Proof.
  intros H C R.
  destruct (route_after_call _ _ _ _ _ _ H C) as (S & _).
  rewrite R, settle_resolved in S. injection S as -> ->.
  split; reflexivity.
Qed.

(** The part of C3 the routes keep: once the model call has failed with
    [err], the [catch] block takes the first of [err.status],
    [err.statusCode] and 502 that is truthy for the status, and
    [err.message] or, when that is empty or absent, its own fallback for
    the message.  When that status is one Node accepts (100 to 999), the
    route answers with it and no exception leaves the route; when it is
    not, writing the response raises and the exception leaves the route
    with nothing written. *)
Lemma upstream_failure_mapped (op : Operation) (req_body : JsVal) (w w' : World)
      (r : result unit) (req : LlmRequest) (err : JsError) :
  handler op req_body w = (r, w') ->
  calls w' = (calls w ++ [req])%list ->
  create req = Rejected err ->
  exists st msg,
    (forall z, get_prop (JObj err) "status" = JNum z -> z <> 0 -> st = JNum z) /\
    (forall z, truthy (get_prop (JObj err) "status") = false ->
               get_prop (JObj err) "statusCode" = JNum z -> z <> 0 -> st = JNum z) /\
    (truthy (get_prop (JObj err) "status") = false ->
     truthy (get_prop (JObj err) "statusCode") = false -> st = JNum 502) /\
    (forall m, get_prop (JObj err) "message" = JStr m -> m <> "" -> msg = JStr m) /\
    (truthy (get_prop (JObj err) "message") = false ->
     msg = JStr (fallback_error op)) /\
    (valid_status st = true ->
       r = Ok tt /\
       sent w' = (sent w ++ [mkResponse st (JObj [("error", msg)])])%list) /\
    (valid_status st = false ->
       (exists e, r = Throw e) /\ sent w' = sent w).
Proof.
  intros H C R.
  destruct (route_after_call _ _ _ _ _ _ H C) as (S & _).
  rewrite R in S.
  exists (js_or (get_prop (JObj err) "status")
                (js_or (get_prop (JObj err) "statusCode") (JNum 502))),
         (js_or (get_prop (JObj err) "message") (JStr (fallback_error op))).
  repeat split.
  - intros z E Hz. unfold js_or. rewrite E. simpl.
    destruct (Z.eqb_spec z 0); [contradiction | reflexivity].
  - intros z F E Hz. unfold js_or. rewrite F, E. simpl.
    destruct (Z.eqb_spec z 0); [contradiction | reflexivity].
  - intros F1 F2. unfold js_or. rewrite F1, F2. reflexivity.
  - intros m E Hm. unfold js_or. rewrite E. simpl.
    destruct (String.eqb_spec m ""); [contradiction | reflexivity].
  - intros F. unfold js_or. rewrite F. reflexivity.
  - rewrite (settle_valid op (Rejected err)) in S by exact H0.
    injection S as -> _. reflexivity.
  - rewrite (settle_valid op (Rejected err)) in S by exact H0.
    injection S as _ ->. reflexivity.
  - rewrite (settle_invalid op (Rejected err)) in S by exact H0.
    injection S as -> _. eexists. reflexivity.
  - rewrite (settle_invalid op (Rejected err)) in S by exact H0.
    injection S as _ ->. reflexivity.
Qed.


(** C4: [runJsonChat] is one [runChat] call on a two-message prompt (the
    system instruction, then the payload: as it is when it is a string,
    serialized otherwise) with the JSON directive, [maxTokens] or 400
    tokens and [temperature] or 0.4.  When that call throws,
    [runJsonChat] throws the same error and leaves the same state.  When
    it returns a response, [runJsonChat] returns [json] and [usage].  With
    [content] standing for [response.choices?.[0]?.message?.content]:
    [json] is the parsed content when the content is a text that is valid
    JSON; the empty object when the text is not valid JSON, when the
    content is missing or empty, and when the content is a value whose
    string form does not parse or cannot be taken; the parsed string form
    for any other content.  [usage] is the response's [usage] when that
    is truthy, and null otherwise. *)
Theorem C4_runJsonChat_propagates_and_parses
        (systemPrompt : string) (userPayload : JsVal) (options : JsonChatOptions)
        (w : World) :
  JSON_parse "{}" = Ok (JObj []) ->
  (exists e, JSON_parse "" = Throw e) ->
  let invoked :=
    runChat [mkMessage "system" (JStr systemPrompt);
             mkMessage "user" (match userPayload with
                               | JStr _ => userPayload
                               | _ => JSON_stringify userPayload
                               end)]
            (mkChatOptions
               (Some (match maxTokens options with
                      | Some n => if n =? 0 then 400 else n
                      | None => 400
                      end))
               (Some (match jc_temperature options with
                      | Some t => t
                      | None => (4 # 10)%Q
                      end))
               (Some "json_object")) w in
  (forall e w', invoked = (Throw e, w') ->
     runJsonChat systemPrompt userPayload options w = (Throw e, w')) /\
  (forall response w', invoked = (Ok response, w') ->
     let content :=
       get_opt (get_opt (get_opt_index (get_prop (JObj response) "choices") 0)
                        "message") "content" in
     exists j u,
       runJsonChat systemPrompt userPayload options w
       = (Ok (mkJsonChat j u), w') /\
       (forall t v, content = JStr t -> JSON_parse t = Ok v -> j = v) /\
       (forall t e, content = JStr t -> JSON_parse t = Throw e -> j = JObj []) /\
       (truthy content = false -> j = JObj []) /\
       (forall t, truthy content = true -> ToString content = Ok t ->
          (forall v, JSON_parse t = Ok v -> j = v) /\
          (forall e, JSON_parse t = Throw e -> j = JObj [])) /\
       (forall e, truthy content = true -> ToString content = Throw e ->
          j = JObj []) /\
       (forall text message_fields choice_fields others rest,
          response
          = ("choices",
             JArr (JObj (("message", JObj (("content", JStr text) :: message_fields))
                         :: choice_fields) :: others)) :: rest ->
          (forall v, JSON_parse text = Ok v -> j = v) /\
          (forall e, JSON_parse text = Throw e -> j = JObj [])) /\
       (truthy (get_prop (JObj response) "usage") = true ->
          u = get_prop (JObj response) "usage") /\
       (truthy (get_prop (JObj response) "usage") = false -> u = JNull)).
Proof.
  intros Hobj [e0 Hempty] invoked. unfold runJsonChat, bind, ret.
  change (dflt (4 # 10)%Q (jc_temperature options))
    with (match jc_temperature options with
          | Some t => t
          | None => (4 # 10)%Q
          end).
  fold invoked. split.
  - intros e w' ->. reflexivity.
  - intros response w' ->.
    set (content := get_opt (get_opt (get_opt_index
                      (get_prop (JObj response) "choices") 0) "message") "content").
    change (reply_content response) with content.
    assert (Text : forall t,
              content = JStr t ->
              (forall v, JSON_parse t = Ok v ->
                 safeJsonParse (js_or content (JStr "{}")) None = v) /\
              (forall e, JSON_parse t = Throw e ->
                 safeJsonParse (js_or content (JStr "{}")) None = JObj [])).
    { intros t ->. unfold safeJsonParse, js_or. cbn [truthy default_param].
      destruct (String.eqb_spec t "") as [->|_]; cbn [negb ToString rbind].
      - rewrite Hobj. split; [intros v Hv; congruence | reflexivity].
      - split; intros x Hx; rewrite Hx; reflexivity. }
    exists (safeJsonParse (js_or content (JStr "{}")) None),
           (js_or (get_prop (JObj response) "usage") JNull).
    split; [reflexivity|].
    split; [intros t v Ht; apply (proj1 (Text t Ht))|].
    split; [intros t e Ht; apply (proj2 (Text t Ht))|].
    split.
    { intros F. unfold safeJsonParse, js_or. rewrite F.
      cbn [ToString rbind default_param]. rewrite Hobj. reflexivity. }
    split.
    { intros t T St. unfold safeJsonParse, js_or. rewrite T, St.
      cbn [rbind default_param].
      split; intros x Hx; rewrite Hx; reflexivity. }
    split.
    { intros e T St. unfold safeJsonParse, js_or. rewrite T, St. reflexivity. }
    split.
    { intros text message_fields choice_fields others rest Shape.
      apply Text. subst content response. reflexivity. }
    split.
    + intros T. unfold js_or. rewrite T. reflexivity.
    + intros F. unfold js_or. rewrite F. reflexivity.
Qed.


Lemma opt_trim_cases (v : JsVal) (out : JsVal) :
  opt_trim v = Ok out ->
  out = JUndefined \/ exists s, v = JStr s /\ out = JStr (trim s).
Proof.
  destruct v; simpl; intros E; try discriminate; injection E as <-; eauto.
Qed.

(** C5 (as amended): when the model call resolves, the route answers 200
    with the body it shapes from the response, or the mapped error when
    shaping raises.  In that body the prompt route's [prompt] and the chat
    route's [reply] are strings that are never empty: the trimmed model
    text, or the route's fixed default when the text is missing or blank.
    The goals route answers [reflections] with the parsed object's field,
    or the empty list when the field is missing.  The other JSON routes
    forward the parsed object as it is, the empty object included: a field
    the model left out stays out. *)
Theorem C5_fallbacks_of_the_routes (op : Operation) (req_body : JsVal)
        (w w' : World) (r : result unit) (req : LlmRequest)
        (response : list (string * JsVal)) :
  handler op req_body w = (r, w') ->
  calls w' = (calls w ++ [req])%list ->
  create req = Resolved response ->
  r = Ok tt /\
  sent w' = (sent w ++ [match success_body op response with
                        | Ok b => mkResponse (JNum 200) b
                        | Throw e => failure_response op e
                        end])%list /\
  forall b, success_body op response = Ok b ->
    match op with
    | Prompt =>
        exists s, get_prop b "prompt" = JStr s /\ s <> "" /\
          (s = prompt_default \/
           exists t, reply_content response = JStr t /\ s = trim t)
    | Chat =>
        exists s, get_prop b "reply" = JStr s /\ s <> "" /\
          (s = chat_default \/
           exists t, reply_content response = JStr t /\ s = trim t)
    | Goals =>
        get_prop b "reflections"
        = js_or (get_prop (json_of response) "reflections") (JArr [])
    | Insights => get_prop b "insights" = json_of response
    | Summary => get_prop b "summary" = json_of response
    | Anomaly => get_prop b "anomaly" = json_of response
    | Pattern => get_prop b "pattern" = json_of response
    | Transcript => get_prop b "transcript" = json_of response
    | Partner => get_prop b "share" = json_of response
    end.
Proof.
  intros H C R.
  destruct (route_after_resolved _ _ _ _ _ _ _ H C R) as (-> & S).
  split; [reflexivity|]. split; [exact S|].
  intros b B. destruct op; simpl in B;
    try (injection B as <-; reflexivity).
  - destruct (opt_trim _) as [p|] eqn:T; simpl in B; [|discriminate].
    injection B as <-. simpl.
    destruct (opt_trim_cases _ _ T) as [->|(t & Ht & ->)].
    + exists prompt_default. repeat split; [discriminate | auto].
    + unfold js_or. simpl. destruct (String.eqb_spec (trim t) "") as [E|E]; simpl.
      * exists prompt_default. repeat split; [discriminate | auto].
      * exists (trim t). repeat split; eauto.
  - unfold get_dot in B. destruct (nullish (json_of response)); simpl in B;
      [discriminate|]. injection B as <-. reflexivity.
  - destruct (opt_trim _) as [p|] eqn:T; simpl in B; [|discriminate].
    injection B as <-. simpl.
    destruct (opt_trim_cases _ _ T) as [->|(t & Ht & ->)].
    + exists chat_default. repeat split; [discriminate | auto].
    + unfold js_or. simpl. destruct (String.eqb_spec (trim t) "") as [E|E]; simpl.
      * exists chat_default. repeat split; [discriminate | auto].
      * exists (trim t). repeat split; eauto.
Qed.


Lemma push_history_forwards (messages : list Message) (msg : JsVal) :
  push_history messages msg
  = (o <- history_message msg ;;
     Ok (messages ++ match o with Some m => [m] | None => [] end)%list)%res.
Proof.
  unfold push_history, history_message.
  destruct (get_dot msg "role"); simpl; [|reflexivity].
  destruct (get_dot msg "content"); simpl; [|reflexivity].
  destruct (get_dot msg "text"); simpl; [|reflexivity].
  destruct (sanitize _ _) as [content|]; simpl; [|reflexivity].
  destruct (String.eqb content ""); [rewrite app_nil_r|]; reflexivity.
Qed.

Lemma forEach_push_history (history : list JsVal) : forall messages,
  forEachM push_history history messages
  = (os <- mapM history_message history ;; Ok (messages ++ kept os)%list)%res.
Proof.
  induction history as [|msg history IH]; intros messages; simpl.
  - rewrite app_nil_r. reflexivity.
  - rewrite push_history_forwards.
    destruct (history_message msg) as [o|]; simpl; [|reflexivity].
    rewrite IH. destruct (mapM history_message history) as [os|]; simpl;
      [|reflexivity].
    rewrite <- app_assoc. reflexivity.
Qed.





(** The timestamp of a normalized entry is the first of [created_at] and
    [createdAt] that is truthy, else null; a missing text gives the empty
    string. *)
Lemma normalizeEntry_aliases (item y : JsVal) :
  normalizeEntry item = Ok y ->
  get_prop y "created_at"
  = js_or (get_opt item "created_at") (js_or (get_opt item "createdAt") JNull)
  /\ (truthy (get_opt item "text") = false -> get_prop y "text" = JStr "").
Proof.
  unfold normalizeEntry. intros E.
  destruct (sanitize _ _) as [t|] eqn:Et; simpl in E; [|discriminate].
  injection E as <-. split; [reflexivity|].
  intros F. unfold js_or in Et. rewrite F in Et. simpl in Et.
  injection Et as <-. reflexivity.
Qed.

(** The timestamp of a normalized mood is [created_at] when truthy, else
    null: [createdAt] is not read.  Missing mood and note give the empty
    string. *)
Lemma normalizeMood_fields (item y : JsVal) :
  normalizeMood item = Ok y ->
  get_prop y "created_at" = js_or (get_opt item "created_at") JNull
  /\ (truthy (get_opt item "mood") = false -> get_prop y "mood" = JStr "")
  /\ (truthy (get_opt item "note") = false -> get_prop y "note" = JStr "").
Proof.
  unfold normalizeMood. intros E.
  destruct (sanitize _ (Some 50)) as [m|] eqn:Em; simpl in E; [|discriminate].
  destruct (sanitize _ (Some 240)) as [n|] eqn:En; simpl in E; [|discriminate].
  injection E as <-. split; [reflexivity|]. split; intros F.
  - unfold js_or in Em. rewrite F in Em. simpl in Em. injection Em as <-. reflexivity.
  - unfold js_or in En. rewrite F in En. simpl in En. injection En as <-. reflexivity.
Qed.

(* ================================================================== *)
(** ** More properties of the gateway *)

Ltac split_preparation :=
  repeat match goal with
    | |- context [sanitize ?a ?b] =>
        destruct (sanitize a b); cbn [rbind]; try reflexivity
    | |- context [normalizeEntries ?a ?b] =>
        destruct (normalizeEntries a b); cbn [rbind]; try reflexivity
    | |- context [normalizeMoods ?a ?b] =>
        destruct (normalizeMoods a b); cbn [rbind]; try reflexivity
    | |- context [mapM ?f ?l] =>
        destruct (mapM f l); cbn [rbind]; try reflexivity
    | |- context [chat_messages ?a] =>
        destruct (chat_messages a); cbn [rbind]; try reflexivity
    end;
  repeat match goal with
    | |- context [if ?b then _ else _] =>
        lazymatch b with
        | context [create] => fail
        | _ => destruct b; cbn [rbind]; try reflexivity
        end
    end.

(** The same splitting, on a hypothesis that says the preparation gave a
    request; the equations of the extracted inputs are kept. *)
Ltac split_prepared R :=
  repeat match type of R with
    | context [sanitize ?a ?b] =>
        let E := fresh "Es" in
        destruct (sanitize a b) eqn:E; cbn [rbind] in R; try discriminate R
    | context [normalizeEntries ?a ?b] =>
        let E := fresh "Ee" in
        destruct (normalizeEntries a b) eqn:E; cbn [rbind] in R; try discriminate R
    | context [normalizeMoods ?a ?b] =>
        let E := fresh "Em" in
        destruct (normalizeMoods a b) eqn:E; cbn [rbind] in R; try discriminate R
    | context [mapM ?f ?l] =>
        let E := fresh "Eg" in
        destruct (mapM f l) eqn:E; cbn [rbind] in R; try discriminate R
    | context [if ?b then _ else _] =>
        let E := fresh "Eb" in
        destruct b eqn:E; cbn [rbind] in R; try discriminate R
    end.

Ltac meet_the_reply :=
  match goal with
  | |- _ = settle _ _ (mkWorld _ (_ ++ [?q])) =>
      let req := fresh "req" in
      set (req := q);
      repeat match goal with
        | |- context [create ?R] =>
            lazymatch R with
            | req => fail
            | _ => change R with req
            end
        end;
      unfold settle, res_send, outcome_response, success_body,
        failure_response, json_of, usage_of;
      destruct (create req) as [response|err]; cbn [fst snd];
      [ try (destruct (opt_trim _); cbn [rbind]);
        try (destruct (get_dot _ _); cbn [rbind]);
        reflexivity
      | reflexivity ]
  end.

(** On a configured gateway a route is its preparation followed by one
    call: it lets the exception of the preparation out, or answers 400,
    or sends the prepared request and settles the reply. *)
Lemma route_runs_its_request (op : Operation) (req_body : JsVal) (w : World) :
  openAiClient = Some create ->
  handler op req_body w
  = match route_request op req_body with
    | Throw e => (Throw e, w)
    | Ok None =>
        (Ok tt,
         mkWorld (sent w ++
                  [mkResponse (JNum 400)
                              (JObj [("error", JStr (validation_error op))])])
                 (calls w))
    | Ok (Some req) =>
        settle op (create req) (mkWorld (sent w) (calls w ++ [req]))
    end.
Proof.
  intros K.
  destruct op; unfold_route; unfold route_request; rewrite K; cbn [negb rbind];
    try (destruct (get_opt req_body "goals"));
    split_preparation.
  all: meet_the_reply.
Qed.

(** A route that has sent a request had prepared exactly that request. *)
Lemma route_call_request (op : Operation) (req_body : JsVal) (w w' : World)
      (r : result unit) (req : LlmRequest) :
  handler op req_body w = (r, w') ->
  calls w' = (calls w ++ [req])%list ->
  route_request op req_body = Ok (Some req).
Proof.
  intros H C.
  destruct (String.eqb_spec OPENAI_API_KEY "") as [U|K].
  - rewrite (guard_closes_route op req_body w (unconfigured U)) in H.
    injection H as <- <-. simpl in C. exfalso. exact (app_one_neq _ _ C).
  - rewrite (route_runs_its_request op req_body w (configured K)) in H.
    destruct (route_request op req_body) as [[req0|]|e].
    + pose proof (f_equal (fun x => calls (snd x)) H) as Q. cbn [snd] in Q.
      rewrite settle_calls in Q. cbn [calls] in Q. rewrite C in Q.
      apply app_inv_head in Q. injection Q as ->. reflexivity.
    + injection H as <- <-. exfalso. exact (app_one_neq _ _ C).
    + injection H as <- <-. exfalso. exact (app_one_neq _ _ C).
Qed.

(** X7: a route never answers twice and never calls the model twice.  It
    ends in one of three ways.  It completes, having written exactly one
    response and sent at most one request.  Or the exception of an input
    read leaves it, with nothing written and nothing sent.  Or the call it
    has sent is rejected with an error whose status is not a status code
    Node accepts (an integer from 100 to 999): writing the response
    raises inside the [catch] block, and the exception leaves the route
    with that one request sent and nothing written. *)
Theorem route_answers_once (op : Operation) (req_body : JsVal) (w : World) :
  (exists resp,
     fst (handler op req_body w) = Ok tt /\
     sent (snd (handler op req_body w)) = (sent w ++ [resp])%list /\
     (calls (snd (handler op req_body w)) = calls w \/
      exists req, calls (snd (handler op req_body w)) = (calls w ++ [req])%list))
  \/ (exists e, handler op req_body w = (Throw e, w))
  \/ (exists e req err,
        handler op req_body w = (Throw e, mkWorld (sent w) (calls w ++ [req])) /\
        create req = Rejected err /\
        valid_status (js_or (get_prop (JObj err) "status")
                            (js_or (get_prop (JObj err) "statusCode") (JNum 502)))
        = false).
Proof.
  destruct (String.eqb_spec OPENAI_API_KEY "") as [U|K].
  - rewrite (guard_closes_route op req_body w (unconfigured U)).
    left. eexists. simpl. repeat split. left. reflexivity.
  - rewrite (route_runs_its_request op req_body w (configured K)).
    destruct (route_request op req_body) as [[req|]|e].
    + destruct (valid_status (status (outcome_response op (create req)))) eqn:V.
      * rewrite (settle_valid _ _ _ V).
        left. eexists. simpl. repeat split. right. eexists. reflexivity.
      * rewrite (settle_invalid _ _ _ V).
        destruct (invalid_status_is_upstream _ _ V) as (err & R & V').
        right. right. eexists _, req, err. repeat split; assumption.
    + left. eexists. simpl. repeat split. left. reflexivity.
    + right. left. eexists. reflexivity.
Qed.

(** X8: the request a route sends carries the configured model, the
    route's own token budget and temperature, the JSON directive for the
    JSON-shaped routes and none for prompt and chat; its first message is
    a system message, and every route but chat adds exactly one user
    message. *)
Theorem route_request_parameters (op : Operation) (req_body : JsVal)
        (w w' : World) (r : result unit) (req : LlmRequest) :
  handler op req_body w = (r, w') ->
  calls w' = (calls w ++ [req])%list ->
  req_model req = OPENAI_MODEL /\
  req_max_tokens req = Some (token_budget op) /\
  req_temperature req = route_temperature op /\
  req_response_format req = (if json_mode op then Some "json_object" else None) /\
  exists sys rest,
    req_messages req = mkMessage "system" (JStr sys) :: rest /\
    (op <> Chat -> exists c, rest = [mkMessage "user" c]).
Proof.
  intros H C. pose proof (route_call_request _ _ _ _ _ _ H C) as R.
  clear H C.
  destruct op; unfold route_request in R; cbn [rbind] in R;
    try match type of R with
        | context [match get_opt req_body "goals" with _ => _ end] =>
            destruct (get_opt req_body "goals")
        end;
    split_prepared R;
    try (injection R as <-; simpl;
         repeat split; eexists _, _; split; [reflexivity|]; intros _; eauto).
  (* chat *)
  unfold chat_messages in R. fold (chat_topic req_body) in R.
  destruct (chat_topic req_body) as [topic|]; cbn [rbind] in R; [|discriminate].
  destruct (negb _).
  - rewrite forEach_push_history in R.
    destruct (mapM history_message _) as [os|]; cbn [rbind] in R; [|discriminate].
    injection R as <-. simpl. repeat split.
    eexists _, _. split; [reflexivity|]. intros N. contradiction.
  - injection R as <-. simpl. repeat split.
    eexists _, _. split; [reflexivity|]. intros N. contradiction.
Qed.

Lemma string_length_append (a b : string) :
  String.length (a ++ b) = (String.length a + String.length b)%nat.
Proof. induction a as [|c a IH]; simpl; [reflexivity | rewrite IH; reflexivity]. Qed.

(** X1: [clipCollection] returns a prefix of an array: its first [limit]
    elements, all of them when there are fewer; a negative limit counts
    from the end and drops that many trailing elements; anything that is
    not an array gives the empty list.  An absent limit is 20. *)
Theorem clipCollection_prefix (input : JsVal) (limit : option Z) :
  (forall xs, input = JArr xs ->
     exists dropped,
       xs = (clipCollection input limit ++ dropped)%list /\
       (0 <= dflt 20 limit ->
          List.length (clipCollection input limit)
          = Nat.min (Z.to_nat (dflt 20%Z limit)) (List.length xs)) /\
       (dflt 20 limit < 0 ->
          List.length (clipCollection input limit)
          = (List.length xs - Z.to_nat (- dflt 20%Z limit))%nat))
  /\ ((forall xs, input <> JArr xs) -> clipCollection input limit = [])
  /\ clipCollection input None = clipCollection input (Some 20).
Proof.
  split; [|split; [|reflexivity]].
  - intros xs ->. unfold clipCollection, arr_slice0.
    exists (skipn (slice_end (List.length xs) (dflt 20 limit)) xs).
    split; [symmetry; apply firstn_skipn|].
    rewrite length_firstn. unfold slice_end. split; intros Hz.
    + destruct (Z.ltb_spec (dflt 20 limit) 0); lia.
    + destruct (Z.ltb_spec (dflt 20 limit) 0); lia.
  - intros N. destruct input; try reflexivity. exfalso. apply (N xs). reflexivity.
Qed.

Lemma mapM_Forall2 {A B} (f : A -> result B) (xs : list A) : forall ys,
  mapM f xs = Ok ys <-> Forall2 (fun x y => f x = Ok y) xs ys.
Proof.
  induction xs as [|x xs IH]; simpl; intros ys.
  - split.
    + intros E. injection E as <-. constructor.
    + intros F. inversion F. reflexivity.
  - split.
    + intros E. destruct (f x) as [y|] eqn:Ey; simpl in E; [|discriminate].
      destruct (mapM f xs) as [ys'|] eqn:Em; simpl in E; [|discriminate].
      injection E as <-. constructor; [exact Ey | apply IH; reflexivity].
    + intros F. inversion F as [|? y ? ys' Hy Hys]; subst.
      rewrite Hy. simpl. apply IH in Hys. rewrite Hys. reflexivity.
Qed.

Lemma js_or_truthy_or_null (a b : JsVal) :
  truthy (js_or a (js_or b JNull)) = true \/ js_or a (js_or b JNull) = JNull.
Proof.
  unfold js_or. destruct (truthy a) eqn:A; [left; exact A|].
  destruct (truthy b) eqn:B; [left; exact B | right; reflexivity].
Qed.

Lemma normalizeEntry_bounded (item y : JsVal) :
  normalizeEntry item = Ok y -> bounded_entry y.
Proof.
  intros E. destruct (normalizeEntry_shape _ _ E) as (t & c & -> & L & S & -> & _).
  exists t, (js_or (get_opt item "created_at") (js_or (get_opt item "createdAt") JNull)).
  repeat split; auto. apply js_or_truthy_or_null.
Qed.

Lemma normalizeMood_bounded (item y : JsVal) :
  normalizeMood item = Ok y -> bounded_mood y.
Proof.
  unfold normalizeMood. intros E.
  destruct (sanitize _ (Some 50)) as [m|] eqn:Em; simpl in E; [|discriminate].
  destruct (sanitize _ (Some 240)) as [n|] eqn:En; simpl in E; [|discriminate].
  injection E as <-.
  destruct (sanitize_ok_bounds _ 50 m ltac:(lia) Em) as [Lm Sm].
  destruct (sanitize_ok_bounds _ 240 n ltac:(lia) En) as [Ln Sn].
  exists m, n, (js_or (get_opt item "created_at") JNull).
  repeat split; auto.
  unfold js_or. destruct (truthy (get_opt item "created_at")) eqn:T; auto.
Qed.

(** X2: when [normalizeEntries] returns, its output has one record for
    each element of the clipped input, in the same order, each the
    normalization of that element; hence at most [limit] records for a
    limit that is not negative.  Every record has exactly the fields
    [text] and [created_at]: the text is a string of at most 500
    characters with no leading whitespace, the timestamp is a truthy value
    or null.  An input that is not an array gives the empty list. *)
Theorem normalizeEntries_output (entries : JsVal) (limit : option Z) (ys : list JsVal) :
  normalizeEntries entries limit = Ok ys ->
  Forall2 (fun x y => normalizeEntry x = Ok y) (clipCollection entries limit) ys /\
  (0 <= dflt 20 limit -> (List.length ys <= Z.to_nat (dflt 20%Z limit))%nat) /\
  Forall bounded_entry ys /\
  ((forall xs, entries <> JArr xs) -> ys = []).
Proof.
  unfold normalizeEntries. intros E.
  pose proof (proj1 (mapM_Forall2 _ _ _) E) as F. split; [exact F|]. split; [|split].
  - intros Hz. rewrite (mapM_length _ _ _ E). apply clipCollection_length, Hz.
  - apply (mapM_Forall normalizeEntry _ (clipCollection entries limit)); [|exact E].
    intros x y. apply normalizeEntry_bounded.
  - intros N. destruct entries; simpl in E; try (injection E as <-; reflexivity).
    exfalso. apply (N xs). reflexivity.
Qed.

(** X3: the same for [normalizeMoods]: one record per clipped element, in
    order; every record has exactly the fields [mood] (at most 50
    characters), [note] (at most 240) and [created_at]. *)
Theorem normalizeMoods_output (moods : JsVal) (limit : option Z) (ys : list JsVal) :
  normalizeMoods moods limit = Ok ys ->
  Forall2 (fun x y => normalizeMood x = Ok y) (clipCollection moods limit) ys /\
  (0 <= dflt 20 limit -> (List.length ys <= Z.to_nat (dflt 20%Z limit))%nat) /\
  Forall bounded_mood ys /\
  ((forall xs, moods <> JArr xs) -> ys = []).
Proof.
  unfold normalizeMoods. intros E.
  pose proof (proj1 (mapM_Forall2 _ _ _) E) as F. split; [exact F|]. split; [|split].
  - intros Hz. rewrite (mapM_length _ _ _ E). apply clipCollection_length, Hz.
  - apply (mapM_Forall normalizeMood _ (clipCollection moods limit)); [|exact E].
    intros x y. apply normalizeMood_bounded.
  - intros N. destruct moods; simpl in E; try (injection E as <-; reflexivity).
    exfalso. apply (N xs). reflexivity.
Qed.

Lemma retrimmed_is_fixed (t : string) (z : Z) :
  0 <= z -> (String.length t <= Z.to_nat z)%nat ->
  let t' := str_slice0 (trim t) z in
  t' = trim t /\ (String.length t' <= Z.to_nat z)%nat /\
  starts_ws t' = false /\ ends_ws t' = false /\ str_slice0 (trim t') z = t'.
Proof.
  intros Hz L. cbv zeta.
  assert (E : str_slice0 (trim t) z = trim t).
  { rewrite <- (Z2Nat.id z Hz). apply str_slice0_all.
    pose proof (trim_length t). lia. }
  rewrite E. pose proof (trim_length t) as TL.
  repeat split; try lia; try apply trim_starts; try apply trim_ends.
  rewrite (trim_fixed _ (trim_starts t) (trim_ends t)). exact E.
Qed.

Lemma mapM_total {A B} (f : A -> result B) (g : A -> B) (xs : list A) :
  Forall (fun x => f x = Ok (g x)) xs -> mapM f xs = Ok (map g xs).
Proof.
  induction 1 as [|x xs Hx _ IH]; simpl; [reflexivity|].
  rewrite Hx. simpl. rewrite IH. reflexivity.
Qed.

(** X4: a Normalizer settles at its second pass.  Normalizing the output
    of [normalizeEntries] (of [normalizeMoods]) again never raises, and
    the result of that second pass is returned unchanged by every further
    pass. *)
Theorem normalizers_settle (xs : JsVal) (limit : option Z) (ys : list JsVal) :
  0 <= dflt 20 limit ->
  (normalizeEntries xs limit = Ok ys ->
     exists zs, normalizeEntries (JArr ys) limit = Ok zs /\
                normalizeEntries (JArr zs) limit = Ok zs) /\
  (normalizeMoods xs limit = Ok ys ->
     exists zs, normalizeMoods (JArr ys) limit = Ok zs /\
                normalizeMoods (JArr zs) limit = Ok zs).
Proof.
  intros Hz. split; intros E.
  - unfold normalizeEntries in *.
    pose proof (mapM_length _ _ _ E) as L.
    pose proof (clipCollection_length xs limit Hz) as L'.
    assert (S : Forall (fun y => exists z, normalizeEntry y = Ok z /\
                                           normalizeEntry z = Ok z) ys).
    { apply (mapM_Forall normalizeEntry _ (clipCollection xs limit)); [|exact E].
      intros x y Hy.
      destruct (normalizeEntry_shape _ _ Hy) as (t & c & -> & Lt & St & -> & _).
      destruct (retrimmed_is_fixed t 500 ltac:(lia) Lt) as (_ & _ & _ & _ & F).
      eexists. split; [apply normalizeEntry_again|].
      rewrite normalizeEntry_again, F. reflexivity. }
    clear E. rewrite clip_of_clipped by (auto; lia).
    assert (G : exists zs, mapM normalizeEntry ys = Ok zs /\
                           mapM normalizeEntry zs = Ok zs /\
                           List.length zs = List.length ys).
    { clear L. induction S as [|y ys (z & H1 & H2) _ (zs & I1 & I2 & I3)].
      - exists []. auto.
      - exists (z :: zs). simpl. rewrite H1, H2. simpl. rewrite I1, I2. simpl.
        auto. }
    destruct G as (zs & G1 & G2 & G3). exists zs. split; [exact G1|].
    rewrite clip_of_clipped by (auto; lia). exact G2.
  - unfold normalizeMoods in *.
    pose proof (mapM_length _ _ _ E) as L.
    pose proof (clipCollection_length xs limit Hz) as L'.
    assert (S : Forall (fun y => exists z, normalizeMood y = Ok z /\
                                           normalizeMood z = Ok z) ys).
    { apply (mapM_Forall normalizeMood _ (clipCollection xs limit)); [|exact E].
      intros x y Hy. unfold normalizeMood in Hy.
      destruct (sanitize _ (Some 50)) as [m|] eqn:Em; simpl in Hy; [|discriminate].
      destruct (sanitize _ (Some 240)) as [n|] eqn:En; simpl in Hy; [|discriminate].
      injection Hy as <-.
      destruct (sanitize_ok_bounds _ 50 m ltac:(lia) Em) as [Lm _].
      destruct (sanitize_ok_bounds _ 240 n ltac:(lia) En) as [Ln _].
      destruct (retrimmed_is_fixed m 50 ltac:(lia) Lm) as (_ & _ & _ & _ & Fm).
      destruct (retrimmed_is_fixed n 240 ltac:(lia) Ln) as (_ & _ & _ & _ & Fn).
      eexists. split; [apply normalizeMood_again|].
      rewrite normalizeMood_again, Fm, Fn. reflexivity. }
    clear E. rewrite clip_of_clipped by (auto; lia).
    assert (G : exists zs, mapM normalizeMood ys = Ok zs /\
                           mapM normalizeMood zs = Ok zs /\
                           List.length zs = List.length ys).
    { clear L. induction S as [|y ys (z & H1 & H2) _ (zs & I1 & I2 & I3)].
      - exists []. auto.
      - exists (z :: zs). simpl. rewrite H1, H2. simpl. rewrite I1, I2. simpl.
        auto. }
    destruct G as (zs & G1 & G2 & G3). exists zs. split; [exact G1|].
    rewrite clip_of_clipped by (auto; lia). exact G2.
Qed.

Lemma trim_start_empty_iff (s : string) : trim_start s = "" <-> all_ws s = true.
Proof.
  induction s as [|c s IH]; simpl; [split; reflexivity|].
  destruct (is_ws c); simpl; [exact IH|]. split; discriminate.
Qed.

Lemma trim_empty_iff (s : string) : trim s = "" <-> all_ws s = true.
Proof.
  rewrite <- trim_start_empty_iff. unfold trim. split.
  - intros E. pose proof (trim_start_starts s) as S.
    destruct (trim_start s) as [|c r]; [reflexivity|].
    simpl in S, E. rewrite S in E. simpl in E. discriminate.
  - intros ->. reflexivity.
Qed.

Lemma str_slice0_empty_iff (t : string) (z : Z) :
  0 < z -> (str_slice0 t z = "" <-> t = "").
Proof.
  intros Hz. unfold str_slice0. rewrite slice_end_Z by lia. split.
  - destruct t as [|c r]; [reflexivity|]. simpl String.length.
    destruct (Nat.min (Z.to_nat z) (S (String.length r))) eqn:M; [lia|].
    simpl. discriminate.
  - intros ->. destruct (Nat.min _ _); reflexivity.
Qed.

(** X5: with a positive cap, [sanitize] returns the empty string exactly
    for null, undefined and the values whose string form is blank (empty
    or all whitespace): a blank input counts as a missing one. *)
Theorem sanitize_empty_iff_blank (v : JsVal) (z : Z) (out : string) :
  0 < z ->
  sanitize v (Some z) = Ok out ->
  (out = "" <->
   nullish v = true \/ exists s, ToString v = Ok s /\ all_ws s = true).
Proof.
  intros Hz. unfold sanitize. simpl dflt.
  assert (G : forall s, ToString v = Ok s ->
            (str_slice0 (trim s) z = "" <-> all_ws s = true)).
  { intros s _. rewrite (str_slice0_empty_iff _ _ Hz). apply trim_empty_iff. }
  destruct v; simpl nullish;
    try (intros E; injection E as <-; split; [auto | reflexivity]);
    (destruct (ToString _) as [s0|e0] eqn:T; simpl; [|discriminate];
     intros E; injection E as <-; rewrite (G s0 eq_refl); split;
     [ intros A; right; exists s0; auto
     | intros [N|(s' & Es & A)]; [discriminate | congruence] ]).
Qed.

Lemma substring0_twice (s : string) : forall n m,
  (n <= m)%nat -> substring 0 n (substring 0 m s) = substring 0 n s.
Proof.
  induction s as [|c s IH]; intros [|n] [|m] L; simpl; try reflexivity; try lia.
  f_equal. apply IH. lia.
Qed.

(** X6: caps nest.  What [sanitize] returns under a cap is the beginning
    of what it returns under any larger cap, so a field read by two routes
    with different caps agrees on the shorter length. *)
Theorem sanitize_smaller_cap_is_prefix (v : JsVal) (n m : nat) (a b : string) :
  (n <= m)%nat ->
  sanitize v (Some (Z.of_nat n)) = Ok a ->
  sanitize v (Some (Z.of_nat m)) = Ok b ->
  a = substring 0 n b.
Proof.
  intros L. unfold sanitize. simpl dflt.
  assert (G : forall s, str_slice0 (trim s) (Z.of_nat n)
                        = substring 0 n (str_slice0 (trim s) (Z.of_nat m))).
  { intros s. unfold str_slice0. rewrite !slice_end_nat.
    set (t := trim s).
    destruct (Nat.le_ge_cases m (String.length t)) as [H|H].
    - rewrite (Nat.min_l m) by exact H. rewrite Nat.min_l by lia.
      symmetry. apply substring0_twice, L.
    - rewrite (Nat.min_r m) by exact H.
      rewrite (substring0_all t (String.length t)) by lia.
      destruct (Nat.le_ge_cases n (String.length t)) as [H'|H'].
      + rewrite Nat.min_l by exact H'. reflexivity.
      + rewrite Nat.min_r by exact H'.
        rewrite (substring0_all t n) by lia. apply substring0_all. lia. }
  destruct v;
    try (intros Ea Eb; injection Ea as <-; injection Eb as <-;
         destruct n; reflexivity);
    (destruct (ToString _) as [s0|e0]; simpl; [|discriminate];
     intros Ea Eb; injection Ea as <-; injection Eb as <-; apply G).
Qed.

Lemma sanitized_all_bounded (cap : Z) (xs : list JsVal) (outs : list string) :
  0 <= cap ->
  mapM (fun x => sanitize x (Some cap)) xs = Ok outs ->
  Forall (fun g => (String.length g <= Z.to_nat cap)%nat /\ starts_ws g = false) outs.
Proof.
  intros Hc E.
  apply (mapM_Forall (fun x => sanitize x (Some cap)) _ xs); [|exact E].
  intros x y. apply sanitize_ok_bounds, Hc.
Qed.

(** X9: whatever the body holds, the goals route sends the model between
    one and ten goals, none of them empty, each of at most 160 characters
    with no leading whitespace, and an entry of at most 400 characters. *)
Theorem goals_payload_bounded (req_body : JsVal) (w w' : World)
        (r : result unit) (req : LlmRequest) :
  handler Goals req_body w = (r, w') ->
  calls w' = (calls w ++ [req])%list ->
  exists goals entry,
    req_messages req
    = [ mkMessage "system"
          (JStr "Relate the gratitude reflection to the user's life goals. Return JSON { reflections: [{ goal, insight, micro_action }] }.");
        mkMessage "user"
          (JSON_stringify
             (JObj [("goals", JArr (map JStr goals)); ("entry", JStr entry)])) ] /\
    (1 <= List.length goals <= 10)%nat /\
    Forall (fun g => g <> "" /\ (String.length g <= 160)%nat /\ starts_ws g = false)
           goals /\
    (String.length entry <= 400)%nat.
Proof.
  intros H C. pose proof (route_call_request _ _ _ _ _ _ H C) as R. clear H C.
  unfold route_request in R.
  destruct (mapM _ _) as [gs|] eqn:Eg; cbn [rbind] in R; [|discriminate].
  destruct (sanitize _ (Some 400)) as [entry|] eqn:Ee; cbn [rbind] in R; [|discriminate].
  destruct (Nat.eqb _ 0) eqn:N; [discriminate|].
  injection R as <-.
  exists (filter (fun g => negb (String.eqb g "")) gs), entry.
  split; [reflexivity|].
  pose proof (mapM_length _ _ _ Eg) as L.
  pose proof (clipCollection_length (get_opt req_body "goals") (Some 10)
                ltac:(simpl; lia)) as L'.
  pose proof (filter_length_le (fun g => negb (String.eqb g "")) gs) as L''.
  apply Nat.eqb_neq in N. simpl in L'.
  split; [lia|]. split.
  - pose proof (sanitized_all_bounded 160 _ _ ltac:(lia) Eg) as B.
    rewrite Forall_forall in *. intros g Hg. apply filter_In in Hg.
    destruct Hg as [Hin Hne]. destruct (B g Hin) as [B1 B2].
    repeat split; auto. intros ->. discriminate.
  - apply (sanitize_ok_bounds _ 400 entry ltac:(lia) Ee).
Qed.

(** X10: the summary, anomaly and pattern routes send the model at most
    20, 30 and 40 entries, and the first two at most as many moods; every
    record has the normalized shape, with its text fields within their
    caps. *)
Theorem records_payload_bounded (op : Operation) (req_body : JsVal) (w w' : World)
        (r : result unit) (req : LlmRequest) :
  op = Summary \/ op = Anomaly \/ op = Pattern ->
  handler op req_body w = (r, w') ->
  calls w' = (calls w ++ [req])%list ->
  exists sys fields entries,
    req_messages req
    = [ mkMessage "system" (JStr sys);
        mkMessage "user" (JSON_stringify (JObj fields)) ] /\
    lookup "entries" fields = Some (JArr entries) /\
    (List.length entries <= record_cap op)%nat /\
    Forall bounded_entry entries /\
    (op <> Pattern ->
       exists moods,
         lookup "moods" fields = Some (JArr moods) /\
         (List.length moods <= record_cap op)%nat /\
         Forall bounded_mood moods).
Proof.
  intros Hop H C. pose proof (route_call_request _ _ _ _ _ _ H C) as R. clear H C.
  assert (BE : forall body cap es,
             0 <= cap ->
             normalizeEntries body (Some cap) = Ok es ->
             (List.length es <= Z.to_nat cap)%nat /\ Forall bounded_entry es).
  { intros body cap es Hc E. unfold normalizeEntries in E. split.
    - rewrite (mapM_length _ _ _ E). exact (clipCollection_length body (Some cap) Hc).
    - apply (mapM_Forall normalizeEntry _ (clipCollection body (Some cap))); [|exact E].
      intros x y. apply normalizeEntry_bounded. }
  assert (BM : forall body cap ms,
             0 <= cap ->
             normalizeMoods body (Some cap) = Ok ms ->
             (List.length ms <= Z.to_nat cap)%nat /\ Forall bounded_mood ms).
  { intros body cap ms Hc E. unfold normalizeMoods in E. split.
    - rewrite (mapM_length _ _ _ E). exact (clipCollection_length body (Some cap) Hc).
    - apply (mapM_Forall normalizeMood _ (clipCollection body (Some cap))); [|exact E].
      intros x y. apply normalizeMood_bounded. }
  destruct Hop as [->|[->| ->]]; unfold route_request in R.
  - destruct (normalizeEntries _ _) as [es|] eqn:Ee; cbn [rbind] in R; [|discriminate].
    destruct (normalizeMoods _ _) as [ms|] eqn:Em; cbn [rbind] in R; [|discriminate].
    destruct (_ && _)%bool; [discriminate|]. injection R as <-.
    destruct (BE _ 20 _ ltac:(lia) Ee) as [L1 F1].
    destruct (BM _ 20 _ ltac:(lia) Em) as [L2 F2].
    eexists _, _, es. split; [reflexivity|]. split; [reflexivity|].
    split; [exact L1|]. split; [exact F1|]. intros _.
    exists ms. split; [reflexivity|]. split; [exact L2 | exact F2].
  - destruct (normalizeEntries _ _) as [es|] eqn:Ee; cbn [rbind] in R; [|discriminate].
    destruct (normalizeMoods _ _) as [ms|] eqn:Em; cbn [rbind] in R; [|discriminate].
    destruct (_ && _)%bool; [discriminate|]. injection R as <-.
    destruct (BE _ 30 _ ltac:(lia) Ee) as [L1 F1].
    destruct (BM _ 30 _ ltac:(lia) Em) as [L2 F2].
    eexists _, _, es. split; [reflexivity|]. split; [reflexivity|].
    split; [exact L1|]. split; [exact F1|]. intros _.
    exists ms. split; [reflexivity|]. split; [exact L2 | exact F2].
  - destruct (normalizeEntries _ _) as [es|] eqn:Ee; cbn [rbind] in R; [|discriminate].
    destruct (Nat.eqb _ 0); [discriminate|]. injection R as <-.
    destruct (BE _ 40 _ ltac:(lia) Ee) as [L1 F1].
    eexists _, _, es. split; [reflexivity|]. split; [reflexivity|].
    split; [exact L1|]. split; [exact F1|]. intros N. contradiction.
Qed.

(** X11: the transcript route sends the note as it is, not serialized:
    a string that is not empty, of at most 1800 characters.  The note is
    the first of [voice_note], [voice_note_text] and [note] whose
    sanitized form is not empty. *)
Theorem transcript_note_precedence (req_body : JsVal) (w w' : World)
        (r : result unit) (req : LlmRequest) :
  handler Transcript req_body w = (r, w') ->
  calls w' = (calls w ++ [req])%list ->
  exists sys note,
    req_messages req = [ mkMessage "system" (JStr sys); mkMessage "user" (JStr note) ] /\
    note <> "" /\ (String.length note <= 1800)%nat /\
    exists n1, sanitize (get_opt req_body "voice_note") (Some 1800) = Ok n1 /\
      (n1 <> "" -> note = n1) /\
      (n1 = "" ->
         exists n2, sanitize (get_opt req_body "voice_note_text") (Some 1800) = Ok n2 /\
           (n2 <> "" -> note = n2) /\
           (n2 = "" -> sanitize (get_opt req_body "note") (Some 1800) = Ok note)).
Proof.
  intros H C. pose proof (route_call_request _ _ _ _ _ _ H C) as R. clear H C.
  unfold route_request in R.
  destruct (sanitize (get_opt req_body "voice_note") _) as [n1|] eqn:E1;
    cbn [rbind] in R; [|discriminate].
  destruct (String.eqb_spec n1 "") as [->|N1]; cbn [negb] in R.
  - destruct (sanitize (get_opt req_body "voice_note_text") _) as [n2|] eqn:E2;
      cbn [rbind] in R; [|discriminate].
    destruct (String.eqb_spec n2 "") as [->|N2]; cbn [negb] in R.
    + destruct (sanitize (get_opt req_body "note") _) as [n3|] eqn:E3;
        cbn [rbind] in R; [|discriminate].
      destruct (String.eqb_spec n3 "") as [->|N3]; [discriminate|].
      injection R as <-. eexists _, n3. split; [reflexivity|].
      split; [exact N3|]. split; [apply (sanitize_ok_bounds _ 1800 n3 ltac:(lia) E3)|].
      exists "". split; [reflexivity|]. split; [intros X; contradiction|]. intros _.
      exists "". split; [reflexivity|]. split; [intros X; contradiction | auto].
    + cbn [rbind] in R. destruct (String.eqb_spec n2 ""); [contradiction|].
      injection R as <-. eexists _, n2. split; [reflexivity|].
      split; [exact N2|]. split; [apply (sanitize_ok_bounds _ 1800 n2 ltac:(lia) E2)|].
      exists "". split; [reflexivity|]. split; [intros X; contradiction|]. intros _.
      exists n2. split; [reflexivity|]. split; [auto | intros X; contradiction].
  - cbn [rbind] in R. destruct (String.eqb_spec n1 ""); [contradiction|].
    injection R as <-. eexists _, n1. split; [reflexivity|].
    split; [exact N1|]. split; [apply (sanitize_ok_bounds _ 1800 n1 ltac:(lia) E1)|].
    exists n1. split; [reflexivity|]. split; [auto | intros X; contradiction].
Qed.

Lemma str_or_length (s d : string) (n : nat) :
  (String.length s <= n)%nat -> (String.length d <= n)%nat ->
  (String.length (str_or s d) <= n)%nat.
Proof. unfold str_or. destruct (String.eqb s ""); auto. Qed.

Lemma str_or_cases (s d : string) :
  (s <> "" -> str_or s d = s) /\ (s = "" -> str_or s d = d).
Proof.
  unfold str_or. destruct (String.eqb_spec s ""); split; intros; congruence.
Qed.

(** X12: the user message of the prompt route is the template filled
    with three texts: the mood, of at most 40 characters; the focus, of
    at most 200; the entry, of at most 400.  Each is the sanitized input
    of the body, or the route's own word for an input that is missing or
    blank (curious; balance and gratitude; none), so none is empty.  The
    whole message has at most 682 characters, whatever the body. *)
Theorem prompt_message_bounded (req_body : JsVal) (w w' : World)
        (r : result unit) (req : LlmRequest) :
  handler Prompt req_body w = (r, w') ->
  calls w' = (calls w ++ [req])%list ->
  exists sys mood focus entry,
    req_messages req
    = [ mkMessage "system" (JStr sys);
        mkMessage "user"
          (JStr ("Mood: " ++ mood ++ newline ++
                 "Focus request: " ++ focus ++ newline ++
                 "Most recent entry: " ++ entry)) ] /\
    (String.length mood <= 40)%nat /\ mood <> "" /\
    (String.length focus <= 200)%nat /\ focus <> "" /\
    (String.length entry <= 400)%nat /\ entry <> "" /\
    (String.length ("Mood: " ++ mood ++ newline ++
                    "Focus request: " ++ focus ++ newline ++
                    "Most recent entry: " ++ entry) <= 682)%nat /\
    exists m f e,
      sanitize (get_opt req_body "mood") (Some 40) = Ok m /\
      sanitize (get_opt req_body "focus") (Some 200) = Ok f /\
      sanitize (get_opt req_body "entry") (Some 400) = Ok e /\
      (m <> "" -> mood = m) /\ (m = "" -> mood = "curious") /\
      (f <> "" -> focus = f) /\ (f = "" -> focus = "balance and gratitude") /\
      (e <> "" -> entry = e) /\ (e = "" -> entry = "none").
Proof.
  intros H C. pose proof (route_call_request _ _ _ _ _ _ H C) as R. clear H C.
  unfold route_request in R.
  destruct (sanitize _ (Some 200)) as [f|] eqn:Ef; cbn [rbind] in R; [|discriminate].
  destruct (sanitize _ (Some 40)) as [m|] eqn:Em; cbn [rbind] in R; [|discriminate].
  destruct (sanitize _ (Some 400)) as [e|] eqn:Ee; cbn [rbind] in R; [|discriminate].
  injection R as <-.
  exists "Create a single journaling prompt tailored to the user's current mood and context. Keep it under 220 characters.",
         (str_or m "curious"), (str_or f "balance and gratitude"), (str_or e "none").
  split; [reflexivity|].
  destruct (sanitize_ok_bounds _ 200 f ltac:(lia) Ef) as [Lf _].
  destruct (sanitize_ok_bounds _ 40 m ltac:(lia) Em) as [Lm _].
  destruct (sanitize_ok_bounds _ 400 e ltac:(lia) Ee) as [Le _].
  pose proof (str_or_length m "curious" 40 Lm ltac:(simpl; lia)) as B1.
  pose proof (str_or_length f "balance and gratitude" 200 Lf ltac:(simpl; lia)) as B2.
  pose proof (str_or_length e "none" 400 Le ltac:(simpl; lia)) as B3.
  change (Z.to_nat 40) with 40%nat in B1.
  change (Z.to_nat 200) with 200%nat in B2.
  change (Z.to_nat 400) with 400%nat in B3.
  assert (N : forall s d, d <> "" -> str_or s d <> "").
  { intros s d Hd. unfold str_or. destruct (String.eqb_spec s ""); assumption. }
  split; [exact B1|]. split; [apply N; discriminate|].
  split; [exact B2|]. split; [apply N; discriminate|].
  split; [exact B3|]. split; [apply N; discriminate|].
  split.
  { unfold newline.
    repeat (cbn [String.length append]; rewrite ?string_length_append). lia. }
  exists m, f, e. repeat split; try reflexivity;
    first [apply (proj1 (str_or_cases _ _)) | apply (proj2 (str_or_cases _ _))].
Qed.

Lemma history_message_bounded (msg : JsVal) (m : Message) :
  history_message msg = Ok (Some m) ->
  exists c, content m = JStr c /\ c <> "" /\ (String.length c <= 1200)%nat.
Proof.
  unfold history_message.
  destruct (get_dot msg "role"); simpl; [|discriminate].
  destruct (get_dot msg "content"); simpl; [|discriminate].
  destruct (get_dot msg "text"); simpl; [|discriminate].
  destruct (sanitize _ _) as [c|] eqn:Ec; simpl; [|discriminate].
  destruct (String.eqb_spec c ""); [discriminate|].
  intros E. injection E as <-. exists c. simpl.
  repeat split; auto. apply (sanitize_ok_bounds _ 1200 c ltac:(lia) Ec).
Qed.

Lemma kept_bounded (history : list JsVal) : forall os,
  mapM history_message history = Ok os ->
  Forall (fun m => exists c, content m = JStr c /\ c <> "" /\
                             (String.length c <= 1200)%nat) (kept os) /\
  (List.length (kept os) <= List.length history)%nat.
Proof.
  induction history as [|msg history IH]; simpl; intros os E.
  - injection E as <-. split; [constructor | simpl; lia].
  - destruct (history_message msg) as [o|] eqn:Eo; simpl in E; [|discriminate].
    destruct (mapM history_message history) as [os'|]; simpl in E; [|discriminate].
    injection E as <-. destruct (IH os' eq_refl) as [F L]. simpl.
    destruct o as [m|]; simpl.
    + split; [constructor; [exact (history_message_bounded _ _ Eo) | exact F] | lia].
    + split; [exact F | lia].
Qed.

(** X13: every message the chat route sends has a content that is a
    string, not empty, of at most 1200 characters, and the route sends at
    most one message per history element besides the system message (two
    messages when there is no history).  A history whose elements all
    have blank content leaves the system message alone: the topic opener
    is used only when the history is empty. *)
Theorem chat_messages_bounded (req_body : JsVal) (w w' : World)
        (r : result unit) (req : LlmRequest) :
  handler Chat req_body w = (r, w') ->
  calls w' = (calls w ++ [req])%list ->
  Forall (fun m => exists c, content m = JStr c /\ c <> "" /\
                             (String.length c <= 1200)%nat) (req_messages req) /\
  (forall history, get_opt req_body "conversation" = JArr history ->
     history <> [] ->
     (List.length (req_messages req) <= 1 + List.length history)%nat /\
     (Forall (fun msg => history_message msg = Ok None) history ->
        req_messages req = [mkMessage "system" (JStr chat_system_prompt)])) /\
  ((forall first others, get_opt req_body "conversation" <> JArr (first :: others)) ->
     List.length (req_messages req) = 2%nat).
Proof.
  intros H C.
  destruct (route_after_call _ _ _ _ _ _ H C) as (_ & M).
  specialize (M eq_refl). unfold chat_messages in M.
  fold (chat_topic req_body) in M.
  assert (Sys : exists c, content (mkMessage "system" (JStr chat_system_prompt)) = JStr c /\
                          c <> "" /\ (String.length c <= 1200)%nat).
  { exists chat_system_prompt. repeat split; [discriminate | simpl; lia]. }
  destruct (chat_topic req_body) as [topic|] eqn:Et; cbn [rbind] in M; [|discriminate].
  assert (Topic : (String.length topic <= 120)%nat).
  { unfold chat_topic in Et.
    destruct (sanitize _ _) as [t|] eqn:Es; simpl in Et; [|discriminate].
    injection Et as <-.
    apply str_or_length; [|simpl; lia].
    apply (sanitize_ok_bounds _ 120 t ltac:(lia) Es). }
  assert (Opener :
    Ok ([mkMessage "system" (JStr chat_system_prompt)] ++
        [mkMessage "user" (JStr ("I'd like to talk about " ++ topic ++ "."))])%list
    = Ok (req_messages req) ->
    Forall (fun m => exists c, content m = JStr c /\ c <> "" /\
                               (String.length c <= 1200)%nat) (req_messages req) /\
    List.length (req_messages req) = 2%nat).
  { intros E. injection E as <-. split; [|reflexivity].
    constructor; [exact Sys|]. constructor; [|constructor].
    eexists. split; [reflexivity|]. split; [discriminate|].
    repeat (cbn [String.length append]; rewrite ?string_length_append). lia. }
  destruct (get_opt req_body "conversation") as [ | | | | |h| | ] eqn:Conv;
    try (cbn [List.length Nat.eqb negb] in M; destruct (Opener M) as [F L];
         split; [exact F|]; split; [intros ? X; discriminate X | intros _; exact L]).
  destruct h as [|first others].
  - cbn [List.length Nat.eqb negb] in M. destruct (Opener M) as [F L].
    split; [exact F|]. split.
    + intros history E N. injection E as <-. contradiction.
    + intros _. exact L.
  - cbn [List.length Nat.eqb negb] in M. rewrite forEach_push_history in M.
    destruct (mapM history_message (first :: others)) as [os|] eqn:Eos;
      cbn [rbind] in M; [|discriminate].
    injection M as <-. destruct (kept_bounded _ _ Eos) as [F L].
    split; [constructor; [exact Sys | exact F]|]. split.
    + intros history E _. injection E as <-. split; [simpl in *; lia|].
      intros Blank. f_equal.
      clear - Blank Eos. revert os Eos.
      induction Blank as [|x l Hx _ IH]; intros os Eos; simpl in Eos.
      * injection Eos as <-. reflexivity.
      * rewrite Hx in Eos. simpl in Eos.
        destruct (mapM history_message l) as [os'|]; simpl in Eos; [|discriminate].
        injection Eos as <-. simpl. apply IH. reflexivity.
    + intros N. exfalso. apply (N first others). reflexivity.
Qed.


(** X15: the insights route bounds the entry (800 characters) and each
    goal (120 characters) but not their number: it sends one goal per
    element of the body's goals array.  [mood] and [stats] are forwarded
    as the body has them, or as null when they are falsy. *)
Theorem insights_payload_passthrough (req_body : JsVal) (w w' : World)
        (r : result unit) (req : LlmRequest) :
  handler Insights req_body w = (r, w') ->
  calls w' = (calls w ++ [req])%list ->
  exists sys entry goals,
    req_messages req
    = [ mkMessage "system" (JStr sys);
        mkMessage "user"
          (JSON_stringify
             (JObj [("entry", JStr entry);
                    ("mood", js_or (get_opt req_body "mood") JNull);
                    ("stats", js_or (get_opt req_body "stats") JNull);
                    ("goals", JArr (map JStr goals))])) ] /\
    (String.length entry <= 800)%nat /\
    Forall (fun g => (String.length g <= 120)%nat) goals /\
    (forall gs, get_opt req_body "goals" = JArr gs ->
                List.length goals = List.length gs) /\
    ((forall gs, get_opt req_body "goals" <> JArr gs) -> goals = []).
Proof.
  intros H C. pose proof (route_call_request _ _ _ _ _ _ H C) as R. clear H C.
  unfold route_request in R.
  destruct (sanitize _ None) as [entry|] eqn:Ee; cbn [rbind] in R; [|discriminate].
  assert (Le : (String.length entry <= 800)%nat)
    by exact (proj1 (sanitize_ok_bounds _ 800 entry ltac:(lia) Ee)).
  destruct (get_opt req_body "goals") as [ | | | | |gs| | ] eqn:G; cbn [rbind] in R;
    try (destruct (_ && _)%bool; [discriminate|]; injection R as <-;
         eexists _, entry, []; split; [reflexivity|]; split; [exact Le|];
         split; [constructor|]; split; [intros ? X; discriminate X | auto]).
  destruct (mapM _ gs) as [goals|] eqn:Eg; cbn [rbind] in R; [|discriminate].
  destruct (_ && _)%bool; [discriminate|]. injection R as <-.
  eexists _, entry, goals. split; [reflexivity|]. split; [exact Le|]. split.
  - pose proof (sanitized_all_bounded 120 _ _ ltac:(lia) Eg) as B.
    eapply Forall_impl; [|exact B]. intros g [B1 _]. exact B1.
  - split.
    + intros gs' E. injection E as <-. exact (mapM_length _ _ _ Eg).
    + intros N. exfalso. apply (N gs). reflexivity.
Qed.

(** The preparation of the prompt and of the chat route raises or gives a
    request: it never refuses the body. *)
Lemma prompt_chat_prepared (op : Operation) (req_body : JsVal) :
  op = Prompt \/ op = Chat ->
  (exists e, route_request op req_body = Throw e) \/
  (exists q, route_request op req_body = Ok (Some q)).
Proof.
  intros [-> | ->]; unfold route_request.
  - destruct (sanitize _ (Some 200)); cbn [rbind]; [|left; eauto].
    destruct (sanitize _ (Some 40)); cbn [rbind]; [|left; eauto].
    destruct (sanitize _ (Some 400)); cbn [rbind]; [|left; eauto].
    right. eexists. reflexivity.
  - destruct (chat_messages req_body); cbn [rbind]; [|left; eauto].
    right. eexists. reflexivity.
Qed.

(** X16: the prompt and chat routes have no required input and no
    validation response of their own.  On a configured gateway, for every
    body, they either send a request to the model or let the exception of
    an input read out, with nothing written.  A response with status 400
    is written only when the model call was rejected with an error that
    carries 400 as its status.  The prompt route raises before its call
    only when [String] fails on one of its three inputs. *)
Theorem prompt_and_chat_require_no_input (op : Operation) (req_body : JsVal) (w : World) :
  OPENAI_API_KEY <> "" ->
  op = Prompt \/ op = Chat ->
  ((exists req, calls (snd (handler op req_body w)) = (calls w ++ [req])%list)
   \/ (exists e, handler op req_body w = (Throw e, w)))
  /\ (forall resp,
        sent (snd (handler op req_body w)) = (sent w ++ [resp])%list ->
        status resp = JNum 400 ->
        exists req err,
          calls (snd (handler op req_body w)) = (calls w ++ [req])%list /\
          create req = Rejected err /\
          js_or (get_prop (JObj err) "status")
                (js_or (get_prop (JObj err) "statusCode") (JNum 502))
          = JNum 400)
  /\ (op = Prompt ->
      convertible (get_opt req_body "focus") = true ->
      convertible (get_opt req_body "mood") = true ->
      convertible (get_opt req_body "entry") = true ->
      exists req, calls (snd (handler op req_body w)) = (calls w ++ [req])%list).
Proof.
  intros K Hop. rewrite (route_runs_its_request op req_body w (configured K)).
  assert (Tot : forall v cap, convertible v = true ->
                  exists out, sanitize v (Some cap) = Ok out).
  { intros v cap Cv. destruct (ToString_total v Cv) as [s Hs].
    unfold sanitize. destruct v; simpl dflt; try rewrite Hs; simpl; eauto. }
  split; [|split].
  - destruct (prompt_chat_prepared op req_body Hop) as [[e ->] | [q ->]].
    + right. eexists. reflexivity.
    + left. exists q. rewrite settle_calls. reflexivity.
  - intros resp S St.
    destruct (prompt_chat_prepared op req_body Hop) as [[e E] | [q E]];
      rewrite E in *; cbn [snd sent] in S.
    + exfalso. exact (app_one_neq _ _ S).
    + exists q. rewrite settle_calls. cbn [calls].
      destruct (valid_status (status (outcome_response op (create q)))) eqn:V.
      * rewrite (settle_valid _ _ _ V) in S. cbn [snd sent] in S.
        apply app_inv_head in S. injection S as <-.
        destruct (create q) as [response|err].
        -- exfalso. unfold outcome_response in St.
           destruct (success_body op response) as [b|e] eqn:B.
           ++ discriminate St.
           ++ rewrite (shaping_error_has_no_status _ _ _ B) in St.
              discriminate St.
        -- exists err. repeat split. exact St.
      * rewrite (settle_invalid _ _ _ V) in S. cbn [snd sent] in S.
        exfalso. exact (app_one_neq _ _ S).
  - intros -> C1 C2 C3. unfold route_request.
    destruct (Tot _ 200 C1) as [f ->]. destruct (Tot _ 40 C2) as [m ->].
    destruct (Tot _ 400 C3) as [e ->]. cbn [rbind].
    eexists. rewrite settle_calls. reflexivity.
Qed.

Lemma leading_digits_of_uint (d : Decimal.uint) :
  leading_digits (NilEmpty.string_of_uint d) = d.
Proof. induction d; simpl; try rewrite IHd; reflexivity. Qed.

Lemma of_uint_pos (p : positive) : Z.of_uint (Pos.to_uint p) = Z.pos p.
Proof. exact (DecimalZ.of_to (Z.pos p)). Qed.

Lemma parseInt10_digit_string (c : ascii) (k : Decimal.uint -> Decimal.uint)
      (rest : string) :
  digit_of c = Some k ->
  (forall d, k d <> Decimal.Nil) ->
  parseInt10 (String c rest) = Some (Z.of_uint (k (leading_digits rest))) /\
  parseInt10 (String "-" (String c rest))
  = Some (- Z.of_uint (k (leading_digits rest))).
Proof.
  intros D NN. unfold digit_of in D.
  repeat match type of D with
    | (if Ascii.eqb c ?x then _ else _) = _ =>
        destruct (Ascii.eqb_spec c x) as [->|_];
        [ injection D as <-; unfold parseInt10; cbn -[Z.of_uint Z.opp leading_digits];
          cbn [leading_digits digit_of Ascii.eqb Bool.eqb];
          split; reflexivity | ]
    end.
  discriminate D.
Qed.

Lemma parseInt10_digits (d : Decimal.uint) :
  d <> Decimal.Nil ->
  parseInt10 (NilEmpty.string_of_uint d) = Some (Z.of_uint d) /\
  parseInt10 (String "-" (NilEmpty.string_of_uint d)) = Some (- Z.of_uint d).
Proof.
  intros N. destruct d; [contradiction| | | | | | | | | |];
    cbn [NilEmpty.string_of_uint];
    rewrite <- (leading_digits_of_uint d) at 2 4;
    apply parseInt10_digit_string; try reflexivity; discriminate.
Qed.

(** Reading back the decimal form of an integer gives the integer. *)
Lemma parseInt10_of_decimal (z : Z) : parseInt10 (Z_to_string z) = Some z.
Proof.
  unfold Z_to_string. destruct z as [|p|p]; [reflexivity| |];
    pose proof (of_uint_pos p) as E;
    assert (N : Pos.to_uint p <> Decimal.Nil)
      by (intros X; rewrite X in E; discriminate E);
    destruct (parseInt10_digits _ N) as [P1 P2];
    simpl Z.to_int; simpl NilZero.string_of_int; unfold NilZero.string_of_uint.
  - destruct (Pos.to_uint p); [contradiction| | | | | | | | | |];
      rewrite P1, E; reflexivity.
  - destruct (Pos.to_uint p); [contradiction| | | | | | | | | |];
      rewrite P2, E; reflexivity.
Qed.

(** X17: the limit the entries facade passes to the service is at most
    200 and never 0.  It is 50 when the query has no limit, when the limit
    is empty, has no leading number, or is 0; a limit written as a
    positive integer is passed as it is up to 200 and as 200 above; a
    negative one (down to -2^53, where JavaScript numbers stop being
    exact) is passed unchanged. *)
Theorem list_limit_capped (query_limit : JsVal) (limit : Z) :
  list_limit query_limit = Ok limit ->
  limit <= 200 /\ limit <> 0 /\
  (truthy query_limit = false -> limit = 50) /\
  (forall s, query_limit = JStr s -> parseInt10 s = None -> limit = 50) /\
  (forall n, query_limit = JStr (Z_to_string n) ->
     (n = 0 -> limit = 50) /\
     (0 < n <= 200 -> limit = n) /\
     (200 < n -> limit = 200) /\
     (- 9007199254740992 <= n < 0 -> limit = n)).
Proof.
  unfold list_limit. intros E.
  destruct (ToString _) as [text|] eqn:T; cbn [rbind] in E; [|discriminate].
  injection E as <-.
  split; [apply Z.le_min_l|]. split.
  { destruct (parseInt10 text) as [n|]; [destruct (Z.eqb_spec n 0)|]; lia. }
  split.
  { intros F. unfold js_or in T. rewrite F in T. injection T as <-. reflexivity. }
  split.
  { intros s -> P. unfold js_or in T. simpl in T.
    destruct (String.eqb_spec s "") as [Es|N]; simpl in T; injection T as T;
      subst text.
    - reflexivity.
    - rewrite P. reflexivity. }
  intros n ->. unfold js_or in T.
  assert (Tn : text = Z_to_string n).
  { simpl in T. destruct (String.eqb_spec (Z_to_string n) "") as [Em|_]; simpl in T.
    - pose proof (parseInt10_of_decimal n) as P. rewrite Em in P. discriminate P.
    - injection T as T. symmetry. exact T. }
  rewrite Tn, parseInt10_of_decimal.
  destruct (Z.eqb_spec n 0); repeat split; intros; lia.
Qed.

Lemma entry_row_fields (e : JsVal) :
  nullish e = false ->
  entry_row e = Ok (JObj [("id", get_prop e "id"); ("text", get_prop e "text");
                          ("created_at", get_prop e "created_at")]).
Proof. intros N. unfold entry_row, get_dot. rewrite N. reflexivity. Qed.

(** X18: the list route calls the entries service exactly once, with the
    capped limit, whatever the service answers.  A service error is
    answered with status 500 and the error's message.  A result is
    answered with status 200 and one row per entry, in the service's
    order, each row holding the entry's [id], [text] and [created_at] and
    nothing else; a result without entries gives no rows. *)
Theorem get_entries_all_outcome (query_limit : JsVal) (limit : Z) :
  list_limit query_limit = Ok limit ->
  service_calls (get_entries_all query_limit) = [CallListEntries limit] /\
  (forall err, ListEntries limit = Failed err ->
     replies (get_entries_all query_limit)
     = [mkResponse (JNum 500) (JObj [("error", get_prop (JObj err) "message")])]
     /\ raised (get_entries_all query_limit) = None) /\
  (forall listed es, ListEntries limit = Succeeded listed ->
     get_prop (JObj listed) "entries" = JArr es ->
     Forall (fun e => nullish e = false) es ->
     replies (get_entries_all query_limit)
     = [mkResponse (JNum 200)
          (JObj [("rows",
                  JArr (map (fun e => JObj [("id", get_prop e "id");
                                            ("text", get_prop e "text");
                                            ("created_at", get_prop e "created_at")])
                            es))])]
     /\ raised (get_entries_all query_limit) = None) /\
  (forall listed, ListEntries limit = Succeeded listed ->
     truthy (get_prop (JObj listed) "entries") = false ->
     replies (get_entries_all query_limit)
     = [mkResponse (JNum 200) (JObj [("rows", JArr [])])]).
Proof.
  intros L. unfold get_entries_all. rewrite L. split; [|split; [|split]].
  - destruct (ListEntries limit) as [err|listed]; [reflexivity|].
    destruct (rows_of listed); reflexivity.
  - intros err ->. split; reflexivity.
  - intros listed es -> E F. unfold rows_of, js_or. rewrite E. simpl truthy.
    cbn iota.
    rewrite (mapM_total entry_row
               (fun e => JObj [("id", get_prop e "id"); ("text", get_prop e "text");
                               ("created_at", get_prop e "created_at")]) es).
    + split; reflexivity.
    + eapply Forall_impl; [|exact F]. intros e N. apply entry_row_fields, N.
  - intros listed -> F. unfold rows_of, js_or. rewrite F. reflexivity.
Qed.

(** X19: the create route takes the string form of [req.body.text], or
    the empty text when the body or its text is missing, and trims it.
    When taking the string form raises (the text is an object that hides
    [toString], or an array that holds one), the exception leaves the
    route: the service is not called and nothing is written.  In every
    other case the route calls the service exactly once, with a text that
    has no whitespace at either end and no bound on its length, raises
    nothing, and answers 400 with [ok: false] and the service's message
    when the service refuses, 200 with [ok: true] and the created entry
    otherwise. *)
Theorem post_entries_outcome (req_body : JsVal) :
  (forall e, entry_text req_body = Throw e ->
     truthy req_body = true /\
     convertible (get_prop req_body "text") = false /\
     post_entries req_body = mkExchange [] [] (Some e)) /\
  (convertible (get_prop req_body "text") = true ->
     exists text, entry_text req_body = Ok text) /\
  (forall text, entry_text req_body = Ok text ->
     starts_ws text = false /\ ends_ws text = false /\
     ((truthy req_body = false \/ truthy (get_prop req_body "text") = false) ->
        text = "") /\
     (forall s, truthy req_body = true -> get_prop req_body "text" = JStr s ->
                text = trim s) /\
     service_calls (post_entries req_body) = [CallCreateEntry text] /\
     raised (post_entries req_body) = None /\
     (forall err, CreateEntry text = Failed err ->
        replies (post_entries req_body)
        = [mkResponse (JNum 400)
             (JObj [("ok", JBool false); ("error", get_prop (JObj err) "message")])]) /\
     (forall entry, CreateEntry text = Succeeded entry ->
        replies (post_entries req_body)
        = [mkResponse (JNum 200) (JObj [("ok", JBool true); ("entry", JObj entry)])])).
Proof.
  split; [|split].
  - intros e E. unfold post_entries. rewrite E.
    unfold entry_text in E.
    destruct (truthy req_body) eqn:B; cbn [andb] in E;
      [|discriminate].
    destruct (truthy (get_prop req_body "text")); [|discriminate].
    repeat split.
    destruct (convertible (get_prop req_body "text")) eqn:Cv; [|reflexivity].
    destruct (ToString_total _ Cv) as [s Hs]. rewrite Hs in E. discriminate.
  - intros Cv. unfold entry_text.
    destruct (_ && _)%bool; [|eauto].
    destruct (ToString_total _ Cv) as [s ->]. cbn [rbind]. eauto.
  - intros text E.
    assert (T : exists s, text = trim s).
    { unfold entry_text in E. destruct (_ && _)%bool.
      - destruct (ToString _) as [s|]; simpl in E; [|discriminate].
        injection E as <-. eauto.
      - injection E as <-. eauto. }
    destruct T as [s0 T].
    split; [rewrite T; apply trim_starts|].
    split; [rewrite T; apply trim_ends|].
    split.
    { intros F. unfold entry_text in E.
      destruct (truthy req_body) eqn:B; simpl in E.
      - destruct F as [F|F]; [discriminate|]. rewrite F in E.
        injection E as <-. reflexivity.
      - injection E as <-. reflexivity. }
    split.
    { intros s B Hs. unfold entry_text in E. rewrite B, Hs in E. simpl in E.
      destruct (String.eqb_spec s "") as [Es|_]; simpl in E; injection E as E;
        subst; reflexivity. }
    unfold post_entries. rewrite E.
    destruct (CreateEntry text) as [err|entry]; repeat split;
      try (intros ? X; discriminate X);
      intros ? X; injection X as <-; reflexivity.
Qed.

(** X20: the health checks agree with the guard of the AI routes.  With
    no API key, /ai/healthz answers 503, /healthz reports [openai: false],
    and every AI route is closed by the guard.  With a key, /ai/healthz
    answers 200 with the model name, /healthz reports [openai: true], and
    that model name is the one the routes put in their requests. *)
Theorem health_agrees_with_guard :
  status healthz = JNum 200 /\
  (OPENAI_API_KEY = "" ->
     status ai_healthz = JNum 503 /\
     get_prop (get_prop (body healthz) "services") "openai" = JBool false /\
     forall op req_body w,
       sent (snd (handler op req_body w))
       = (sent w ++ [mkResponse (JNum 503)
                       (JObj [("ok", JBool false); ("error", JStr not_configured)])])%list
       /\ calls (snd (handler op req_body w)) = calls w) /\
  (OPENAI_API_KEY <> "" ->
     ai_healthz
     = mkResponse (JNum 200) (JObj [("ok", JBool true); ("model", JStr OPENAI_MODEL)]) /\
     get_prop (get_prop (body healthz) "services") "openai" = JBool true /\
     forall op req_body w req,
       calls (snd (handler op req_body w)) = (calls w ++ [req])%list ->
       JStr (req_model req) = get_prop (body ai_healthz) "model").
Proof.
  split; [reflexivity|]. split.
  - intros U. apply unconfigured in U. unfold ai_healthz, healthz. rewrite U.
    repeat split; rewrite (guard_closes_route op req_body w U); reflexivity.
  - intros K. pose proof (configured K) as C. unfold ai_healthz, healthz. rewrite C.
    repeat split. intros op req_body w req Hc.
    pose proof (route_call_request op req_body w _ _ req
                  (surjective_pairing (handler op req_body w)) Hc) as R.
    simpl. f_equal.
    destruct op; unfold route_request in R;
      try match type of R with
          | context [match get_opt req_body "goals" with _ => _ end] =>
              destruct (get_opt req_body "goals")
          end;
      split_prepared R; try (injection R as <-; reflexivity).
    destruct (chat_messages req_body); cbn [rbind] in R; [|discriminate].
    injection R as <-. reflexivity.
Qed.

Lemma is_str_true (v : JsVal) (s : string) : is_str v s = true -> v = JStr s.
Proof.
  destruct v; simpl; try discriminate. intros E.
  apply String.eqb_eq in E. rewrite E. reflexivity.
Qed.

(** X21: [findMoodMeta] always returns one of the seven options of the
    selector, never undefined: the option whose value is the mood when
    there is one, and the first option (grateful) for every other value,
    an unknown mood or a value that is not a string. *)
Theorem findMoodMeta_total (mood : JsVal) :
  In (findMoodMeta mood) moodOptions /\
  (forall option, In option moodOptions -> mood = JStr (mood_value option) ->
                  findMoodMeta mood = option) /\
  ((forall option, In option moodOptions -> mood <> JStr (mood_value option)) ->
   findMoodMeta mood = mkMoodOption "grateful" "Grateful" 128591).
Proof.
  split; [|split].
  - unfold findMoodMeta, moodOptions. simpl find.
    repeat match goal with
      | |- context [if ?b then _ else _] => destruct b; [simpl; tauto|]
      end.
    simpl. tauto.
  - intros option Hin ->. simpl in Hin.
    repeat (destruct Hin as [<-|Hin]; [reflexivity|]). contradiction.
  - intros N. unfold findMoodMeta, moodOptions. simpl find.
    repeat match goal with
      | |- context [if is_str mood ?v then _ else _] =>
          destruct (is_str mood v) eqn:?; [exfalso|]
      end; try reflexivity;
    match goal with
    | H : is_str mood ?v = true |- False =>
        apply is_str_true in H;
        refine (N (mkMoodOption v _ _) _ H); simpl; tauto
    end.
Qed.

(** X22: the body the client posts for insights, against the check of the
    insights route.  The client posts unless it holds no entry, no mood
    and no stats.  When the first entry's text is a string (or missing),
    a configured gateway answers that body with 400 exactly when the text
    is blank and the client holds neither a first mood nor stats; in every
    other case the route sends its request to the model. *)
Theorem client_insights_payload_accepted (entries moods : list JsVal) (stats : JsVal)
        (p : JsVal) (s : string) (w : World) :
  OPENAI_API_KEY <> "" ->
  insights_payload entries moods stats = Some p ->
  get_prop p "entry" = JStr s ->
  (entries <> [] \/ moods <> [] \/ truthy stats = true) /\
  ((all_ws s && negb (truthy (nth 0 moods JUndefined)) && negb (truthy stats))%bool
   = true ->
     handler Insights p w
     = (Ok tt,
        mkWorld (sent w ++
                 [mkResponse (JNum 400)
                    (JObj [("error", JStr (validation_error Insights))])])
                (calls w))) /\
  ((all_ws s && negb (truthy (nth 0 moods JUndefined)) && negb (truthy stats))%bool
   = false ->
     exists req, calls (snd (handler Insights p w)) = (calls w ++ [req])%list).
Proof.
  intros K P Es. unfold insights_payload in P.
  destruct (Nat.eqb (List.length entries) 0 && Nat.eqb (List.length moods) 0
            && negb (truthy stats))%bool eqn:G; [discriminate|].
  injection P as <-. split.
  { destruct entries; [|left; discriminate].
    destruct moods; [|right; left; discriminate].
    right; right. simpl in G. destruct (truthy stats); [reflexivity | discriminate]. }
  match goal with
  | |- context [JObj [("entry", ?e); ("mood", ?m); ("stats", ?st); ("goals", JArr [])]] =>
      set (e0 := e) in *; set (m0 := m) in *; set (st0 := st) in *
  end.
  change (e0 = JStr s) in Es.
  assert (M : truthy (js_or m0 JNull) = truthy (nth 0 moods JUndefined)).
  { subst m0. rewrite !truthy_or_null.
    destruct (truthy (nth 0 moods JUndefined)) eqn:T; reflexivity. }
  assert (S : truthy (js_or st0 JNull) = truthy stats).
  { subst st0. destruct (truthy stats) eqn:T; reflexivity. }
  clearbody e0 m0 st0. subst e0.
  assert (B : String.eqb (str_slice0 (trim s) 800) "" = all_ws s).
  { destruct (all_ws s) eqn:A.
    - apply String.eqb_eq. apply str_slice0_empty_iff; [lia|].
      apply trim_empty_iff, A.
    - apply String.eqb_neq. intros X.
      apply str_slice0_empty_iff in X; [|lia].
      apply trim_empty_iff in X. congruence. }
  rewrite (route_runs_its_request Insights _ w (configured K)).
  unfold route_request, get_opt. cbn [nullish get_prop lookup String.eqb Ascii.eqb Bool.eqb].
  change (sanitize (JStr s) None) with (Ok (str_slice0 (trim s) 800)).
  cbn [rbind mapM]. rewrite B, M, S.
  split; intros C; rewrite C; [reflexivity|].
  eexists. rewrite settle_calls. reflexivity.
Qed.

(** X23: on a configured gateway [runJsonChat] sends exactly one request
    and writes no response.  The request asks for a JSON object from the
    configured model; its token budget is [options.maxTokens], or 400 when
    that is absent or 0; its temperature is [options.temperature], 0
    included, or 0.4 when absent.  A payload that is a string is sent as
    it is, any other payload is serialized. *)
Theorem runJsonChat_request (systemPrompt : string) (userPayload : JsVal)
        (options : JsonChatOptions) (w : World) :
  OPENAI_API_KEY <> "" ->
  exists req user_content,
    calls (snd (runJsonChat systemPrompt userPayload options w))
    = (calls w ++ [req])%list /\
    sent (snd (runJsonChat systemPrompt userPayload options w)) = sent w /\
    req_model req = OPENAI_MODEL /\
    req_response_format req = Some "json_object" /\
    req_messages req
    = [mkMessage "system" (JStr systemPrompt); mkMessage "user" user_content] /\
    (forall s, userPayload = JStr s -> user_content = JStr s) /\
    ((forall s, userPayload <> JStr s) -> user_content = JSON_stringify userPayload) /\
    (forall n, maxTokens options = Some n -> n <> 0 -> req_max_tokens req = Some n) /\
    (maxTokens options = None \/ maxTokens options = Some 0 ->
       req_max_tokens req = Some 400) /\
    (forall t, jc_temperature options = Some t -> req_temperature req = t) /\
    (jc_temperature options = None -> req_temperature req = (4 # 10)%Q).
Proof.
  intros K. apply configured in K.
  unfold runJsonChat, runChat, bind, ret. rewrite K.
  eexists _, _. split.
  { destruct (create _); reflexivity. }
  split. { destruct (create _); reflexivity. }
  cbn [req_model req_response_format req_messages req_max_tokens req_temperature
       response_format max_tokens temperature dflt].
  repeat split.
  - intros s ->. reflexivity.
  - intros N. destruct userPayload; try reflexivity. exfalso. apply (N s). reflexivity.
  - intros n -> Hn. destruct (Z.eqb_spec n 0); [contradiction | reflexivity].
  - intros [-> | ->]; reflexivity.
  - intros t ->. reflexivity.
  - intros ->. reflexivity.
Qed.

(** X24: once the model call has resolved, a route answers 200 or 502 and
    nothing else.  The six routes that forward the parsed object always
    answer 200, whatever the reply holds; 502 comes only from the prompt
    and chat routes, when the reply's content is neither a string nor
    missing, and from the goals route, when the parsed reply is null. *)
Theorem resolved_reply_status (op : Operation) (req_body : JsVal)
        (w w' : World) (r : result unit) (req : LlmRequest)
        (response : list (string * JsVal)) :
  handler op req_body w = (r, w') ->
  calls w' = (calls w ++ [req])%list ->
  create req = Resolved response ->
  exists resp,
    sent w' = (sent w ++ [resp])%list /\
    (status resp = JNum 200 \/
     (status resp = JNum 502 /\
      ((op = Prompt \/ op = Chat) /\
       nullish (reply_content response) = false /\
       (forall s, reply_content response <> JStr s)
       \/ op = Goals /\ nullish (json_of response) = true))).
Proof.
  intros H C R.
  destruct (route_after_resolved _ _ _ _ _ _ _ H C R) as (_ & S).
  eexists. split; [exact S|].
  unfold outcome_response.
  assert (Trim : forall v, (exists out, opt_trim v = Ok out) \/
                           (exists e, opt_trim v = Throw (TypeError e) /\
                                      nullish v = false /\
                                      forall s, v <> JStr s)).
  { intros v. destruct v; simpl; eauto;
      right; eexists; repeat split; discriminate. }
  destruct op; simpl; auto.
  - destruct (Trim (reply_content response)) as [[out ->]|(e & -> & N & NS)];
      simpl; auto. right. split; [reflexivity|]. left. auto.
  - unfold get_dot. destruct (nullish (json_of response)) eqn:N; simpl; auto.
  - destruct (Trim (reply_content response)) as [[out ->]|(e & -> & N & NS)];
      simpl; auto. right. split; [reflexivity|]. left. auto.
Qed.

End Gateway.

(* ================================================================== *)
(** ** The properties at concrete requests *)

Lemma C1_witness :
  OPENAI_API_KEY Sample.no_key_env = ""
  /\ handler Ref.JSON_parse Ref.JSON_stringify Sample.no_key_env
             (Sample.answers "{}") Insights
             (JObj [("entry", JStr "Had coffee with a friend")]) fresh
     = (Ok tt,
        mkWorld (sent fresh ++
                 [mkResponse (JNum 503)
                    (JObj [("ok", JBool false);
                           ("error",
                            JStr "OPENAI_API_KEY is not configured on the API gateway")])])
                (calls fresh))
  /\ (forall messages options,
        runChat Sample.no_key_env (Sample.answers "{}") messages options fresh
        = (Throw (Error "OPENAI_API_KEY is not configured on the API gateway"), fresh)).
Proof.
  split; [reflexivity|].
  exact (C1_unconfigured_answers_503 Ref.JSON_parse Ref.JSON_stringify
           Sample.no_key_env (Sample.answers "{}") Insights
           (JObj [("entry", JStr "Had coffee with a friend")]) fresh eq_refl).
Defined.

Lemma live_env_configured : OPENAI_API_KEY Sample.live_env <> "".
Proof. discriminate. Defined.

Lemma C2_witness :
  OPENAI_API_KEY Sample.live_env <> ""
  /\ input_missing Goals (JObj [("goals", JArr [JStr "   "])]) = Ok true
  /\ handler Ref.JSON_parse Ref.JSON_stringify Sample.live_env
             Sample.rate_limited Goals (JObj [("goals", JArr [JStr "   "])]) fresh
     = (Ok tt,
        mkWorld (sent fresh ++
                 [mkResponse (JNum 400)
                    (JObj [("error", JStr (validation_error Goals))])])
                (calls fresh))
  /\ validation_error Goals <> ""
  /\ mentions (validation_error Goals) (required_input Goals) = true.
Proof.
  split; [exact live_env_configured|]. split; [reflexivity|].
  exact (C2_missing_input_answers_400 Ref.JSON_parse Ref.JSON_stringify
           Sample.live_env Sample.rate_limited Goals
           (JObj [("goals", JArr [JStr "   "])]) fresh
           live_env_configured eq_refl).
Defined.

(** C2, as stated, fails: with no API key the goals route answers a body
    that has no goal with 503, not 400. *)
Lemma C2_counterexample :
  input_missing Goals (JObj [("goals", JArr [])]) = Ok true
  /\ handler Ref.JSON_parse Ref.JSON_stringify Sample.no_key_env
             (Sample.answers "{}") Goals (JObj [("goals", JArr [])]) fresh
     = (Ok tt,
        mkWorld [mkResponse (JNum 503)
                   (JObj [("ok", JBool false);
                          ("error",
                           JStr "OPENAI_API_KEY is not configured on the API gateway")])]
                [])
  /\ JNum 503 <> JNum 400.
Proof. split; [reflexivity|]. split; [reflexivity | discriminate]. Qed.

(** The same routes let an exception out before they validate: the goals
    route reads [entry] ahead of its check. *)
Lemma goals_route_raises_before_validation :
  input_missing Goals (JObj [("entry", Sample.shadowed)])
  = Throw (TypeError "Cannot convert object to primitive value")
  /\ handler Ref.JSON_parse Ref.JSON_stringify Sample.live_env
             (Sample.answers "{}") Goals (JObj [("entry", Sample.shadowed)]) fresh
     = (Throw (TypeError "Cannot convert object to primitive value"), fresh).
Proof. split; reflexivity. Qed.

(** C3: an exception leaves the chat route of a configured gateway when
    the conversation holds a null: reading [msg.role] raises outside the
    route's [try], no response is written and nothing reaches the model. *)
Theorem C3_exception_leaves_chat_route
        (JSON_parse : string -> result JsVal) (JSON_stringify : JsVal -> JsVal)
        (create : LlmRequest -> Reply) :
  handler JSON_parse JSON_stringify Sample.live_env create Chat
          (JObj [("conversation", JArr [JNull])]) fresh
  = (Throw (TypeError "Cannot read properties of null (reading 'role')"), fresh).
Proof. reflexivity. Qed.

(** Once the model call has failed, the mapping C3 describes holds. *)
Lemma upstream_failure_mapped_example :
  handler Ref.JSON_parse Ref.JSON_stringify Sample.live_env Sample.rate_limited
          Pattern (JObj [("entries", JArr [JObj [("text", JStr "walk")]])]) fresh
  = (Ok tt,
     mkWorld [mkResponse (JNum 429) (JObj [("error", JStr "Rate limit reached")])]
             [mkLlmRequest "gpt-4o-mini" (4 # 10)%Q (Some 380) (Some "json_object")
                [mkMessage "system"
                   (JStr "Analyse gratitude entries to build a life pattern map. Return JSON { themes: [string], triggers: [string], supportive_habits: [string] }.");
                 mkMessage "user"
                   (Ref.JSON_stringify
                      (JObj [("entries",
                              JArr [JObj [("text", JStr "walk");
                                          ("created_at", JNull)]])]))]]).
Proof. reflexivity. Qed.

Lemma C4_witness :
  let options := mkJsonChatOptions (Some 380) None in
  let payload := JObj [("entries", JArr [])] in
  let answered :=
    runJsonChat Ref.JSON_parse Ref.JSON_stringify Sample.live_env
                (Sample.answers "[1,2]") "Return JSON." payload options fresh in
  let refused :=
    runJsonChat Ref.JSON_parse Ref.JSON_stringify Sample.live_env
                Sample.rate_limited "Return JSON." payload options fresh in
  let request :=
    mkLlmRequest "gpt-4o-mini" (4 # 10)%Q (Some 380) (Some "json_object")
      [mkMessage "system" (JStr "Return JSON.");
       mkMessage "user" (Ref.JSON_stringify payload)] in
  Ref.JSON_parse "{}" = Ok (JObj [])
  /\ (exists e, Ref.JSON_parse "" = Throw e)
  /\ answered
     = (Ok (mkJsonChat (JArr [JNum 1; JNum 2]) (JObj [("total_tokens", JNum 42)])),
        mkWorld [] [request])
  /\ refused
     = (Throw [("name", JStr "RateLimitError"); ("status", JNum 429);
               ("message", JStr "Rate limit reached")],
        mkWorld [] [request]).
Proof.
  intros options payload answered refused request.
  assert (H1 : Ref.JSON_parse "{}" = Ok (JObj [])) by reflexivity.
  assert (H2 : exists e, Ref.JSON_parse "" = Throw e) by (eexists; reflexivity).
  split; [exact H1|]. split; [exact H2|]. split.
  - destruct (C4_runJsonChat_propagates_and_parses
                Ref.JSON_parse Ref.JSON_stringify Sample.live_env
                (Sample.answers "[1,2]") "Return JSON." payload options fresh H1 H2)
      as (_ & Returns).
    destruct (Returns _ _ eq_refl)
      as (j & u & E & Parsed & _ & _ & _ & _ & _ & Usage & _).
    unfold answered. rewrite E.
    rewrite (Parsed "[1,2]" (JArr [JNum 1; JNum 2]) eq_refl eq_refl).
    rewrite (Usage eq_refl). reflexivity.
  - destruct (C4_runJsonChat_propagates_and_parses
                Ref.JSON_parse Ref.JSON_stringify Sample.live_env
                Sample.rate_limited "Return JSON." payload options fresh H1 H2)
      as (Throws & _).
    exact (Throws _ _ eq_refl).
Defined.

(** [safeJsonParse] on a text that parses, on one that does not, with
    and without a fallback, and on a value that has no string form. *)
Lemma safeJsonParse_examples :
  safeJsonParse Ref.JSON_parse (JStr "[1,2]") (Some JNull) = JArr [JNum 1; JNum 2]
  /\ safeJsonParse Ref.JSON_parse (JStr "Sure! Here you go") None = JObj []
  /\ safeJsonParse Ref.JSON_parse (JStr "Sure! Here you go") (Some JNull) = JNull
  /\ safeJsonParse Ref.JSON_parse (JStr "Sure! Here you go") (Some JUndefined)
     = JObj []
  /\ safeJsonParse Ref.JSON_parse Sample.shadowed (Some (JArr [])) = JArr [].
Proof. repeat split. Qed.

(** What the JSON-mode invoker returns on three replies: valid JSON,
    noise, and no text at all. *)
Lemma runJsonChat_examples :
  fst (runJsonChat Ref.JSON_parse Ref.JSON_stringify Sample.live_env
         (Sample.answers "[1,2]") "Return JSON." (JStr "note") (only_max 320) fresh)
  = Ok (mkJsonChat (JArr [JNum 1; JNum 2]) (JObj [("total_tokens", JNum 42)]))
  /\ fst (runJsonChat Ref.JSON_parse Ref.JSON_stringify Sample.live_env
            (Sample.answers "Sure! Here you go") "Return JSON." (JStr "note")
            (only_max 320) fresh)
     = Ok (mkJsonChat (JObj []) (JObj [("total_tokens", JNum 42)]))
  /\ fst (runJsonChat Ref.JSON_parse Ref.JSON_stringify Sample.live_env
            (fun _ => Resolved [("choices", JArr [])]) "Return JSON." (JStr "note")
            (only_max 320) fresh)
     = Ok (mkJsonChat (JObj []) JNull)
  /\ fst (runJsonChat Ref.JSON_parse Ref.JSON_stringify Sample.live_env
            Sample.rate_limited "Return JSON." (JStr "note") (only_max 320) fresh)
     = Throw [("name", JStr "RateLimitError"); ("status", JNum 429);
              ("message", JStr "Rate limit reached")].
Proof. repeat split. Qed.

Lemma C5_witness :
  let create := Sample.answers "   " in
  let run := handler Ref.JSON_parse Ref.JSON_stringify Sample.live_env create
                     Prompt (JObj []) fresh in
  let req :=
    mkLlmRequest "gpt-4o-mini" (8 # 10)%Q (Some 100) None
      [mkMessage "system"
         (JStr "Create a single journaling prompt tailored to the user's current mood and context. Keep it under 220 characters.");
       mkMessage "user"
         (JStr ("Mood: curious" ++ newline ++
                "Focus request: balance and gratitude" ++ newline ++
                "Most recent entry: none"))] in
  let response :=
    [("choices",
      JArr [JObj [("message",
                   JObj [("role", JStr "assistant"); ("content", JStr "   ")])]]);
     ("usage", JObj [("total_tokens", JNum 42)])] in
  run = (fst run, snd run)
  /\ calls (snd run) = (calls fresh ++ [req])%list
  /\ create req = Resolved response
  /\ (fst run = Ok tt
      /\ sent (snd run)
         = (sent fresh ++
            [match success_body Ref.JSON_parse Prompt response with
             | Ok b => mkResponse (JNum 200) b
             | Throw e => failure_response Prompt e
             end])%list
      /\ forall b, success_body Ref.JSON_parse Prompt response = Ok b ->
           exists s, get_prop b "prompt" = JStr s /\ s <> "" /\
             (s = prompt_default \/
              exists t, reply_content response = JStr t /\ s = trim t)).
Proof.
  cbv zeta.
  assert (H1 : forall x : result unit * World, x = (fst x, snd x))
    by (intros [? ?]; reflexivity).
  split; [apply H1|]. split; [reflexivity|]. split; [reflexivity|].
  exact (C5_fallbacks_of_the_routes Ref.JSON_parse Ref.JSON_stringify
           Sample.live_env (Sample.answers "   ") Prompt (JObj []) fresh _ _ _ _
           (H1 _) eq_refl eq_refl).
Defined.

(** C5, as stated, fails: the insights route forwards the empty object of
    a model that left every field out, and the 200 response has no
    [summary] (nor any other insight field). *)
Lemma C5_counterexample :
  exists resp,
    sent (snd (handler Ref.JSON_parse Ref.JSON_stringify Sample.live_env
                 (Sample.answers "{}") Insights
                 (JObj [("entry", JStr "Had coffee with a friend")]) fresh))
    = [resp]
    /\ status resp = JNum 200
    /\ get_prop (body resp) "insights" = JObj []
    /\ get_prop (get_prop (body resp) "insights") "summary" = JUndefined
    /\ get_prop (get_prop (body resp) "insights") "primary_emotion" = JUndefined.
Proof. eexists. repeat split. Qed.

Lemma C6_witness :
  convertible (JArr [JStr "  calm"; JNull; JNum 7]) = true
  /\ exists out,
       sanitize (JArr [JStr "  calm"; JNull; JNum 7]) (Some (Z.of_nat 5)) = Ok out /\
       (String.length out <= 5)%nat /\
       starts_ws out = false /\
       (nullish (JArr [JStr "  calm"; JNull; JNum 7]) = true -> out = "") /\
       (nullish (JArr [JStr "  calm"; JNull; JNum 7]) = false ->
          exists s, ToString (JArr [JStr "  calm"; JNull; JNum 7]) = Ok s /\
                    out = substring 0 5 (trim s) /\
                    ((String.length (trim s) <= 5)%nat ->
                       out = trim s /\ ends_ws out = false)) /\
       sanitize (JArr [JStr "  calm"; JNull; JNum 7]) None
       = sanitize (JArr [JStr "  calm"; JNull; JNum 7]) (Some 800).
Proof.
  split; [reflexivity|].
  exact (C6_sanitize_bounded_prefix_of_trim
           (JArr [JStr "  calm"; JNull; JNum 7]) 5 eq_refl).
Defined.

Lemma sanitize_examples :
  sanitize JNull None = Ok ""
  /\ sanitize JUndefined (Some 10) = Ok ""
  /\ sanitize (JNum (-12)) None = Ok "-12"
  /\ sanitize (JBool true) (Some 2) = Ok "tr"
  /\ sanitize (JStr "  Had coffee with a friend  ") (Some 10) = Ok "Had coffee"
  /\ sanitize (JObj [("text", JStr "x")]) None = Ok "[object Object]"
  /\ sanitize Sample.shadowed None
     = Throw (TypeError "Cannot convert object to primitive value").
Proof. repeat split. Qed.

(** C6, as stated, fails: truncation comes after trimming, and cutting
    [ab cd] at three characters leaves a trailing space. *)
Lemma C6_counterexample :
  sanitize (JStr "ab cd") (Some 3) = Ok "ab "
  /\ ends_ws "ab " = true.
Proof. split; reflexivity. Qed.

Lemma C8_witness :
  let xs := JArr [JObj [("text", JStr "  went for a walk  ");
                        ("createdAt", JStr "2024-05-01T08:00:00Z")];
                  JStr "not a record"] in
  let ys := [JObj [("text", JStr "went for a walk");
                   ("created_at", JStr "2024-05-01T08:00:00Z")];
             JObj [("text", JStr ""); ("created_at", JNull)]] in
  0 <= dflt 20 None
  /\ normalizeEntries xs None = Ok ys
  /\ forallb (field_trimmed "text") ys = true
  /\ normalizeEntries (JArr ys) None = Ok ys.
Proof.
  cbv zeta.
  assert (H0 : 0 <= dflt 20 None) by (simpl; lia).
  split; [exact H0|]. split; [reflexivity|]. split; [reflexivity|].
  exact (proj2 (proj1 (C8_renormalize_fixed_iff_trimmed
                         (JArr [JObj [("text", JStr "  went for a walk  ");
                                      ("createdAt", JStr "2024-05-01T08:00:00Z")];
                                JStr "not a record"])
                         None _ H0) eq_refl) eq_refl).
Defined.

(** C8, as stated, fails: a text of 501 characters whose 500th is a space
    is cut to 500 characters by the first pass and trimmed to 499 by the
    second. *)
Lemma C8_counterexample :
  exists ys,
    normalizeEntries (JArr [JObj [("text", JStr Sample.long_text)]]) (Some 20) = Ok ys
    /\ normalizeEntries (JArr ys) (Some 20) <> Ok ys.
Proof.
  eexists. split; [vm_compute; reflexivity|].
  intros E.
  apply (f_equal (fun r => match r with
                           | Ok (JObj ((_, JStr t) :: _) :: _) => String.length t
                           | _ => O
                           end)) in E.
  vm_compute in E. discriminate.
Qed.

(** C9: [normalizeMoods] does not read [createdAt]: the timestamp of a
    mood sent under that key is lost (null), while [normalizeEntries]
    keeps the timestamp of an entry sent the same way. *)
Theorem C9_normalizeMoods_ignores_createdAt :
  normalizeMoods
    (JArr [JObj [("mood", JStr "calm"); ("createdAt", JStr "2024-05-01T08:00:00Z")]])
    None
  = Ok [JObj [("mood", JStr "calm"); ("note", JStr ""); ("created_at", JNull)]]
  /\ normalizeEntries
       (JArr [JObj [("text", JStr "walk"); ("createdAt", JStr "2024-05-01T08:00:00Z")]])
       None
     = Ok [JObj [("text", JStr "walk");
                 ("created_at", JStr "2024-05-01T08:00:00Z")]].
Proof. split; reflexivity. Qed.


(** With no history the chat route opens with the topic. *)
Lemma chat_topic_example :
  chat_messages (JObj [("topic", JStr "  sleep  "); ("conversation", JArr [])])
  = Ok [mkMessage "system" (JStr chat_system_prompt);
        mkMessage "user" (JStr "I'd like to talk about sleep.")]
  /\ chat_messages (JObj [])
     = Ok [mkMessage "system" (JStr chat_system_prompt);
           mkMessage "user" (JStr "I'd like to talk about overall wellbeing.")].
Proof. split; reflexivity. Qed.

(* ================================================================== *)
(** ** More properties at concrete requests *)

Lemma normalizeEntries_output_witness :
  let entries :=
    JArr [JObj [("text", JStr "  walk in the park "); ("created_at", JNum 1714550400)];
          JNull;
          JObj [("text", JNum 42); ("createdAt", JStr "2024-05-01T08:00:00Z")]] in
  let ys :=
    [JObj [("text", JStr "walk in the park"); ("created_at", JNum 1714550400)];
     JObj [("text", JStr ""); ("created_at", JNull)]] in
  normalizeEntries entries (Some 2) = Ok ys
  /\ (Forall2 (fun x y => normalizeEntry x = Ok y) (clipCollection entries (Some 2)) ys /\
      (0 <= dflt 20 (Some 2) -> (List.length ys <= Z.to_nat (dflt 20%Z (Some 2%Z)))%nat) /\
      Forall bounded_entry ys /\
      ((forall xs, entries <> JArr xs) -> ys = [])).
Proof.
  intros entries ys.
  assert (H : normalizeEntries entries (Some 2) = Ok ys) by reflexivity.
  split; [exact H|]. exact (normalizeEntries_output entries (Some 2) ys H).
Defined.

Lemma normalizeMoods_output_witness :
  let moods :=
    JArr [JObj [("mood", JStr " calm "); ("note", JStr "after the walk  ")];
          JStr "stressed"] in
  let ys :=
    [JObj [("mood", JStr "calm"); ("note", JStr "after the walk"); ("created_at", JNull)];
     JObj [("mood", JStr ""); ("note", JStr ""); ("created_at", JNull)]] in
  normalizeMoods moods None = Ok ys
  /\ (Forall2 (fun x y => normalizeMood x = Ok y) (clipCollection moods None) ys /\
      (0 <= dflt 20 None -> (List.length ys <= Z.to_nat (dflt 20%Z None))%nat) /\
      Forall bounded_mood ys /\
      ((forall xs, moods <> JArr xs) -> ys = [])).
Proof.
  intros moods ys.
  assert (H : normalizeMoods moods None = Ok ys) by reflexivity.
  split; [exact H|]. exact (normalizeMoods_output moods None ys H).
Defined.

Lemma normalizers_settle_witness :
  let xs := JArr [JObj [("text", JStr Sample.long_text)]] in
  let ys := [JObj [("text",
                    JStr (string_of_list_ascii (List.repeat "a"%char 499) ++ " "));
                   ("created_at", JNull)]] in
  0 <= dflt 20 (Some 20)
  /\ normalizeEntries xs (Some 20) = Ok ys
  /\ exists zs, normalizeEntries (JArr ys) (Some 20) = Ok zs /\
                normalizeEntries (JArr zs) (Some 20) = Ok zs.
Proof.
  intros xs ys.
  assert (H0 : 0 <= dflt 20 (Some 20)) by (simpl; lia).
  assert (H1 : normalizeEntries xs (Some 20) = Ok ys) by (vm_compute; reflexivity).
  split; [exact H0|]. split; [exact H1|].
  exact (proj1 (normalizers_settle xs (Some 20) ys H0) H1).
Defined.

Lemma sanitize_empty_iff_blank_witness :
  0 < 1800
  /\ sanitize (JStr "    ") (Some 1800) = Ok ""
  /\ ("" = "" <->
      nullish (JStr "    ") = true \/
      exists s, ToString (JStr "    ") = Ok s /\ all_ws s = true).
Proof.
  assert (H0 : 0 < 1800) by lia.
  assert (H1 : sanitize (JStr "    ") (Some 1800) = Ok "") by reflexivity.
  split; [exact H0|]. split; [exact H1|].
  exact (sanitize_empty_iff_blank (JStr "    ") 1800 "" H0 H1).
Defined.

Lemma sanitize_smaller_cap_is_prefix_witness :
  (400 <= 800)%nat
  /\ sanitize (JStr "  Had coffee with a friend  ") (Some (Z.of_nat 400))
     = Ok "Had coffee with a friend"
  /\ sanitize (JStr "  Had coffee with a friend  ") (Some (Z.of_nat 800))
     = Ok "Had coffee with a friend"
  /\ "Had coffee with a friend" = substring 0 400 "Had coffee with a friend".
Proof.
  assert (H0 : (400 <= 800)%nat) by lia.
  assert (H1 : sanitize (JStr "  Had coffee with a friend  ") (Some (Z.of_nat 400))
               = Ok "Had coffee with a friend") by reflexivity.
  assert (H2 : sanitize (JStr "  Had coffee with a friend  ") (Some (Z.of_nat 800))
               = Ok "Had coffee with a friend") by reflexivity.
  split; [exact H0|]. split; [exact H1|]. split; [exact H2|].
  exact (sanitize_smaller_cap_is_prefix _ 400 800 _ _ H0 H1 H2).
Defined.

Lemma route_request_parameters_witness :
  let body := JObj [("entries", JArr [JObj [("text", JStr "walk")]])] in
  let run := handler Ref.JSON_parse Ref.JSON_stringify Sample.live_env
                     (Sample.answers "{}") Pattern body fresh in
  let req :=
    mkLlmRequest "gpt-4o-mini" (4 # 10)%Q (Some 380) (Some "json_object")
      [mkMessage "system"
         (JStr "Analyse gratitude entries to build a life pattern map. Return JSON { themes: [string], triggers: [string], supportive_habits: [string] }.");
       mkMessage "user"
         (Ref.JSON_stringify
            (JObj [("entries",
                    JArr [JObj [("text", JStr "walk"); ("created_at", JNull)]])]))] in
  run = (fst run, snd run)
  /\ calls (snd run) = (calls fresh ++ [req])%list
  /\ (req_model req = OPENAI_MODEL Sample.live_env /\
      req_max_tokens req = Some (token_budget Pattern) /\
      req_temperature req = route_temperature Pattern /\
      req_response_format req
      = (if json_mode Pattern then Some "json_object" else None) /\
      exists sys rest,
        req_messages req = mkMessage "system" (JStr sys) :: rest /\
        (Pattern <> Chat -> exists c, rest = [mkMessage "user" c])).
Proof.
  intros body run req.
  assert (H1 : run = (fst run, snd run)) by (destruct run; reflexivity).
  assert (H2 : calls (snd run) = (calls fresh ++ [req])%list) by reflexivity.
  split; [exact H1|]. split; [exact H2|].
  exact (route_request_parameters Ref.JSON_parse Ref.JSON_stringify
           Sample.live_env (Sample.answers "{}") Pattern body fresh
           (snd run) (fst run) req H1 H2).
Defined.

Lemma goals_payload_bounded_witness :
  let body := JObj [("goals", JArr [JStr " run a marathon "; JStr "   "; JNum 7]);
                    ("entry", JStr "Morning jog")] in
  let run := handler Ref.JSON_parse Ref.JSON_stringify Sample.live_env
                     (Sample.answers "{}") Goals body fresh in
  let req :=
    mkLlmRequest "gpt-4o-mini" (4 # 10)%Q (Some 400) (Some "json_object")
      [mkMessage "system"
         (JStr "Relate the gratitude reflection to the user's life goals. Return JSON { reflections: [{ goal, insight, micro_action }] }.");
       mkMessage "user"
         (Ref.JSON_stringify
            (JObj [("goals", JArr [JStr "run a marathon"; JStr "7"]);
                   ("entry", JStr "Morning jog")]))] in
  run = (fst run, snd run)
  /\ calls (snd run) = (calls fresh ++ [req])%list
  /\ exists goals entry,
       req_messages req
       = [ mkMessage "system"
             (JStr "Relate the gratitude reflection to the user's life goals. Return JSON { reflections: [{ goal, insight, micro_action }] }.");
           mkMessage "user"
             (Ref.JSON_stringify
                (JObj [("goals", JArr (map JStr goals)); ("entry", JStr entry)])) ] /\
       (1 <= List.length goals <= 10)%nat /\
       Forall (fun g => g <> "" /\ (String.length g <= 160)%nat /\ starts_ws g = false)
              goals /\
       (String.length entry <= 400)%nat.
Proof.
  intros body run req.
  assert (H1 : run = (fst run, snd run)) by (destruct run; reflexivity).
  assert (H2 : calls (snd run) = (calls fresh ++ [req])%list) by reflexivity.
  split; [exact H1|]. split; [exact H2|].
  exact (goals_payload_bounded Ref.JSON_parse Ref.JSON_stringify
           Sample.live_env (Sample.answers "{}") body fresh
           (snd run) (fst run) req H1 H2).
Defined.

Lemma records_payload_bounded_witness :
  let body := JObj [("moods", JArr [JObj [("mood", JStr "calm")]])] in
  let run := handler Ref.JSON_parse Ref.JSON_stringify Sample.live_env
                     (Sample.answers "{}") Anomaly body fresh in
  let req :=
    mkLlmRequest "gpt-4o-mini" (4 # 10)%Q (Some 320) (Some "json_object")
      [mkMessage "system"
         (JStr "Detect emotional anomalies or mental health risks. Return JSON { risk_level, alerts: [string], recommendation }.");
       mkMessage "user"
         (Ref.JSON_stringify
            (JObj [("entries", JArr []);
                   ("moods",
                    JArr [JObj [("mood", JStr "calm"); ("note", JStr "");
                                ("created_at", JNull)]])]))] in
  (Anomaly = Summary \/ Anomaly = Anomaly \/ Anomaly = Pattern)
  /\ run = (fst run, snd run)
  /\ calls (snd run) = (calls fresh ++ [req])%list
  /\ exists sys fields entries,
       req_messages req
       = [ mkMessage "system" (JStr sys);
           mkMessage "user" (Ref.JSON_stringify (JObj fields)) ] /\
       lookup "entries" fields = Some (JArr entries) /\
       (List.length entries <= record_cap Anomaly)%nat /\
       Forall bounded_entry entries /\
       (Anomaly <> Pattern ->
          exists moods,
            lookup "moods" fields = Some (JArr moods) /\
            (List.length moods <= record_cap Anomaly)%nat /\
            Forall bounded_mood moods).
Proof.
  intros body run req.
  assert (H0 : Anomaly = Summary \/ Anomaly = Anomaly \/ Anomaly = Pattern) by auto.
  assert (H1 : run = (fst run, snd run)) by (destruct run; reflexivity).
  assert (H2 : calls (snd run) = (calls fresh ++ [req])%list) by reflexivity.
  split; [exact H0|]. split; [exact H1|]. split; [exact H2|].
  exact (records_payload_bounded Ref.JSON_parse Ref.JSON_stringify
           Sample.live_env (Sample.answers "{}") Anomaly body fresh
           (snd run) (fst run) req H0 H1 H2).
Defined.

Lemma transcript_note_precedence_witness :
  let body := JObj [("voice_note", JStr "   ");
                    ("voice_note_text", JStr " um so today was good ");
                    ("note", JStr "ignored")] in
  let run := handler Ref.JSON_parse Ref.JSON_stringify Sample.live_env
                     (Sample.answers "{}") Transcript body fresh in
  let req :=
    mkLlmRequest "gpt-4o-mini" (4 # 10)%Q (Some 320) (Some "json_object")
      [mkMessage "system"
         (JStr "You clean up raw voice note text into a polished transcript. Return JSON { transcript, emotions: [string], highlights: [string], action_item }.");
       mkMessage "user" (JStr "um so today was good")] in
  run = (fst run, snd run)
  /\ calls (snd run) = (calls fresh ++ [req])%list
  /\ exists sys note,
       req_messages req
       = [ mkMessage "system" (JStr sys); mkMessage "user" (JStr note) ] /\
       note <> "" /\ (String.length note <= 1800)%nat /\
       exists n1, sanitize (get_opt body "voice_note") (Some 1800) = Ok n1 /\
         (n1 <> "" -> note = n1) /\
         (n1 = "" ->
            exists n2, sanitize (get_opt body "voice_note_text") (Some 1800) = Ok n2 /\
              (n2 <> "" -> note = n2) /\
              (n2 = "" -> sanitize (get_opt body "note") (Some 1800) = Ok note)).
Proof.
  intros body run req.
  assert (H1 : run = (fst run, snd run)) by (destruct run; reflexivity).
  assert (H2 : calls (snd run) = (calls fresh ++ [req])%list) by reflexivity.
  split; [exact H1|]. split; [exact H2|].
  exact (transcript_note_precedence Ref.JSON_parse Ref.JSON_stringify
           Sample.live_env (Sample.answers "{}") body fresh
           (snd run) (fst run) req H1 H2).
Defined.

Lemma prompt_message_bounded_witness :
  let body := JObj [("mood", JStr "tired"); ("entry", JStr "Slept late")] in
  let run := handler Ref.JSON_parse Ref.JSON_stringify Sample.live_env
                     (Sample.answers "What gave you energy today?") Prompt body fresh in
  let req :=
    mkLlmRequest "gpt-4o-mini" (8 # 10)%Q (Some 100) None
      [mkMessage "system"
         (JStr "Create a single journaling prompt tailored to the user's current mood and context. Keep it under 220 characters.");
       mkMessage "user"
         (JStr ("Mood: tired" ++ newline ++
                "Focus request: balance and gratitude" ++ newline ++
                "Most recent entry: Slept late"))] in
  run = (fst run, snd run)
  /\ calls (snd run) = (calls fresh ++ [req])%list
  /\ exists sys mood focus entry,
       req_messages req
       = [ mkMessage "system" (JStr sys);
           mkMessage "user"
             (JStr ("Mood: " ++ mood ++ newline ++
                    "Focus request: " ++ focus ++ newline ++
                    "Most recent entry: " ++ entry)) ] /\
       (String.length mood <= 40)%nat /\ mood <> "" /\
       (String.length focus <= 200)%nat /\ focus <> "" /\
       (String.length entry <= 400)%nat /\ entry <> "" /\
       (String.length ("Mood: " ++ mood ++ newline ++
                       "Focus request: " ++ focus ++ newline ++
                       "Most recent entry: " ++ entry) <= 682)%nat /\
       exists m f e,
         sanitize (get_opt body "mood") (Some 40) = Ok m /\
         sanitize (get_opt body "focus") (Some 200) = Ok f /\
         sanitize (get_opt body "entry") (Some 400) = Ok e /\
         (m <> "" -> mood = m) /\ (m = "" -> mood = "curious") /\
         (f <> "" -> focus = f) /\ (f = "" -> focus = "balance and gratitude") /\
         (e <> "" -> entry = e) /\ (e = "" -> entry = "none").
Proof.
  intros body run req.
  assert (H1 : run = (fst run, snd run)) by (destruct run; reflexivity).
  assert (H2 : calls (snd run) = (calls fresh ++ [req])%list) by reflexivity.
  split; [exact H1|]. split; [exact H2|].
  exact (prompt_message_bounded Ref.JSON_parse Ref.JSON_stringify
           Sample.live_env (Sample.answers "What gave you energy today?") body fresh
           (snd run) (fst run) req H1 H2).
Defined.

Lemma chat_messages_bounded_witness :
  let body := JObj [("topic", JStr "sleep");
                    ("conversation",
                     JArr [JObj [("role", JStr "user"); ("content", JStr "   ")];
                           JStr "hello"])] in
  let run := handler Ref.JSON_parse Ref.JSON_stringify Sample.live_env
                     (Sample.answers "Breathe.") Chat body fresh in
  let req :=
    mkLlmRequest "gpt-4o-mini" (7 # 10)%Q (Some 360) None
      [mkMessage "system" (JStr chat_system_prompt)] in
  run = (fst run, snd run)
  /\ calls (snd run) = (calls fresh ++ [req])%list
  /\ (Forall (fun m => exists c, content m = JStr c /\ c <> "" /\
                                 (String.length c <= 1200)%nat) (req_messages req) /\
      (forall history, get_opt body "conversation" = JArr history ->
         history <> [] ->
         (List.length (req_messages req) <= 1 + List.length history)%nat /\
         (Forall (fun msg => history_message msg = Ok None) history ->
            req_messages req = [mkMessage "system" (JStr chat_system_prompt)])) /\
      ((forall first others, get_opt body "conversation" <> JArr (first :: others)) ->
         List.length (req_messages req) = 2%nat)).
Proof.
  intros body run req.
  assert (H1 : run = (fst run, snd run)) by (destruct run; reflexivity).
  assert (H2 : calls (snd run) = (calls fresh ++ [req])%list) by reflexivity.
  split; [exact H1|]. split; [exact H2|].
  exact (chat_messages_bounded Ref.JSON_parse Ref.JSON_stringify
           Sample.live_env (Sample.answers "Breathe.") body fresh
           (snd run) (fst run) req H1 H2).
Defined.


Lemma insights_payload_passthrough_witness :
  let body := JObj [("entry", JStr " Had coffee with a friend ");
                    ("mood", JObj [("mood", JStr "happy")]);
                    ("goals", JArr [JStr "call mum"; JNull])] in
  let run := handler Ref.JSON_parse Ref.JSON_stringify Sample.live_env
                     (Sample.answers "{}") Insights body fresh in
  let req :=
    mkLlmRequest "gpt-4o-mini" (4 # 10)%Q (Some 350) (Some "json_object")
      [mkMessage "system"
         (JStr "You are an empathetic AI mentor. Analyse the data and output JSON with keys primary_emotion, summary, reflection, action_item, risk_level (low|medium|high), and partner_share (short supportive sentence).");
       mkMessage "user"
         (Ref.JSON_stringify
            (JObj [("entry", JStr "Had coffee with a friend");
                   ("mood", JObj [("mood", JStr "happy")]);
                   ("stats", JNull);
                   ("goals", JArr [JStr "call mum"; JStr ""])]))] in
  run = (fst run, snd run)
  /\ calls (snd run) = (calls fresh ++ [req])%list
  /\ exists sys entry goals,
       req_messages req
       = [ mkMessage "system" (JStr sys);
           mkMessage "user"
             (Ref.JSON_stringify
                (JObj [("entry", JStr entry);
                       ("mood", js_or (get_opt body "mood") JNull);
                       ("stats", js_or (get_opt body "stats") JNull);
                       ("goals", JArr (map JStr goals))])) ] /\
       (String.length entry <= 800)%nat /\
       Forall (fun g => (String.length g <= 120)%nat) goals /\
       (forall gs, get_opt body "goals" = JArr gs ->
                   List.length goals = List.length gs) /\
       ((forall gs, get_opt body "goals" <> JArr gs) -> goals = []).
Proof.
  intros body run req.
  assert (H1 : run = (fst run, snd run)) by (destruct run; reflexivity).
  assert (H2 : calls (snd run) = (calls fresh ++ [req])%list) by reflexivity.
  split; [exact H1|]. split; [exact H2|].
  exact (insights_payload_passthrough Ref.JSON_parse Ref.JSON_stringify
           Sample.live_env (Sample.answers "{}") body fresh
           (snd run) (fst run) req H1 H2).
Defined.

Lemma prompt_and_chat_require_no_input_witness :
  let run := handler Ref.JSON_parse Ref.JSON_stringify Sample.live_env
                     Sample.rate_limited Prompt (JObj []) fresh in
  OPENAI_API_KEY Sample.live_env <> ""
  /\ (Prompt = Prompt \/ Prompt = Chat)
  /\ (((exists req, calls (snd run) = (calls fresh ++ [req])%list)
       \/ (exists e, run = (Throw e, fresh)))
      /\ (forall resp,
            sent (snd run) = (sent fresh ++ [resp])%list ->
            status resp = JNum 400 ->
            exists req err,
              calls (snd run) = (calls fresh ++ [req])%list /\
              Sample.rate_limited req = Rejected err /\
              js_or (get_prop (JObj err) "status")
                    (js_or (get_prop (JObj err) "statusCode") (JNum 502))
              = JNum 400)
      /\ (Prompt = Prompt ->
          convertible (get_opt (JObj []) "focus") = true ->
          convertible (get_opt (JObj []) "mood") = true ->
          convertible (get_opt (JObj []) "entry") = true ->
          exists req, calls (snd run) = (calls fresh ++ [req])%list)).
Proof.
  intros run.
  assert (H0 : Prompt = Prompt \/ Prompt = Chat) by auto.
  split; [exact live_env_configured|]. split; [exact H0|].
  exact (prompt_and_chat_require_no_input Ref.JSON_parse Ref.JSON_stringify
           Sample.live_env Sample.rate_limited Prompt (JObj []) fresh
           live_env_configured H0).
Defined.

(** A model call rejected with status 400 is answered 400 by the prompt
    route; one rejected with a status Node refuses leaves the route with
    the request sent and nothing written. *)
Lemma upstream_status_examples :
  let bad_request : LlmRequest -> Reply :=
    fun _ => Rejected [("status", JNum 400); ("message", JStr "Bad request")] in
  let odd_status : LlmRequest -> Reply :=
    fun _ => Rejected [("status", JNum 99); ("message", JStr "odd")] in
  let run := handler Ref.JSON_parse Ref.JSON_stringify Sample.live_env in
  sent (snd (run bad_request Prompt (JObj []) fresh))
  = [mkResponse (JNum 400) (JObj [("error", JStr "Bad request")])]
  /\ (exists e, fst (run odd_status Prompt (JObj []) fresh) = Throw e /\
                 get_prop (JObj e) "name" = JStr "RangeError")
  /\ sent (snd (run odd_status Prompt (JObj []) fresh)) = []
  /\ List.length (calls (snd (run odd_status Prompt (JObj []) fresh))) = 1%nat.
Proof.
  intros bad_request odd_status run. split; [reflexivity|].
  split; [eexists; split; reflexivity|]. split; reflexivity.
Qed.

Lemma list_limit_capped_witness :
  list_limit (JStr "9999") = Ok 200
  /\ (200 <= 200 /\ 200 <> 0 /\
      (truthy (JStr "9999") = false -> 200 = 50) /\
      (forall s, JStr "9999" = JStr s -> parseInt10 s = None -> 200 = 50) /\
      (forall n, JStr "9999" = JStr (Z_to_string n) ->
         (n = 0 -> 200 = 50) /\
         (0 < n <= 200 -> 200 = n) /\
         (200 < n -> 200 = 200) /\
         (- 9007199254740992 <= n < 0 -> 200 = n))).
Proof.
  assert (H : list_limit (JStr "9999") = Ok 200) by reflexivity.
  split; [exact H|]. exact (list_limit_capped (JStr "9999") 200 H).
Defined.

(** The limit of the list route on a few queries. *)
Lemma list_limit_examples :
  list_limit JUndefined = Ok 50
  /\ list_limit (JStr "") = Ok 50
  /\ list_limit (JStr "abc") = Ok 50
  /\ list_limit (JStr "0") = Ok 50
  /\ list_limit (JStr "25") = Ok 25
  /\ list_limit (JStr " 25 rows") = Ok 25
  /\ list_limit (JStr "9999") = Ok 200
  /\ list_limit (JStr "-5") = Ok (-5)
  /\ list_limit (JArr [JStr "7"; JStr "9"]) = Ok 7.
Proof. repeat split. Qed.

Lemma get_entries_all_outcome_witness :
  let service :=
    fun limit : Z =>
      Succeeded
        [("entries",
          JArr [JObj [("id", JStr "2"); ("text", JStr "sun");
                      ("created_at", JStr "2024-05-02"); ("owner", JStr "x")];
                JObj [("id", JStr "1"); ("text", JStr "tea");
                      ("created_at", JStr "2024-05-01")]])] in
  list_limit (JStr "10") = Ok 10
  /\ (service_calls (get_entries_all service (JStr "10")) = [CallListEntries 10] /\
      (forall err, service 10 = Failed err ->
         replies (get_entries_all service (JStr "10"))
         = [mkResponse (JNum 500) (JObj [("error", get_prop (JObj err) "message")])]
         /\ raised (get_entries_all service (JStr "10")) = None) /\
      (forall listed es, service 10 = Succeeded listed ->
         get_prop (JObj listed) "entries" = JArr es ->
         Forall (fun e => nullish e = false) es ->
         replies (get_entries_all service (JStr "10"))
         = [mkResponse (JNum 200)
              (JObj [("rows",
                      JArr (map (fun e => JObj [("id", get_prop e "id");
                                                ("text", get_prop e "text");
                                                ("created_at", get_prop e "created_at")])
                                es))])]
         /\ raised (get_entries_all service (JStr "10")) = None) /\
      (forall listed, service 10 = Succeeded listed ->
         truthy (get_prop (JObj listed) "entries") = false ->
         replies (get_entries_all service (JStr "10"))
         = [mkResponse (JNum 200) (JObj [("rows", JArr [])])])).
Proof.
  intros service.
  assert (H : list_limit (JStr "10") = Ok 10) by reflexivity.
  split; [exact H|].
  exact (get_entries_all_outcome service (JStr "10") 10 H).
Defined.

(** The list route on a service that fails, and on one that lists. *)
Lemma get_entries_all_examples :
  get_entries_all (fun _ => Failed (Error "14 UNAVAILABLE")) (JStr "9999")
  = mkExchange [CallListEntries 200]
      [mkResponse (JNum 500) (JObj [("error", JStr "14 UNAVAILABLE")])] None
  /\ get_entries_all
       (fun _ => Succeeded
                   [("entries",
                     JArr [JObj [("id", JStr "2"); ("text", JStr "sun");
                                 ("created_at", JStr "2024-05-02");
                                 ("owner", JStr "x")]])])
       JUndefined
     = mkExchange [CallListEntries 50]
         [mkResponse (JNum 200)
            (JObj [("rows",
                    JArr [JObj [("id", JStr "2"); ("text", JStr "sun");
                                ("created_at", JStr "2024-05-02")]])])] None.
Proof. split; reflexivity. Qed.

(** The create route on a text with blanks around it, and on a text whose
    string form cannot be taken. *)
Lemma post_entries_examples :
  let service := fun text : string => Succeeded [("id", JStr "3"); ("text", JStr text)] in
  post_entries service (JObj [("text", JStr "  Sunny walk  ")])
  = mkExchange [CallCreateEntry "Sunny walk"]
      [mkResponse (JNum 200)
         (JObj [("ok", JBool true);
                ("entry", JObj [("id", JStr "3"); ("text", JStr "Sunny walk")])])]
      None
  /\ post_entries service (JObj [("text", Sample.shadowed)])
     = mkExchange [] []
         (Some (TypeError "Cannot convert object to primitive value")).
Proof. split; reflexivity. Qed.

(** The create route calls the service with the empty text when the body
    has none, and answers with the service's refusal. *)
Lemma post_entries_empty_example :
  post_entries (fun _ => Failed (Error "text is required")) (JObj [])
  = mkExchange [CallCreateEntry ""]
      [mkResponse (JNum 400)
         (JObj [("ok", JBool false); ("error", JStr "text is required")])] None.
Proof. reflexivity. Qed.

Lemma client_insights_payload_accepted_witness :
  let entries := [JObj [("id", JStr "1"); ("text", JStr "   ")]] in
  let p := JObj [("entry", JStr "   "); ("mood", JNull); ("stats", JNull);
                 ("goals", JArr [])] in
  OPENAI_API_KEY Sample.live_env <> ""
  /\ insights_payload entries [] JNull = Some p
  /\ get_prop p "entry" = JStr "   "
  /\ ((entries <> [] \/ @nil JsVal <> [] \/ truthy JNull = true) /\
      ((all_ws "   " && negb (truthy (nth 0 (@nil JsVal) JUndefined))
        && negb (truthy JNull))%bool = true ->
         handler Ref.JSON_parse Ref.JSON_stringify Sample.live_env
                 (Sample.answers "{}") Insights p fresh
         = (Ok tt,
            mkWorld (sent fresh ++
                     [mkResponse (JNum 400)
                        (JObj [("error", JStr (validation_error Insights))])])
                    (calls fresh))) /\
      ((all_ws "   " && negb (truthy (nth 0 (@nil JsVal) JUndefined))
        && negb (truthy JNull))%bool = false ->
         exists req,
           calls (snd (handler Ref.JSON_parse Ref.JSON_stringify Sample.live_env
                         (Sample.answers "{}") Insights p fresh))
           = (calls fresh ++ [req])%list)).
Proof.
  intros entries p.
  assert (H1 : insights_payload entries [] JNull = Some p) by reflexivity.
  assert (H2 : get_prop p "entry" = JStr "   ") by reflexivity.
  split; [exact live_env_configured|]. split; [exact H1|]. split; [exact H2|].
  exact (client_insights_payload_accepted Ref.JSON_parse Ref.JSON_stringify
           Sample.live_env (Sample.answers "{}") entries [] JNull p "   " fresh
           live_env_configured H1 H2).
Defined.

(** The client posts for insights with one blank entry and nothing else,
    and the gateway answers that body with 400. *)
Lemma client_blank_entry_is_refused :
  exists p,
    insights_payload [JObj [("id", JStr "1"); ("text", JStr "   ")]] [] JNull = Some p
    /\ sent (snd (handler Ref.JSON_parse Ref.JSON_stringify Sample.live_env
                    (Sample.answers "{}") Insights p fresh))
       = [mkResponse (JNum 400)
            (JObj [("error",
                    JStr "Provide at least an entry, mood, or stats snapshot.")])].
Proof. eexists. split; reflexivity. Qed.

Lemma runJsonChat_request_witness :
  let run := runJsonChat Ref.JSON_parse Ref.JSON_stringify Sample.live_env
               Sample.rate_limited "Return JSON." (JStr "note")
               (mkJsonChatOptions (Some 0) (Some 0%Q)) fresh in
  OPENAI_API_KEY Sample.live_env <> ""
  /\ exists req user_content,
       calls (snd run) = (calls fresh ++ [req])%list /\
       sent (snd run) = sent fresh /\
       req_model req = OPENAI_MODEL Sample.live_env /\
       req_response_format req = Some "json_object" /\
       req_messages req
       = [mkMessage "system" (JStr "Return JSON."); mkMessage "user" user_content] /\
       (forall s, JStr "note" = JStr s -> user_content = JStr s) /\
       ((forall s, JStr "note" <> JStr s) ->
          user_content = Ref.JSON_stringify (JStr "note")) /\
       (forall n, maxTokens (mkJsonChatOptions (Some 0) (Some 0%Q)) = Some n ->
                  n <> 0 -> req_max_tokens req = Some n) /\
       (maxTokens (mkJsonChatOptions (Some 0) (Some 0%Q)) = None \/
        maxTokens (mkJsonChatOptions (Some 0) (Some 0%Q)) = Some 0 ->
          req_max_tokens req = Some 400) /\
       (forall t, jc_temperature (mkJsonChatOptions (Some 0) (Some 0%Q)) = Some t ->
                  req_temperature req = t) /\
       (jc_temperature (mkJsonChatOptions (Some 0) (Some 0%Q)) = None ->
          req_temperature req = (4 # 10)%Q).
Proof.
  intros run. split; [exact live_env_configured|].
  exact (runJsonChat_request Ref.JSON_parse Ref.JSON_stringify Sample.live_env
           Sample.rate_limited "Return JSON." (JStr "note")
           (mkJsonChatOptions (Some 0) (Some 0%Q)) fresh live_env_configured).
Defined.

Lemma resolved_reply_status_witness :
  let create : LlmRequest -> Reply :=
    fun _ => Resolved [("choices",
                        JArr [JObj [("message", JObj [("content", JNum 7)])]])] in
  let run := handler Ref.JSON_parse Ref.JSON_stringify Sample.live_env
                     create Chat (JObj []) fresh in
  let req :=
    mkLlmRequest "gpt-4o-mini" (7 # 10)%Q (Some 360) None
      [mkMessage "system" (JStr chat_system_prompt);
       mkMessage "user" (JStr "I'd like to talk about overall wellbeing.")] in
  let response :=
    [("choices", JArr [JObj [("message", JObj [("content", JNum 7)])]])] in
  run = (fst run, snd run)
  /\ calls (snd run) = (calls fresh ++ [req])%list
  /\ create req = Resolved response
  /\ exists resp,
       sent (snd run) = (sent fresh ++ [resp])%list /\
       (status resp = JNum 200 \/
        (status resp = JNum 502 /\
         ((Chat = Prompt \/ Chat = Chat) /\
          nullish (reply_content response) = false /\
          (forall s, reply_content response <> JStr s)
          \/ Chat = Goals /\ nullish (json_of Ref.JSON_parse response) = true))).
Proof.
  intros create run req response.
  assert (H1 : run = (fst run, snd run)) by (destruct run; reflexivity).
  assert (H2 : calls (snd run) = (calls fresh ++ [req])%list) by reflexivity.
  assert (H3 : create req = Resolved response) by reflexivity.
  split; [exact H1|]. split; [exact H2|]. split; [exact H3|].
  exact (resolved_reply_status Ref.JSON_parse Ref.JSON_stringify
           Sample.live_env create Chat (JObj []) fresh
           (snd run) (fst run) req response H1 H2 H3).
Defined.
